(** * slack-utils formatter scripts: format-links.py and foc-md-formatter.py

    A shallow embedding of the two formatter scripts of the repository and
    the proofs of the properties their specification states about them.

    Conventions of the embedding.
    - A Python [str] is a Rocq [string], a sequence of one-byte characters.
      Text outside ASCII is carried as its UTF-8 bytes, so the per-character
      operations (slices, [float]'s character classes) are those of Python on
      ASCII text, which is what Slack identifiers, timestamps and mimetypes
      are made of.
    - The [headers] and [body] dictionaries are JSON objects whose members
      are strings, as in the request format documented at the top of both
      scripts: [gmap string string].  [d.get(k)] is [d !! k].  A member that
      is a number, [null] or a list, on which the code raises a TypeError or
      an AttributeError that [main] reports with status 1, is outside the
      embedding; so is JSON that is not an object of such objects.
    - A formatter prints to stderr when [verbose] is set and may raise: it
      is a computation in the monad [M] (lines written, then an exception or
      a value).
    - [float] and [datetime] are those of CPython on a POSIX platform:
      [float(s)] is the binary64 number nearest to the literal, and
      [datetime.fromtimestamp(x, tz=timezone.utc)] rounds to the microsecond,
      half to even, and accepts the years 1 to 9999, negative timestamps
      included.
    - [main] is the run of a script without [--test], on what it finds on
      stdin once decoded. *)

From Stdlib Require Import ZArith QArith Qround String Ascii List DecimalString Lia Lqa.
From stdpp Require Import gmap strings.

Local Open Scope string_scope.
Local Open Scope Z_scope.

(** ** Python built-ins used by the scripts *)
Module Py.

(** Truth value of a string: only the empty string is falsy. *)
Definition truthy (s : string) : bool :=
  match s with
  | EmptyString => false
  | String _ _ => true
  end.

(** [d.get(k) or rest]: the member when it is present and truthy. *)
Definition get_or (d : gmap string string) (k : string) (rest : string) : string :=
  match d !! k with
  | Some s => if truthy s then s else rest
  | None => rest
  end.

(** [d.get(k, dflt)] *)
Definition get_default (d : gmap string string) (k : string) (dflt : string) : string :=
  match d !! k with
  | Some s => s
  | None => dflt
  end.

(** [len(s)] *)
Definition len (s : string) : Z := Z.of_nat (String.length s).

(** [s[:n]] for a literal [n >= 0].  It cuts bytes where Python cuts code
    points: the two agree on ASCII text. *)
Definition slice_to (n : nat) (s : string) : string := substring 0 n s.

Fixpoint drop (n : nat) (s : string) : string :=
  match n, s with
  | O, _ => s
  | S _, EmptyString => EmptyString
  | S n', String _ s' => drop n' s'
  end.

(** [s[i:]]: a negative start counts from the end, and both are clamped. *)
Definition slice_from (i : Z) (s : string) : string :=
  if i <? 0 then drop (Z.to_nat (Z.max 0 (len s + i))) s
  else drop (Z.to_nat i) s.

(** [sub in s] *)
Fixpoint str_in (sub s : string) : bool :=
  String.prefix sub s ||
  match s with
  | EmptyString => false
  | String _ s' => str_in sub s'
  end.

(** [s.rfind(c)] for a one-character [c]: the highest index, or -1. *)
Fixpoint rfind_from (c : ascii) (s : string) (i last : Z) : Z :=
  match s with
  | EmptyString => last
  | String a s' => rfind_from c s' (i + 1) (if Ascii.eqb a c then i else last)
  end.

Definition rfind (c : ascii) (s : string) : Z := rfind_from c s 0 (-1).

(** [s.replace(c, new)] for a one-character [c]. *)
Fixpoint replace (c : ascii) (new : string) (s : string) : string :=
  match s with
  | EmptyString => EmptyString
  | String a s' =>
      if Ascii.eqb a c then new +:+ replace c new s'
      else String a (replace c new s')
  end.

(** [s.split(c)] for a one-character [c]: never empty. *)
Fixpoint split (c : ascii) (s : string) : list string :=
  match s with
  | EmptyString => [EmptyString]
  | String a s' =>
      if Ascii.eqb a c then EmptyString :: split c s'
      else match split c s' with
           | hd :: tl => String a hd :: tl
           | [] => [String a EmptyString]
           end
  end.

(** [str(n)] of an [int], also [f"{n}"]. *)
Definition str_of_int (n : Z) : string := NilZero.string_of_int (Z.to_int n).

Fixpoint zeros (k : nat) : string :=
  match k with
  | O => EmptyString
  | S k' => String "0" (zeros k')
  end.

(** [f"{n:0wd}"]: the sign first, then zeros up to the width. *)
Definition zero_pad (w : nat) (n : Z) : string :=
  if n <? 0 then
    let digits := str_of_int (- n) in
    "-" +:+ zeros (w - 1 - String.length digits) +:+ digits
  else
    let digits := str_of_int n in
    zeros (w - String.length digits) +:+ digits.

(** The character of a code point, as its UTF-8 bytes: what an escape
    such as [\U0001f9f5] stands for in a literal. *)
Definition unichr (cp : Z) : string :=
  let byte (n : Z) := ascii_of_nat (Z.to_nat n) in
  let cont (n : Z) := byte (128 + n mod 64) in
  if cp <? 128 then String (byte cp) ""
  else if cp <? 2048 then String (byte (192 + cp / 64)) (String (cont cp) "")
  else if cp <? 65536 then
    String (byte (224 + cp / 4096)) (String (cont (cp / 64)) (String (cont cp) ""))
  else
    String (byte (240 + cp / 262144))
      (String (cont (cp / 4096)) (String (cont (cp / 64)) (String (cont cp) ""))).

(** *** [float(s)]

    The text is stripped of white space, underscores are allowed between
    digits only, and what remains is a signed decimal literal with an
    optional fraction and exponent, or an infinity or a NaN.  The value is
    the literal's exact value rounded to the nearest binary64 number, ties
    to even.  This is [float] on ASCII text; [float] also takes the decimal
    digits and the white space of Unicode beyond ASCII, which are not
    modelled. *)

Inductive float : Type :=
| Finite (q : Q)
| Inf (negative : bool)
| NaN.

Definition is_space (a : ascii) : bool :=
  let n := Z.of_nat (nat_of_ascii a) in
  ((9 <=? n) && (n <=? 13)) || (n =? 32).

Definition is_digit (a : ascii) : bool :=
  let n := Z.of_nat (nat_of_ascii a) in
  (48 <=? n) && (n <=? 57).

Definition digit_value (a : ascii) : Z := Z.of_nat (nat_of_ascii a) - 48.

Fixpoint lstrip (s : string) : string :=
  match s with
  | EmptyString => EmptyString
  | String a s' => if is_space a then lstrip s' else s
  end.

Fixpoint rstrip (s : string) : string :=
  match s with
  | EmptyString => EmptyString
  | String a s' =>
      match rstrip s' with
      | EmptyString => if is_space a then EmptyString else String a EmptyString
      | t => String a t
      end
  end.

(** [s.strip()] *)
Definition strip (s : string) : string := rstrip (lstrip s).

(** An underscore must follow a digit and be followed by a digit; the
    result is the text without its underscores. *)
Fixpoint drop_underscores (prev : option ascii) (s : string) : option string :=
  match s with
  | EmptyString =>
      match prev with
      | Some "_"%char => None
      | _ => Some EmptyString
      end
  | String a s' =>
      if Ascii.eqb a "_" then
        match prev with
        | Some p => if is_digit p then drop_underscores (Some a) s' else None
        | None => None
        end
      else
        match prev with
        | Some "_"%char =>
            if is_digit a then option_map (String a) (drop_underscores (Some a) s')
            else None
        | _ => option_map (String a) (drop_underscores (Some a) s')
        end
  end.

(** The leading digits of a text, and the rest. *)
Fixpoint span_digits (s : string) : string * string :=
  match s with
  | EmptyString => (EmptyString, EmptyString)
  | String a s' =>
      if is_digit a then let '(ds, rest) := span_digits s' in (String a ds, rest)
      else (EmptyString, s)
  end.

Fixpoint digits_value (acc : Z) (ds : string) : Z :=
  match ds with
  | EmptyString => acc
  | String a ds' => digits_value (10 * acc + digit_value a) ds'
  end.

Definition lower (a : ascii) : ascii :=
  let n := nat_of_ascii a in
  if (65 <=? Z.of_nat n) && (Z.of_nat n <=? 90) then ascii_of_nat (n + 32) else a.

Fixpoint lowercase (s : string) : string :=
  match s with
  | EmptyString => EmptyString
  | String a s' => String (lower a) (lowercase s')
  end.

Definition pow10 (e : Z) : Q :=
  if 0 <=? e then inject_Z (10 ^ e) else 1 # Z.to_pos (10 ^ (- e)).

Definition pow2 (e : Z) : Q :=
  if 0 <=? e then inject_Z (2 ^ e) else 1 # Z.to_pos (2 ^ (- e)).

(** The sign of a literal, and the rest. *)
Definition split_sign (s : string) : bool * string :=
  match s with
  | String "-" s' => (true, s')
  | String "+" s' => (false, s')
  | _ => (false, s)
  end.

(** The optional exponent at the end of a literal. *)
Definition parse_exponent (s : string) : option Z :=
  match s with
  | EmptyString => Some 0
  | String a s' =>
      if Ascii.eqb a "e" || Ascii.eqb a "E" then
        let '(neg, t) := split_sign s' in
        match span_digits t with
        | (String d ds, EmptyString) =>
            let v := digits_value 0 (String d ds) in
            Some (if neg then - v else v)
        | _ => None
        end
      else None
  end.

(** The exact value of an unsigned decimal literal. *)
Definition parse_decimal (s : string) : option Q :=
  let '(ip, r1) := span_digits s in
  let '(fp, r2) :=
    match r1 with
    | String "." r => span_digits r
    | _ => (EmptyString, r1)
    end in
  match ip, fp with
  | EmptyString, EmptyString => None
  | _, _ =>
      match parse_exponent r2 with
      | Some e =>
          Some (inject_Z (digits_value 0 (ip +:+ fp))
                * pow10 (e - Z.of_nat (String.length fp)))%Q
      | None => None
      end
  end.

(** The largest [e] with [2^e <= q], for a positive [q]. *)
Definition floor_log2 (q : Q) : Z :=
  let c := Z.log2 (Qnum q) - Z.log2 (Zpos (Qden q)) in
  if Qle_bool (pow2 c) q then c else c - 1.

Definition round_half_even (q : Q) : Z :=
  let f := Qfloor q in
  match Qcompare (q - inject_Z f) (1 # 2) with
  | Lt => f
  | Gt => f + 1
  | Eq => if Z.even f then f else f + 1
  end.

(** The nearest binary64 number of a positive rational: 53 significant
    bits, the least exponent -1074, infinite from 2^1024 on. *)
Definition round64_pos (q : Q) : option Q :=
  let e := floor_log2 q in
  let p := Z.max (e - 52) (-1074) in
  let r := (inject_Z (round_half_even (q / pow2 p)) * pow2 p)%Q in
  if Qle_bool (pow2 1024) r then None else Some (Qred r).

Definition round64 (q : Q) : float :=
  match Qcompare q 0 with
  | Eq => Finite 0
  | Gt => match round64_pos q with Some r => Finite r | None => Inf false end
  | Lt => match round64_pos (- q) with Some r => Finite (Qred (- r)) | None => Inf true end
  end.

Definition float_of_str (s : string) : option float :=
  match drop_underscores None (strip s) with
  | None => None
  | Some t =>
      let '(neg, body) := split_sign t in
      let word := lowercase body in
      if String.eqb word "inf" || String.eqb word "infinity" then Some (Inf neg)
      else if String.eqb word "nan" then Some NaN
      else
        match parse_decimal body with
        | Some q => Some (round64 (if neg then - q else q))
        | None => None
        end
  end.

End Py.

(** ** Exceptions and the stderr log *)
Module Run.

Inductive exn : Type :=
| ValueError
| OverflowError
| OSError
| IndexError.

(** Lines printed to stderr, then the exception raised or the value. *)
Definition M (A : Type) : Type := (list string * (exn + A))%type.

Definition ret {A : Type} (a : A) : M A := ([], inr a).

Definition raise {A : Type} (e : exn) : M A := ([], inl e).

Definition bind {A B : Type} (m : M A) (k : A -> M B) : M B :=
  match m with
  | (w, inl e) => (w, inl e)
  | (w, inr a) => let '(w', r) := k a in ((w ++ w')%list, r)
  end.

(** [print(s, file=sys.stderr)] *)
Definition eprint (s : string) : M unit := ([s], inr tt).

Definition when (b : bool) (m : M unit) : M unit :=
  if b then m else ret tt.

Definition lift {A : Type} (r : exn + A) : M A := ([], r).

Definition log {A : Type} (m : M A) : list string := fst m.
Definition result {A : Type} (m : M A) : exn + A := snd m.

Declare Scope run_scope.
Delimit Scope run_scope with run.
Notation "'do' x <- m ; k" := (bind m (fun x => k))
  (at level 10, x name, m at level 100, k at level 200) : run_scope.
Notation "'run' m ; k" := (bind m (fun _ => k))
  (at level 10, m at level 100, k at level 200) : run_scope.

(** The dictionary a [format-*] action returns. *)
Record link : Type := Link { label : string; url : string }.

(** The dictionary [prefix] and [suffix] return. *)
Record wrapper : Type := Wrapper { content : string }.

Inductive response : Type :=
| LinkResponse (l : link)
| WrapperResponse (w : wrapper).

(** The decoded request.  [threads] is the [threads] member of the body,
    a list of JSON objects, kept apart from its string members. *)
Record request : Type := Request {
  headers : gmap string string;
  body : gmap string string;
  threads : option (list (gmap string string))
}.

(** What [main] reads from stdin: text that is empty once stripped, text
    that [json.loads] rejects, or a request. *)
Inductive stdin : Type :=
| Blank
| Malformed
| Decoded (r : request).

(** What one [print] call writes to stderr: a text, [f"Error: {e}"] for an
    exception [e], or [f"Error: Invalid JSON input: {e}"].  A text that
    holds line breaks is still one entry. *)
Inductive line : Type :=
| Text (s : string)
| ErrorLine (e : exn)
| InvalidJsonLine.

(** What a run leaves behind: the responses printed to stdout, each as
    one JSON document, what was printed to stderr, one entry for each
    [print] call, and the exit status. *)
Record outcome : Type := Outcome {
  stdout : list response;
  stderr : list line;
  status : Z
}.

Definition fmap {A B : Type} (f : A -> B) (m : M A) : M B :=
  bind m (fun a => ret (f a)).

(** The body of [main], shared by the two scripts but for the dispatch on
    the action: [None] is the final [else] branch. *)
Definition serve (dispatch : string -> request -> bool -> option (M response))
    (verbose : bool) (input : stdin) : outcome :=
  match input with
  | Blank =>
      {| stdout := []; stderr := [Text "Error: Empty input"]; status := 1 |}
  | Malformed =>
      {| stdout := []; stderr := [InvalidJsonLine]; status := 1 |}
  | Decoded request =>
      let action := Py.get_default (headers request) "action" "" in
      let trace :=
        if verbose then [Text ("[formatter] Action: " +:+ action)] else [] in
      match dispatch action request verbose with
      | Some (w, inr response) =>
          {| stdout := [response]; stderr := (trace ++ map Text w)%list; status := 0 |}
      | Some (w, inl e) =>
          {| stdout := [];
             stderr := (trace ++ map Text w ++ [ErrorLine e])%list; status := 1 |}
      | None =>
          {| stdout := [];
             stderr := (trace ++ [Text ("Error: Unknown action '" +:+ action +:+ "'")])%list;
             status := 1 |}
      end
  end.

End Run.

(** ** The [datetime] module, as far as the scripts use it *)
Module Datetime.
Import Py Run.

(** An aware [datetime] in UTC. *)
Record datetime : Type := DateTime {
  year : Z; month : Z; day : Z;
  hour : Z; minute : Z; second : Z; microsecond : Z
}.

Definition DI400Y : Z := 146097.
Definition DI100Y : Z := 36524.
Definition DI4Y : Z := 1461.

Definition is_leap (y : Z) : bool :=
  (y mod 4 =? 0) && (negb (y mod 100 =? 0) || (y mod 400 =? 0)).

Definition days_in_month_table (m : Z) : Z :=
  match m with
  | 1 => 31 | 2 => 28 | 3 => 31 | 4 => 30 | 5 => 31 | 6 => 30
  | 7 => 31 | 8 => 31 | 9 => 30 | 10 => 31 | 11 => 30 | 12 => 31
  | _ => -1
  end.

Definition days_before_month_table (m : Z) : Z :=
  match m with
  | 1 => 0 | 2 => 31 | 3 => 59 | 4 => 90 | 5 => 120 | 6 => 151
  | 7 => 181 | 8 => 212 | 9 => 243 | 10 => 273 | 11 => 304 | 12 => 334
  | _ => -1
  end.

Definition days_before_year (y : Z) : Z :=
  let y' := y - 1 in
  y' * 365 + y' / 4 - y' / 100 + y' / 400.

Definition days_before_month (y m : Z) : Z :=
  days_before_month_table m + (if (2 <? m) && is_leap y then 1 else 0).

(** The proleptic Gregorian ordinal of a date; 0001-01-01 is day 1. *)
Definition ymd2ord (y m d : Z) : Z :=
  days_before_year y + days_before_month y m + d.

(** The date of an ordinal. *)
Definition ord2ymd (n : Z) : Z * Z * Z :=
  let n := n - 1 in
  let n400 := n / DI400Y in
  let n := n mod DI400Y in
  let y := n400 * 400 + 1 in
  let n100 := n / DI100Y in
  let n := n mod DI100Y in
  let n4 := n / DI4Y in
  let n := n mod DI4Y in
  let n1 := n / 365 in
  let n := n mod 365 in
  let y := y + n100 * 100 + n4 * 4 + n1 in
  if (n1 =? 4) || (n100 =? 4) then (y - 1, 12, 31)
  else
    let leapyear := (n1 =? 3) && (negb (n4 =? 24) || (n100 =? 3)) in
    let m := Z.shiftr (n + 50) 5 in
    let preceding :=
      days_before_month_table m + (if (2 <? m) && leapyear then 1 else 0) in
    if n <? preceding then
      let m := m - 1 in
      let preceding :=
        preceding
        - (days_in_month_table m + (if (m =? 2) && leapyear then 1 else 0)) in
      (y, m, n - preceding + 1)
    else (y, m, n - preceding + 1).

(** The ordinal of 1970-01-01. *)
Definition EPOCH_ORD : Z := 719163.

(** [modf]'s integral part: rounding toward zero. *)
Definition truncate (d : Q) : Z :=
  if Qle_bool 0 d then Qfloor d else Qceiling d.

(** Seconds since the epoch, rounded half to even on the microsecond, as
    [fromtimestamp] takes a [float] apart. *)
Definition split_timestamp (d : Q) : Z * Z :=
  let intpart := truncate d in
  let floatpart := (d - inject_Z intpart)%Q in
  let scaled :=
    match round64 (floatpart * inject_Z 1000000)%Q with
    | Finite q => q
    | _ => 0%Q
    end in
  let us := round_half_even scaled in
  if 1000000 <=? us then (intpart + 1, us - 1000000)
  else if us <? 0 then (intpart - 1, us + 1000000)
  else (intpart, us).

(** [datetime.fromtimestamp(x, tz=timezone.utc)], with the errors of
    CPython on a platform with a 64-bit [time_t] and a 32-bit [tm_year]. *)
Definition fromtimestamp (x : float) : exn + datetime :=
  match x with
  | NaN => inl ValueError
  | Inf _ => inl OverflowError
  | Finite d =>
      let '(sec, us) := split_timestamp d in
      if (sec <? - 2 ^ 63) || (2 ^ 63 <? sec) then inl OverflowError
      else
        let days := sec / 86400 in
        let rem := sec mod 86400 in
        let '(y, m, dd) := ord2ymd (days + EPOCH_ORD) in
        if (y - 1900 <? - 2 ^ 31) || (2 ^ 31 <=? y - 1900) then inl OSError
        else if (y <? 1) || (9999 <? y) then inl ValueError
        else inr {| year := y; month := m; day := dd;
                    hour := rem / 3600; minute := rem mod 3600 / 60;
                    second := rem mod 60; microsecond := us |}
  end.

Definition isoweek1monday (y : Z) : Z :=
  let firstday := ymd2ord y 1 1 in
  let firstweekday := (firstday + 6) mod 7 in
  let week1monday := firstday - firstweekday in
  if 3 <? firstweekday then week1monday + 7 else week1monday.

(** [dt.isocalendar()]: ISO year, week and weekday. *)
Definition isocalendar (dt : datetime) : Z * Z * Z :=
  let y := year dt in
  let week1monday := isoweek1monday y in
  let today := ymd2ord (year dt) (month dt) (day dt) in
  let week := (today - week1monday) / 7 in
  let wday := (today - week1monday) mod 7 in
  if week <? 0 then
    let y := y - 1 in
    let week1monday := isoweek1monday y in
    (y, (today - week1monday) / 7 + 1, (today - week1monday) mod 7 + 1)
  else if (52 <=? week) && (isoweek1monday (y + 1) <=? today) then
    (y + 1, 1, wday + 1)
  else (y, week + 1, wday + 1).

(** [dt.strftime("%Y-%m-%dT%H:%M:%S")]; the year is printed as glibc
    prints [%Y], without padding. *)
Definition strftime_iso (dt : datetime) : string :=
  str_of_int (year dt) +:+ "-" +:+ zero_pad 2 (month dt) +:+ "-" +:+ zero_pad 2 (day dt)
  +:+ "T" +:+ zero_pad 2 (hour dt) +:+ ":" +:+ zero_pad 2 (minute dt)
  +:+ ":" +:+ zero_pad 2 (second dt).

End Datetime.

(** ** scripts/format-links.py *)
Module FormatLinks.
Import Py Run.
Local Open Scope run_scope.

Definition format_permalink (headers body : gmap string string) (verbose : bool) : M link :=
  let channel_id := get_default headers "channel_id" "" in
  let message_ts := get_default headers "message_ts" "" in
  let ts_for_url := replace "." "" message_ts in
  let url := "https://app.slack.com/archives/" +:+ channel_id +:+ "/p" +:+ ts_for_url in
  run when verbose
    (eprint ("[format-permalink] channel=" +:+ channel_id +:+ ", ts=" +:+ message_ts));
  ret {| label := "Conversation permalink"; url := url |}.

Definition format_attachment (headers body : gmap string string) (verbose : bool) : M link :=
  let url :=
    get_or body "original_url"
      (get_or body "from_url"
        (get_or body "title_link"
          (get_or body "url" ""))) in
  let title :=
    get_or body "title"
      (get_or body "name"
        (get_or body "fallback" "Untitled")) in
  run when verbose
    (eprint ("[format-attachment] title=" +:+ title +:+ ", url=" +:+ slice_to 50 url +:+ "..."));
  ret {| label := title; url := url |}.

Definition format_file (headers body : gmap string string) (verbose : bool) : M link :=
  let url :=
    get_or body "url_private"
      (get_or body "permalink"
        (get_or body "url" "")) in
  let title :=
    get_or body "title"
      (get_or body "name" "Untitled file") in
  run when verbose
    (eprint ("[format-file] title=" +:+ title +:+ ", url=" +:+ slice_to 50 url +:+ "..."));
  ret {| label := title; url := url |}.

Definition dispatch (action : string) (request : request) (verbose : bool)
    : option (M response) :=
  if String.eqb action "format-permalink" then
    Some (fmap LinkResponse (format_permalink (headers request) (body request) verbose))
  else if String.eqb action "format-attachment" then
    Some (fmap LinkResponse (format_attachment (headers request) (body request) verbose))
  else if String.eqb action "format-file" then
    Some (fmap LinkResponse (format_file (headers request) (body request) verbose))
  else None.

Definition main (verbose : bool) (input : stdin) : outcome :=
  serve dispatch verbose input.

End FormatLinks.

(** ** scripts/foc-md-formatter.py *)
Module FocMdFormatter.
Import Py Run Datetime.
Local Open Scope run_scope.

Definition ts_to_datetime (ts : string) : exn + datetime :=
  match float_of_str ts with
  | None => inl ValueError
  | Some unix_ts => fromtimestamp unix_ts
  end.

Definition get_iso_week (dt : datetime) : Z :=
  let '(_, week, _) := isocalendar dt in week.

Definition CONVERSATION_LABEL : string := unichr 0x1f9f5 +:+ "conversation".

Definition format_permalink (headers body : gmap string string) (verbose : bool) : M link :=
  let channel_name := get_default headers "channel_name" "general" in
  let message_ts := get_default headers "message_ts" "" in
  do dt <- lift (ts_to_datetime message_ts);
  let year := year dt in
  let month := zero_pad 2 (month dt) in
  let week := get_iso_week dt in
  let iso_timestamp := strftime_iso dt in
  do iso_timestamp <-
    (if str_in "." message_ts then
       match split "." message_ts with
       | _ :: micros :: _ =>
           let millis := slice_to 3 micros in
           ret (iso_timestamp +:+ "." +:+ millis +:+ "Z")
       | _ => raise IndexError
       end
     else ret (iso_timestamp +:+ ".000Z"));
  let url :=
    "https://history.futureofcoding.org/history/weekly/" +:+ str_of_int year
    +:+ "/" +:+ month +:+ "/W" +:+ str_of_int week +:+ "/" +:+ channel_name
    +:+ ".html#" +:+ iso_timestamp in
  run when verbose
    (run eprint ("[format-permalink] channel=" +:+ channel_name +:+ ", ts=" +:+ message_ts);
     run eprint ("[format-permalink] year=" +:+ str_of_int year +:+ ", month=" +:+ month
                 +:+ ", week=W" +:+ str_of_int week);
     eprint ("[format-permalink] iso_timestamp=" +:+ iso_timestamp));
  ret {| label := CONVERSATION_LABEL; url := url |}.

Definition ext_map : gmap string string :=
  list_to_map
    [("video/mp4", ".mp4"); ("video/quicktime", ".mov"); ("image/png", ".png");
     ("image/jpeg", ".jpg"); ("image/gif", ".gif"); ("audio/mp3", ".mp3");
     ("audio/mpeg", ".mp3"); ("application/pdf", ".pdf")].

Definition format_file_url (file_id filename mimetype : string) : string :=
  let prefix := if truthy file_id then slice_to 3 file_id else "" in
  let ext :=
    if truthy filename && str_in "." filename then
      slice_from (rfind "." filename) filename
    else if truthy mimetype then get_default ext_map mimetype ""
    else "" in
  let full_filename := file_id +:+ ext in
  "https://history.futureofcoding.org/history/msg_files/" +:+ prefix +:+ "/" +:+ full_filename.

Definition format_file (headers body : gmap string string) (verbose : bool) : M link :=
  let file_id := get_or body "id" "" in
  let filename := get_or body "name" (get_or body "title" "") in
  let mimetype := get_default body "mimetype" "" in
  let url := format_file_url file_id filename mimetype in
  let title := get_or body "title" (get_or body "name" "Untitled") in
  run when verbose
    (run eprint ("[format-file] title=" +:+ title +:+ ", file_id=" +:+ file_id);
     eprint ("[format-file] url=" +:+ url));
  ret {| label := title; url := url |}.

Definition format_attachment (headers body : gmap string string) (verbose : bool) : M link :=
  let url :=
    get_or body "original_url"
      (get_or body "from_url"
        (get_or body "title_link"
          (get_or body "url" ""))) in
  let title :=
    get_or body "title"
      (get_or body "name"
        (get_or body "fallback" "Untitled")) in
  run when verbose
    (eprint ("[format-attachment] title=" +:+ title +:+ ", url=" +:+ slice_to 50 url +:+ "..."));
  ret {| label := title; url := url |}.

(** The [threads] member of a [prefix] or [suffix] body is a list of JSON
    objects; [None] when the member is absent.  A member that is present
    and not a list is outside the embedding. *)
Definition get_threads (threads : option (list (gmap string string))) : list (gmap string string) :=
  match threads with
  | Some l => l
  | None => []
  end.

Definition format_prefix (headers : gmap string string)
    (threads : option (list (gmap string string))) (verbose : bool) : M wrapper :=
  let threads := get_threads threads in
  run when verbose
    (eprint ("[prefix] Received " +:+ str_of_int (Z.of_nat (List.length threads)) +:+ " threads"));
  ret {| content := "" |}.

Definition SUFFIX : string := "
----------

ðŸ‘¨ðŸ½â€ðŸ’» By ðŸ˜ [@marianoguerra@hachyderm.io](https://hachyderm.io/@marianoguerra) ðŸ¦‹ [@marianoguerra.org](https://bsky.app/profile/marianoguerra.org)

ðŸ’¬ Not a member yet? Check the [Feeling of Computing Community](https://feelingof.com/)

âœ‰ï¸ Not subscribed yet? [Subscribe to the Newsletter](https://newsletter.futureofcoding.org/join/) / [Archive](https://newsletter.futureofcoding.org/archive.html) / [RSS](https://history.futureofcoding.org/newsletter/rss.xml)

ðŸŽ™ï¸ Prefer podcasts? check the [Feeling of Computing Podcast](https://feelingof.com/episodes/)

".

Definition format_suffix (headers : gmap string string)
    (threads : option (list (gmap string string))) (verbose : bool) : M wrapper :=
  let threads := get_threads threads in
  run when verbose
    (eprint ("[suffix] Received " +:+ str_of_int (Z.of_nat (List.length threads)) +:+ " threads"));
  ret {| content := SUFFIX |}.

Definition dispatch (action : string) (request : request) (verbose : bool)
    : option (M response) :=
  if String.eqb action "format-permalink" then
    Some (fmap LinkResponse (format_permalink (headers request) (body request) verbose))
  else if String.eqb action "format-attachment" then
    Some (fmap LinkResponse (format_attachment (headers request) (body request) verbose))
  else if String.eqb action "format-file" then
    Some (fmap LinkResponse (format_file (headers request) (body request) verbose))
  else if String.eqb action "prefix" then
    Some (fmap WrapperResponse (format_prefix (headers request) (threads request) verbose))
  else if String.eqb action "suffix" then
    Some (fmap WrapperResponse (format_suffix (headers request) (threads request) verbose))
  else None.

(** [main] without [--test]. *)
Definition main (verbose : bool) (input : stdin) : outcome :=
  serve dispatch verbose input.

End FocMdFormatter.

(** ** The specification's vocabulary *)
Module Spec.
Import Py Run Datetime.

(** The first candidate that is present and not empty, else the default. *)
Fixpoint first_non_empty (candidates : list (option string)) (dflt : string) : string :=
  match candidates with
  | [] => dflt
  | Some (String a s) :: _ => String a s
  | _ :: rest => first_non_empty rest dflt
  end.

(** A text with every occurrence of a character removed. *)
Fixpoint without (c : ascii) (s : string) : string :=
  match s with
  | EmptyString => EmptyString
  | String a s' => if Ascii.eqb a c then without c s' else String a (without c s')
  end.

(** [s] ends with [suffix]. *)
Definition ends_with (suffix s : string) : Prop :=
  exists front, s = front +:+ suffix.

(** Every character of the text is a decimal digit. *)
Definition all_digits (s : string) : Prop :=
  Forall (fun a => is_digit a = true) (list_ascii_of_string s).

(** The fields an attachment's url and label are looked for in, in order. *)
Definition url_candidates (body : gmap string string) : list (option string) :=
  [body !! "original_url"; body !! "from_url"; body !! "title_link"; body !! "url"].

Definition label_candidates (body : gmap string string) : list (option string) :=
  [body !! "title"; body !! "name"; body !! "fallback"].

(** The fixed table of extensions by mimetype; the empty string elsewhere. *)
Definition mimetype_extension (mimetype : string) : string :=
  if String.eqb mimetype "video/mp4" then ".mp4"
  else if String.eqb mimetype "video/quicktime" then ".mov"
  else if String.eqb mimetype "image/png" then ".png"
  else if String.eqb mimetype "image/jpeg" then ".jpg"
  else if String.eqb mimetype "image/gif" then ".gif"
  else if String.eqb mimetype "audio/mp3" then ".mp3"
  else if String.eqb mimetype "audio/mpeg" then ".mp3"
  else if String.eqb mimetype "application/pdf" then ".pdf"
  else "".

(** [ext] is the part of [filename] from its last "." to the end. *)
Definition last_dot_suffix (filename ext : string) : Prop :=
  exists stem tail,
    filename = stem +:+ "." +:+ tail /\ str_in "." tail = false /\ ext = "." +:+ tail.

(** The extension as the specification resolves it: from [name] alone, then
    from the mimetype table. *)
Definition name_extension (body : gmap string string) : string :=
  let name := get_default body "name" "" in
  if str_in "." name then slice_from (rfind "." name) name
  else mimetype_extension (get_default body "mimetype" "").

Definition FILES_URL : string := "https://history.futureofcoding.org/history/msg_files/".

Definition name_file_url (body : gmap string string) : string :=
  let id := get_default body "id" "" in
  FILES_URL +:+ slice_to 3 id +:+ "/" +:+ id +:+ name_extension body.

Definition WEEKLY_URL : string := "https://history.futureofcoding.org/history/weekly/".

(** A decimal numeral: an integral part and, after a ".", a fraction. *)
Definition decimal (ip : string) (frac : option string) : string :=
  ip +:+ match frac with Some fp => "." +:+ fp | None => "" end.

(** No character of the text is white space or an underscore. *)
Definition plain (s : string) : Prop :=
  Forall (fun a => is_space a = false /\ Ascii.eqb a "_" = false) (list_ascii_of_string s).

(** The archive permalink of a datetime: the weekly page of its calendar
    year and month and of the given week, and the anchor of the message. *)
Definition permalink_url (dt : datetime) (week : Z) (channel_name millis : string) : string :=
  WEEKLY_URL +:+ str_of_int (year dt) +:+ "/" +:+ zero_pad 2 (month dt)
  +:+ "/W" +:+ str_of_int week +:+ "/" +:+ channel_name
  +:+ ".html#" +:+ strftime_iso dt +:+ "." +:+ millis +:+ "Z".


(** The millisecond field of the anchor: the first three characters after
    the first "." of the timestamp, "000" without a ".". *)
Definition millis_field (message_ts : string) : string :=
  if str_in "." message_ts then
    match split "." message_ts with
    | _ :: micros :: _ => slice_to 3 micros
    | _ => ""
    end
  else "000".

(** The action values each script recognizes. *)
Definition archive_actions : list string :=
  ["format-permalink"; "format-attachment"; "format-file"; "prefix"; "suffix"].

Definition plain_actions : list string :=
  ["format-permalink"; "format-attachment"; "format-file"].

(** The action tag of a request; a request without one has the tag [""]. *)
Definition action_of (r : request) : string :=
  get_default (headers r) "action" "".

(** The days of a month of the calendar. *)
Definition days_in_month (y m : Z) : Z :=
  if (m =? 2) && is_leap y then 29 else days_in_month_table m.

(** The seconds from the epoch to the second a datetime names. *)
Definition seconds_of (dt : datetime) : Z :=
  (ymd2ord (year dt) (month dt) (day dt) - EPOCH_ORD) * 86400
  + hour dt * 3600 + minute dt * 60 + second dt.

(** A date and time of the calendar, years 1 to 9999. *)
Definition well_formed (dt : datetime) : Prop :=
  1 <= year dt <= 9999 /\ 1 <= month dt <= 12
  /\ 1 <= day dt <= days_in_month (year dt) (month dt)
  /\ 0 <= hour dt <= 23 /\ 0 <= minute dt <= 59 /\ 0 <= second dt <= 59
  /\ 0 <= microsecond dt <= 999999.

(** A text of white space only, the empty text included. *)
Definition blank (s : string) : Prop :=
  Forall (fun a => is_space a = true) (list_ascii_of_string s).

(** What a [print] call wrote to stderr starts with "Error: ". *)
Definition is_error_line (l : line) : bool :=
  match l with
  | Text s => String.prefix "Error: " s
  | ErrorLine _ => true
  | InvalidJsonLine => true
  end.

(** A run that succeeded: status 0 and one response on stdout. *)
Definition succeeded (o : outcome) : Prop :=
  status o = 0 /\ exists response, stdout o = [response].

(** A run that failed: status 1, nothing on stdout, and an error message
    as the last thing printed to stderr. *)
Definition failed (o : outcome) : Prop :=
  status o = 1 /\ stdout o = []
  /\ exists front l, stderr o = (front ++ [l])%list /\ is_error_line l = true.

(** What a run without [--verbose] leaves on stderr: nothing with status 0,
    one error message with status 1. *)
Definition quiet (o : outcome) : Prop :=
  (status o = 0 /\ stderr o = [])
  \/ (status o = 1 /\ exists l, stderr o = [l] /\ is_error_line l = true).

(** The verbose run [o] answers as the quiet run [o'] does, with messages
    added before those of the quiet run on stderr. *)
Definition adds_stderr_only (o o' : outcome) : Prop :=
  stdout o = stdout o' /\ status o = status o'
  /\ exists added, stderr o = (added ++ stderr o')%list.


(** A text of ASCII characters. *)
Definition ascii_text (s : string) : Prop :=
  forallb (fun a => Z.of_nat (nat_of_ascii a) <? 128) (list_ascii_of_string s) = true.








End Spec.

(** ** Facts about strings *)
Module StringFacts.
Import Py Spec.

Lemma append_String (a : ascii) (s t : string) : String a s +:+ t = String a (s +:+ t).
Proof. reflexivity. Qed.

Lemma append_assoc (s t u : string) : (s +:+ t) +:+ u = s +:+ (t +:+ u).
Proof. induction s as [|a s IH]; [reflexivity|]. rewrite !append_String. now rewrite IH. Qed.

Lemma drop_append (pre t : string) : drop (String.length pre) (pre +:+ t) = t.
Proof. induction pre as [|a pre IH]; [now destruct t | exact IH]. Qed.

Lemma list_ascii_append (s t : string) :
  list_ascii_of_string (s +:+ t) = (list_ascii_of_string s ++ list_ascii_of_string t)%list.
Proof. induction s as [|a s IH]; [reflexivity|]. rewrite append_String. simpl. now rewrite IH. Qed.

Lemma prefix_char (c : ascii) (s : string) :
  String.prefix (String c "") s = true <-> exists t, s = String c t.
Proof.
  destruct s as [|a s]; simpl.
  - split; [discriminate | intros [t Ht]; discriminate].
  - destruct (ascii_dec c a) as [->|Hne].
    + split; [eauto | intros _; now destruct s].
    + split; [discriminate | intros [t Ht]; inversion Ht; congruence].
Qed.

(** [c in s] for a one-character [c] says that [c] is one of the characters. *)
Lemma str_in_char (c : ascii) (s : string) :
  str_in (String c "") s = true <-> In c (list_ascii_of_string s).
Proof.
  induction s as [|a s IH].
  - simpl. split; [discriminate | tauto].
  - cbn [str_in list_ascii_of_string In]. rewrite orb_true_iff, IH, prefix_char.
    split.
    + intros [[t Ht]|H]; [left; now inversion Ht | now right].
    + intros [->|H]; [left; eauto | now right].
Qed.

Lemma str_in_char_false (c : ascii) (s : string) :
  str_in (String c "") s = false <-> ~ In c (list_ascii_of_string s).
Proof.
  rewrite <- str_in_char. destruct (str_in (String c "") s); split; congruence.
Qed.

Lemma slice_to_empty (n : nat) : slice_to n "" = "".
Proof. now destruct n. Qed.

Lemma truthy_false (s : string) : truthy s = false -> s = "".
Proof. now destruct s. Qed.

Lemma split_without (c : ascii) (s : string) :
  ~ In c (list_ascii_of_string s) -> split c s = [s].
Proof.
  induction s as [|a s IH]; intros H; [reflexivity|].
  cbn [split]. destruct (Ascii.eqb a c) eqn:E.
  - apply Ascii.eqb_eq in E as ->. exfalso. apply H. now left.
  - rewrite IH; [reflexivity|]. intros Hin. apply H. now right.
Qed.

Lemma split_first (c : ascii) (pre tail : string) :
  ~ In c (list_ascii_of_string pre) ->
  split c (pre +:+ String c tail) = pre :: split c tail.
Proof.
  induction pre as [|a pre IH]; intros H.
  - change ("" +:+ String c tail) with (String c tail). cbn [split].
    now rewrite Ascii.eqb_refl.
  - change (String a pre +:+ String c tail) with (String a (pre +:+ String c tail)).
    cbn [split]. destruct (Ascii.eqb a c) eqn:E.
    + apply Ascii.eqb_eq in E as ->. exfalso. apply H. now left.
    + rewrite IH; [reflexivity|]. intros Hin. apply H. now right.
Qed.

Lemma split_nonempty (c : ascii) (s : string) : exists hd tl, split c s = hd :: tl.
Proof.
  induction s as [|a s (hd & tl & IH)]; [now eexists _, _|].
  cbn [split]. rewrite IH. destruct (Ascii.eqb a c); now eexists _, _.
Qed.

Lemma split_second (c : ascii) (s : string) :
  In c (list_ascii_of_string s) -> exists a b rest, split c s = a :: b :: rest.
Proof.
  induction s as [|x s IH]; intros H; [destruct H|].
  cbn [split]. destruct (Ascii.eqb x c) eqn:E.
  - destruct (split_nonempty c s) as (hd & tl & ->). now eexists _, _, _.
  - destruct H as [->|H]; [now rewrite Ascii.eqb_refl in E|].
    destruct (IH H) as (a & b & rest & ->). now eexists _, _, _.
Qed.

Lemma append_empty (s : string) : s +:+ "" = s.
Proof. induction s as [|a s IH]; [reflexivity|]. rewrite append_String. now rewrite IH. Qed.

Lemma slice_to_short (n : nat) (s : string) :
  (String.length s <= n)%nat -> slice_to n s = s.
Proof.
  unfold slice_to. revert n. induction s as [|a s IH]; intros n H.
  - now destruct n.
  - destruct n as [|n]; [simpl in H; lia|]. simpl. rewrite IH; [reflexivity|].
    simpl in H. lia.
Qed.

(** [sub in s] holds of every text that has [sub] somewhere inside. *)
Lemma str_in_middle (sub pre post : string) : str_in sub (pre +:+ sub +:+ post) = true.
Proof.
  induction pre as [|a pre IH].
  - change ("" +:+ sub +:+ post) with (sub +:+ post).
    assert (H : String.prefix sub (sub +:+ post) = true).
    { induction sub as [|b sub IHs]; [now destruct post|].
      rewrite append_String. cbn [String.prefix].
      destruct (ascii_dec b b); [exact IHs | contradiction]. }
    destruct (sub +:+ post); cbn [str_in]; now rewrite H.
  - rewrite append_String. cbn [str_in]. rewrite IH. apply orb_true_r.
Qed.

End StringFacts.

(** ** Facts about the monad *)
Module RunFacts.
Import Py Run.

Lemma result_bind_when {A : Type} (b : bool) (m : M unit) (a : A) :
  (forall w r, m = (w, r) -> r = inr tt) ->
  result (bind (when b m) (fun _ => ret a)) = inr a.
Proof.
  intros Hm. destruct b; simpl; [|reflexivity].
  destruct m as [w [e|[]]] eqn:E; [|reflexivity].
  specialize (Hm w (inl e) eq_refl). discriminate.
Qed.

Lemma result_bind_lift {A B : Type} (a : A) (k : A -> M B) :
  result (bind (lift (inr a)) k) = result (k a).
Proof. unfold bind, lift, result. now destruct (k a). Qed.

Lemma result_bind_ret {A B : Type} (a : A) (k : A -> M B) :
  result (bind (ret a) k) = result (k a).
Proof. unfold bind, ret, result. now destruct (k a). Qed.

End RunFacts.

(** ** Rounding to binary64 and the range of [datetime] *)
Module FloatFacts.
Import Py Run Spec Datetime.

Lemma round_half_even_bounds (x : Q) :
  Qfloor x <= round_half_even x <= Qfloor x + 1
  /\ (round_half_even x = Qfloor x + 1 -> (inject_Z (Qfloor x) < x)%Q).
Proof.
  unfold round_half_even.
  destruct (Qcompare (x - inject_Z (Qfloor x)) (1 # 2)) eqn:E.
  - apply Qeq_alt in E. destruct (Z.even (Qfloor x)); split; try lia; intros _; lra.
  - split; [lia|]. intros; lia.
  - apply Qgt_alt in E. split; [lia|]. intros _. lra.
Qed.

Lemma round_half_even_le (x : Q) (n : Z) :
  (x <= inject_Z n)%Q -> round_half_even x <= n.
Proof.
  intros H. destruct (round_half_even_bounds x) as [[_ Hhi] Hup].
  assert (Hf : Qfloor x <= n).
  { apply Qfloor_resp_le in H. now rewrite Qfloor_Z in H. }
  destruct (Z.eq_dec (round_half_even x) (Qfloor x + 1)) as [E|E]; [|lia].
  specialize (Hup E).
  assert (inject_Z (Qfloor x) < inject_Z n)%Q by lra.
  rewrite <- Zlt_Qlt in H0. lia.
Qed.

Lemma round_half_even_ge (x : Q) (n : Z) :
  (inject_Z n <= x)%Q -> n <= round_half_even x.
Proof.
  intros H. destruct (round_half_even_bounds x) as [[Hlo _] _].
  apply Qfloor_resp_le in H. rewrite Qfloor_Z in H. lia.
Qed.

Lemma pow2_pos (e : Z) : (0 < pow2 e)%Q.
Proof.
  unfold pow2. destruct (0 <=? e) eqn:E.
  - apply Z.leb_le in E. change 0%Q with (inject_Z 0). rewrite <- Zlt_Qlt. now apply Z.pow_pos_nonneg.
  - reflexivity.
Qed.

Lemma pow2_nonpos (p : Z) : p <= 0 -> (pow2 p * inject_Z (2 ^ (- p)) == 1)%Q.
Proof.
  intros Hp. unfold pow2. destruct (0 <=? p) eqn:E.
  - apply Z.leb_le in E. assert (p = 0) as -> by lia. reflexivity.
  - assert (0 < 2 ^ (- p)) by (apply Z.pow_pos_nonneg; lia).
    unfold Qeq, Qmult, inject_Z. simpl Qnum. simpl Qden.
    rewrite Pos.mul_1_r, Z2Pos.id by lia. lia.
Qed.

Lemma floor_log2_small (q : Q) (R : Z) :
  (0 < q)%Q -> (q <= inject_Z R)%Q -> R < 2 ^ 53 -> floor_log2 q <= 52.
Proof.
  intros Hq HR Hb. unfold floor_log2.
  destruct q as [n d]. cbn [Qnum Qden].
  assert (Hn : 0 < n) by (unfold Qlt in Hq; simpl in Hq; lia).
  assert (Hle : n <= R * Zpos d) by (unfold Qle in HR; simpl in HR; lia).
  assert (Hd : Zpos d < 2 ^ (Z.log2 (Zpos d) + 1)).
  { pose proof (Z.log2_spec (Zpos d) ltac:(lia)). replace (Z.log2 (Z.pos d) + 1) with (Z.succ (Z.log2 (Z.pos d))) by lia. lia. }
  assert (Hlog : Z.log2 n < Z.log2 (Zpos d) + 54).
  { apply Z.log2_lt_pow2; [lia|].
    pose proof (Z.log2_nonneg (Zpos d)).
    replace (Z.log2 (Z.pos d) + 54) with (53 + (Z.log2 (Z.pos d) + 1)) by lia.
    rewrite Z.pow_add_r by lia. nia. }
  destruct (Qle_bool (pow2 (Z.log2 n - Z.log2 (Z.pos d))) (n # d)) eqn:E; [|lia].
  destruct (Z.eq_dec (Z.log2 n - Z.log2 (Z.pos d)) 53) as [E53|]; [|lia].
  exfalso. rewrite E53 in E. apply Qle_bool_iff in E.
  assert (inject_Z (2^53) <= inject_Z R)%Q.
  { change (pow2 53) with (inject_Z (2^53)) in E. lra. }
  rewrite <- Zle_Qle in H. lia.
Qed.

Lemma round64_pos_le (q : Q) (L R : Z) :
  (0 < q)%Q -> (inject_Z L <= q)%Q -> (q <= inject_Z R)%Q -> R < 2 ^ 53 ->
  exists r, round64_pos q = Some r /\ (0 <= r)%Q
            /\ (inject_Z L <= r)%Q /\ (r <= inject_Z R)%Q.
Proof.
  intros Hq HL HR Hb. unfold round64_pos.
  pose proof (floor_log2_small q R Hq HR Hb) as He.
  set (p := Z.max (floor_log2 q - 52) (-1074)).
  assert (Hp : p <= 0) by lia. clearbody p.
  pose proof (pow2_pos p) as Hpp. pose proof (pow2_nonpos p Hp) as Hinv.
  assert (Hk : 0 < 2 ^ (- p)) by (apply Z.pow_pos_nonneg; lia).
  set (k := 2 ^ (- p)) in *. clearbody k.
  assert (HkQ : (0 <= inject_Z k)%Q) by (change 0%Q with (inject_Z 0); rewrite <- Zle_Qle; lia).
  set (m := round_half_even (q / pow2 p)).
  assert (Hx : (q / pow2 p == q * inject_Z k)%Q).
  { apply (Qmult_inj_r _ _ (pow2 p)); [lra|].
    rewrite <- (Qmult_assoc q), (Qmult_comm (inject_Z k)), Hinv. field. lra. }
  assert (Hm0 : 0 <= m).
  { apply round_half_even_ge. rewrite Hx. change (inject_Z 0) with 0%Q.
    apply Qmult_le_0_compat; [lra | exact HkQ]. }
  assert (HmR : m <= R * k).
  { apply round_half_even_le. rewrite Hx, inject_Z_mult.
    apply Qmult_le_compat_r; [exact HR | exact HkQ]. }
  assert (HmL : L * k <= m).
  { apply round_half_even_ge. rewrite Hx, inject_Z_mult.
    apply Qmult_le_compat_r; [exact HL | exact HkQ]. }
  assert (Hr : (inject_Z m * pow2 p <= inject_Z R)%Q).
  { rewrite <- (Qmult_1_r (inject_Z R)), <- Hinv.
    rewrite (Qmult_comm (pow2 p)), Qmult_assoc, <- inject_Z_mult.
    apply Qmult_le_compat_r; [|lra]. rewrite <- Zle_Qle. exact HmR. }
  assert (Hl : (inject_Z L <= inject_Z m * pow2 p)%Q).
  { rewrite <- (Qmult_1_r (inject_Z L)), <- Hinv.
    rewrite (Qmult_comm (pow2 p)), Qmult_assoc, <- inject_Z_mult.
    apply Qmult_le_compat_r; [|lra]. rewrite <- Zle_Qle. exact HmL. }
  assert (Hr0 : (0 <= inject_Z m * pow2 p)%Q).
  { apply Qmult_le_0_compat; [|lra]. change 0%Q with (inject_Z 0). rewrite <- Zle_Qle. lia. }
  destruct (Qle_bool (pow2 1024) (inject_Z m * pow2 p)) eqn:E.
  - exfalso. apply Qle_bool_iff in E.
    assert (inject_Z (2 ^ 1024) <= inject_Z R)%Q by (change (pow2 1024) with (inject_Z (2^1024)) in E; lra).
    rewrite <- Zle_Qle in H. assert (2 ^ 53 < 2 ^ 1024) by (apply Z.pow_lt_mono_r; lia). lia.
  - eexists. split; [reflexivity|]. rewrite Qred_correct. repeat split; assumption.
Qed.

(** [round64] keeps a value within integer bounds below 2^53, and its sign. *)
Lemma round64_bounds (q : Q) (L U : Z) :
  -(2 ^ 53) < L -> U < 2 ^ 53 ->
  (inject_Z L <= q)%Q -> (q <= inject_Z U)%Q ->
  exists r, round64 q = Finite r /\ (inject_Z L <= r)%Q /\ (r <= inject_Z U)%Q.
Proof.
  intros HL HU Hlo Hhi. unfold round64.
  destruct (Qcompare q 0) eqn:E.
  - apply Qeq_alt in E. exists 0%Q. repeat split; lra.
  - apply Qlt_alt in E.
    destruct (round64_pos_le (- q) (- U) (- L)) as (r & -> & Hr0 & Hrl & Hr);
      rewrite ?inject_Z_opp; [lra | lra | lra | lia |].
    rewrite inject_Z_opp in Hr, Hrl.
    exists (Qred (- r)). repeat split; rewrite ?Qred_correct; lra.
  - apply Qgt_alt in E.
    destruct (round64_pos_le q L U) as (r & -> & Hr0 & Hrl & Hr); [lra | lra | lra | lia |].
    exists r. repeat split; lra.
Qed.

Lemma round64_sign (q : Q) :
  let scaled := match round64 q with Finite r => r | _ => 0%Q end in
  ((0 <= q)%Q -> (0 <= scaled)%Q) /\ ((q <= 0)%Q -> (scaled <= 0)%Q).
Proof.
  unfold round64, round64_pos.
  assert (Hpos : forall x p, (0 < x)%Q -> (0 <= inject_Z (round_half_even (x / pow2 p)) * pow2 p)%Q).
  { intros x p Hx. pose proof (pow2_pos p).
    apply Qmult_le_0_compat; [|lra].
    change 0%Q with (inject_Z 0). rewrite <- Zle_Qle. apply round_half_even_ge.
    change (inject_Z 0) with 0%Q. apply Qle_shift_div_l; lra. }
  destruct (Qcompare q 0) eqn:E.
  - split; intros; lra.
  - apply Qlt_alt in E.
    match goal with |- context [Qle_bool ?a ?b] => destruct (Qle_bool a b) end.
    + split; intros; lra.
    + rewrite !Qred_correct. specialize (Hpos (- q)%Q (Z.max (floor_log2 (- q) - 52) (-1074)) ltac:(lra)).
      split; intros; lra.
  - apply Qgt_alt in E.
    match goal with |- context [Qle_bool ?a ?b] => destruct (Qle_bool a b) end.
    + split; intros; lra.
    + rewrite !Qred_correct. specialize (Hpos q (Z.max (floor_log2 q - 52) (-1074)) ltac:(lra)).
      split; intros; lra.
Qed.

Lemma truncate_bounds (d : Q) (L U : Z) :
  (inject_Z L <= d)%Q -> (d <= inject_Z U)%Q ->
  L <= truncate d <= U
  /\ ((inject_Z (truncate d) < d)%Q -> truncate d + 1 <= U)
  /\ ((d < inject_Z (truncate d))%Q -> L <= truncate d - 1).
Proof.
  intros Hlo Hhi. unfold truncate.
  pose proof (Qfloor_le d). pose proof (Qlt_floor d).
  pose proof (Qle_ceiling d). pose proof (Qceiling_lt d).
  assert (HfU : Qfloor d <= U) by (apply Qfloor_resp_le in Hhi; now rewrite Qfloor_Z in Hhi).
  assert (HfL : L <= Qfloor d) by (apply Qfloor_resp_le in Hlo; now rewrite Qfloor_Z in Hlo).
  assert (HcU : Qceiling d <= U) by (apply Qceiling_resp_le in Hhi; now rewrite Qceiling_Z in Hhi).
  assert (HcL : L <= Qceiling d) by (apply Qceiling_resp_le in Hlo; now rewrite Qceiling_Z in Hlo).
  destruct (Qle_bool 0 d).
  - split; [lia|]. split.
    + intros Hlt. assert (inject_Z (Qfloor d) < inject_Z U)%Q by lra.
      rewrite <- Zlt_Qlt in H3. lia.
    + intros Hlt. lra.
  - split; [lia|]. split.
    + intros Hlt. lra.
    + intros Hlt. assert (inject_Z L < inject_Z (Qceiling d))%Q by lra.
      rewrite <- Zlt_Qlt in H3. lia.
Qed.

Lemma split_timestamp_bounds (d : Q) (L U : Z) :
  (inject_Z L <= d)%Q -> (d <= inject_Z U)%Q ->
  L <= fst (split_timestamp d) <= U.
Proof.
  intros Hlo Hhi. unfold split_timestamp.
  destruct (truncate_bounds d L U Hlo Hhi) as (Hin & Hup & Hdown).
  set (intpart := truncate d) in *. clearbody intpart.
  set (floatpart := (d - inject_Z intpart)%Q).
  destruct (round64_sign (floatpart * inject_Z 1000000)) as [Hnn Hnp].
  set (scaled := match round64 (floatpart * inject_Z 1000000) with Finite q => q | _ => 0%Q end) in *.
  clearbody scaled.
  assert (H6 : (0 < inject_Z 1000000)%Q) by reflexivity.
  destruct (1000000 <=? round_half_even scaled) eqn:E1; cbn [fst].
  - apply Z.leb_le in E1.
    assert (Hfp : (0 < floatpart)%Q).
    { destruct (Qlt_le_dec 0 floatpart) as [|Hle]; [assumption|exfalso].
      assert (scaled <= 0)%Q by (apply Hnp; nra).
      apply (round_half_even_le scaled 0) in H. lia. }
    subst floatpart. assert (inject_Z intpart < d)%Q by lra. specialize (Hup H). lia.
  - destruct (round_half_even scaled <? 0) eqn:E2; cbn [fst]; [|lia].
    apply Z.ltb_lt in E2.
    assert (Hfp : (floatpart < 0)%Q).
    { destruct (Qlt_le_dec floatpart 0) as [|Hle]; [assumption|exfalso].
      assert (0 <= scaled)%Q by (apply Hnn; nra).
      apply (round_half_even_ge scaled 0) in H. lia. }
    subst floatpart. assert (d < inject_Z intpart)%Q by lra. specialize (Hdown H). lia.
Qed.
Lemma ord2ymd_year (n : Z) :
  exists y m d, ord2ymd n = (y, m, d)
    /\ (1 <= n -> 1 <= y) /\ (n <= 3652059 -> y <= 9999)
    /\ (n <= 719162 -> y <= 1969) /\ (719163 <= n -> 1970 <= y)
    /\ (n <= 719163 -> y <= 1970).
Proof.
  unfold ord2ymd, DI400Y, DI100Y, DI4Y.
  set (n0 := n - 1).
  set (n400 := n0 / 146097). set (r400 := n0 mod 146097).
  set (n100 := r400 / 36524). set (r100 := r400 mod 36524).
  set (n4 := r100 / 1461). set (r4 := r100 mod 1461).
  set (n1 := r4 / 365). set (r1 := r4 mod 365).
  assert (H400 : n0 = 146097 * n400 + r400 /\ 0 <= r400 < 146097)
    by (subst n400 r400; split; [apply Z.div_mod; lia | apply Z.mod_pos_bound; lia]).
  assert (H100 : r400 = 36524 * n100 + r100 /\ 0 <= r100 < 36524)
    by (subst n100 r100; split; [apply Z.div_mod; lia | apply Z.mod_pos_bound; lia]).
  assert (H4 : r100 = 1461 * n4 + r4 /\ 0 <= r4 < 1461)
    by (subst n4 r4; split; [apply Z.div_mod; lia | apply Z.mod_pos_bound; lia]).
  assert (H1 : r4 = 365 * n1 + r1 /\ 0 <= r1 < 365)
    by (subst n1 r1; split; [apply Z.div_mod; lia | apply Z.mod_pos_bound; lia]).
  clearbody n400 r400 n100 r100 n4 r4 n1 r1.
  destruct ((n1 =? 4) || (n100 =? 4)) eqn:E.
  - do 3 eexists. split; [reflexivity|].
    apply orb_true_iff in E. rewrite !Z.eqb_eq in E. subst n0. lia.
  - apply orb_false_iff in E. rewrite !Z.eqb_neq in E.
    match goal with |- context [if ?c then _ else _] => destruct c end;
    (do 3 eexists; split; [reflexivity|]; subst n0; lia).
Qed.

Lemma fromtimestamp_in_range (d : Q) :
  (inject_Z (-62135596800) <= d)%Q -> (d <= inject_Z 253402300799)%Q ->
  exists dt, fromtimestamp (Finite d) = inr dt
    /\ 1 <= year dt <= 9999
    /\ ((d <= inject_Z (-1))%Q -> year dt <= 1969)
    /\ ((inject_Z 0 <= d)%Q -> 1970 <= year dt)
    /\ ((d <= inject_Z 0)%Q -> year dt <= 1970).
Proof.
  intros Hlo Hhi. unfold fromtimestamp.
  pose proof (split_timestamp_bounds d _ _ Hlo Hhi) as Hsec.
  pose proof (fun H => split_timestamp_bounds d _ (-1) Hlo H) as Hneg.
  pose proof (fun H => split_timestamp_bounds d 0 _ H Hhi) as Hpos.
  pose proof (fun H => split_timestamp_bounds d _ 0 Hlo H) as Hnp.
  destruct (split_timestamp d) as [sec us]. cbn [fst] in *.
  assert (H63 : 2 ^ 63 = 9223372036854775808) by reflexivity.
  assert (H31 : 2 ^ 31 = 2147483648) by reflexivity.
  rewrite H63, H31.
  destruct (ord2ymd_year (sec / 86400 + EPOCH_ORD)) as (y & m & dd & -> & Hy1 & Hy2 & Hy3 & Hy4 & Hy5).
  unfold EPOCH_ORD in *.
  assert (Hd : -719162 <= sec / 86400 <= 2932896).
  { split; [apply Z.div_le_lower_bound; lia|].
    assert (sec / 86400 < 2932897) by (apply Z.div_lt_upper_bound; lia). lia. }
  specialize (Hy1 ltac:(lia)). specialize (Hy2 ltac:(lia)).
  repeat match goal with
  | |- context [if ?c then inl _ else _] =>
      replace c with false
        by (symmetry; apply orb_false_iff; split;
            first [apply Z.ltb_ge; lia | apply Z.leb_gt; lia])
  end.
  eexists. split; [reflexivity|]. cbn [year]. split; [lia|]. split; [|split].
  - intros H. specialize (Hneg H). apply Hy3.
    assert (sec / 86400 < 0) by (apply Z.div_lt_upper_bound; lia). lia.
  - intros H. specialize (Hpos H). apply Hy4.
    assert (0 <= sec / 86400) by (apply Z.div_pos; lia). lia.
  - intros H. specialize (Hnp H). apply Hy5.
    assert (sec / 86400 < 1) by (apply Z.div_lt_upper_bound; lia). lia.
Qed.

End FloatFacts.

(** ** [float] on decimal literals *)
Module LiteralFacts.
Import Py Run Spec Datetime.

Ltac ascii_cases a := destruct a as [[] [] [] [] [] [] [] []].

Lemma digit_facts (d : ascii) :
  is_digit d = true ->
  is_space d = false /\ Ascii.eqb d "_" = false /\ Ascii.eqb d "." = false
  /\ 0 <= digit_value d <= 9
  /\ (forall s, split_sign (String d s) = (false, String d s))
  /\ (forall s w, In w ["inf"; "infinity"; "nan"] -> String.eqb (lowercase (String d s)) w = false).
Proof.
  ascii_cases d; try discriminate; intros _;
    (repeat split; try reflexivity; try (cbv; congruence);
     intros s w [<-|[<-|[<-|[]]]]; reflexivity).
Qed.

Lemma all_digits_cons (a : ascii) (s : string) :
  all_digits (String a s) <-> is_digit a = true /\ all_digits s.
Proof. unfold all_digits. simpl. apply Forall_cons_iff. Qed.

Lemma span_digits_app (ds rest : string) :
  all_digits ds ->
  (forall a r, rest = String a r -> is_digit a = false) ->
  span_digits (ds +:+ rest) = (ds, rest).
Proof.
  intros Hds Hrest. induction ds as [|a ds IH].
  - destruct rest as [|a r]; [reflexivity|].
    change ("" +:+ String a r) with (String a r). cbn [span_digits].
    now rewrite (Hrest a r eq_refl).
  - apply all_digits_cons in Hds as [Ha Hds].
    change (String a ds +:+ rest) with (String a (ds +:+ rest)). cbn [span_digits].
    rewrite Ha, (IH Hds). reflexivity.
Qed.

Lemma span_digits_all (ds : string) : all_digits ds -> span_digits ds = (ds, "").
Proof.
  intros H. induction ds as [|a ds IH]; [reflexivity|].
  apply all_digits_cons in H as [Ha Hds]. cbn [span_digits]. now rewrite Ha, (IH Hds).
Qed.

Lemma digits_value_app (acc : Z) (s t : string) :
  digits_value acc (s +:+ t) = digits_value (digits_value acc s) t.
Proof.
  revert acc. induction s as [|a s IH]; intros acc; [reflexivity|].
  change (String a s +:+ t) with (String a (s +:+ t)). cbn [digits_value]. apply IH.
Qed.

Lemma digits_value_acc (acc : Z) (s : string) :
  all_digits s ->
  digits_value acc s = acc * 10 ^ Z.of_nat (String.length s) + digits_value 0 s
  /\ 0 <= digits_value 0 s < 10 ^ Z.of_nat (String.length s).
Proof.
  intros H. revert acc. induction s as [|a s IH]; intros acc.
  - cbn [digits_value String.length Z.of_nat]. rewrite Z.pow_0_r. lia.
  - apply all_digits_cons in H as [Ha Hs].
    destruct (digit_facts a Ha) as (_ & _ & _ & Hv & _).
    cbn [digits_value String.length].
    destruct (IH Hs (10 * acc + digit_value a)) as [-> Hb].
    destruct (IH Hs (10 * 0 + digit_value a)) as [-> _].
    rewrite Nat2Z.inj_succ, Z.pow_succ_r by lia.
    split; [lia|]. nia.
Qed.

Lemma plain_cons (a : ascii) (s : string) :
  plain (String a s) <-> (is_space a = false /\ Ascii.eqb a "_" = false) /\ plain s.
Proof. unfold plain. simpl. apply Forall_cons_iff. Qed.

Lemma plain_app (s t : string) : plain s -> plain t -> plain (s +:+ t).
Proof.
  intros Hs Ht. induction s as [|a s IH]; [exact Ht|].
  apply plain_cons in Hs as [Ha Hs]. change (String a s +:+ t) with (String a (s +:+ t)).
  apply plain_cons. split; [exact Ha | now apply IH].
Qed.

Lemma plain_digits (s : string) : all_digits s -> plain s.
Proof.
  induction s as [|a s IH]; intros H; [constructor|].
  apply all_digits_cons in H as [Ha Hs]. apply plain_cons.
  destruct (digit_facts a Ha) as (Hsp & Hu & _). auto.
Qed.

Lemma strip_plain (s : string) : plain s -> strip s = s.
Proof.
  intros H. unfold strip.
  assert (Hl : lstrip s = s).
  { destruct s as [|a s]; [reflexivity|]. apply plain_cons in H as [[Ha _] _].
    cbn [lstrip]. now rewrite Ha. }
  rewrite Hl. clear Hl. induction s as [|a s IH]; [reflexivity|].
  apply plain_cons in H as [[Ha _] Hs]. cbn [rstrip]. rewrite (IH Hs), Ha.
  now destruct s.
Qed.

Lemma not_underscore {A : Type} (p : ascii) (X Y : A) :
  Ascii.eqb p "_" = false ->
  match p with "_"%char => X | _ => Y end = Y.
Proof. ascii_cases p; try reflexivity; discriminate. Qed.

Lemma drop_underscores_plain (prev : option ascii) (s : string) :
  match prev with Some p => Ascii.eqb p "_" = false | None => True end ->
  plain s -> drop_underscores prev s = Some s.
Proof.
  revert prev. induction s as [|a s IH]; intros prev Hprev Hs.
  - destruct prev as [p|]; [|reflexivity]. cbn [drop_underscores]. now rewrite not_underscore.
  - apply plain_cons in Hs as [[_ Ha] Hs]. cbn [drop_underscores]. rewrite Ha.
    rewrite (IH (Some a) Ha Hs). cbn [option_map].
    destruct prev as [p|]; [|reflexivity]. now rewrite not_underscore.
Qed.

Lemma pow10_nonpos (p : Z) : p <= 0 -> (pow10 p * inject_Z (10 ^ (- p)) == 1)%Q.
Proof.
  intros Hp. unfold pow10. destruct (0 <=? p) eqn:E.
  - apply Z.leb_le in E. assert (p = 0) as -> by lia. reflexivity.
  - assert (0 < 10 ^ (- p)) by (apply Z.pow_pos_nonneg; lia).
    unfold Qeq, Qmult, inject_Z. simpl Qnum. simpl Qden.
    rewrite Pos.mul_1_r, Z2Pos.id by lia. lia.
Qed.

(** The number a decimal literal [ip.fp] denotes lies between its integral
    part and the next integer. *)
Lemma decimal_value_bounds (ip fp : string) :
  all_digits ip -> all_digits fp ->
  let q := (inject_Z (digits_value 0 (ip +:+ fp))
            * pow10 (0 - Z.of_nat (String.length fp)))%Q in
  (inject_Z (digits_value 0 ip) <= q)%Q /\ (q <= inject_Z (digits_value 0 ip + 1))%Q.
Proof.
  intros Hip Hfp q. subst q.
  rewrite digits_value_app.
  destruct (digits_value_acc (digits_value 0 ip) fp Hfp) as [-> Hb].
  set (k := Z.of_nat (String.length fp)) in *.
  assert (Hk : 0 <= k) by lia. clearbody k.
  pose proof (pow10_nonpos (0 - k) ltac:(lia)) as Hinv.
  replace (- (0 - k)) with k in Hinv by lia.
  assert (Hpos : 0 < 10 ^ k) by (apply Z.pow_pos_nonneg; lia).
  set (n := digits_value 0 ip) in *. set (f := digits_value 0 fp) in *. clearbody n f.
  set (P := pow10 (0 - k)) in *. clearbody P.
  assert (HQ : (0 < inject_Z (10 ^ k))%Q) by (change 0%Q with (inject_Z 0); now rewrite <- Zlt_Qlt).
  split.
  - apply (Qmult_le_r _ _ (inject_Z (10 ^ k))); [exact HQ|].
    rewrite <- Qmult_assoc, Hinv, Qmult_1_r, <- inject_Z_mult, <- Zle_Qle. lia.
  - apply (Qmult_le_r _ _ (inject_Z (10 ^ k))); [exact HQ|].
    rewrite <- Qmult_assoc, Hinv, Qmult_1_r, <- inject_Z_mult, <- Zle_Qle. lia.
Qed.

(** [float] of a signed decimal literal: the binary64 number nearest to the
    value of its digits. *)
Lemma float_of_decimal (neg : bool) (ip : string) (frac : option string) :
  all_digits ip -> ip <> "" ->
  match frac with Some fp => all_digits fp | None => True end ->
  let fp := match frac with Some fp => fp | None => "" end in
  let q := (inject_Z (digits_value 0 (ip +:+ fp))
            * pow10 (0 - Z.of_nat (String.length fp)))%Q in
  float_of_str ((if neg then "-" else "") +:+ decimal ip frac)
  = Some (round64 (if neg then - q else q)).
Proof.
  intros Hip Hne Hfrac fp q.
  assert (Hfp : all_digits fp) by (subst fp; destruct frac; [assumption | constructor]).
  assert (Hpl : plain (decimal ip frac)).
  { unfold decimal. apply plain_app; [now apply plain_digits|].
    destruct frac as [f|]; [|constructor].
    change ("." +:+ f) with (String "." f). apply plain_cons.
    split; [split; reflexivity | now apply plain_digits]. }
  assert (Hdec : parse_decimal (decimal ip frac) = Some q).
  { unfold parse_decimal, decimal.
    destruct frac as [f|].
    - rewrite (span_digits_app ip ("." +:+ f) Hip)
        by (intros a r E; injection E as <- _; reflexivity).
      change ("." +:+ f) with (String "." f). cbn iota.
      rewrite (span_digits_all f Hfrac).
      destruct ip as [|d ip']; [contradiction|]. reflexivity.
    - rewrite (span_digits_app ip "" Hip) by discriminate.
      destruct ip as [|d ip']; [contradiction|]. reflexivity. }
  destruct ip as [|d ip']; [contradiction|].
  apply all_digits_cons in Hip as [Hd Hip'].
  destruct (digit_facts d Hd) as (_ & _ & _ & _ & Hsign & Hword).
  unfold float_of_str.
  assert (Hbody : exists rest, decimal (String d ip') frac = String d rest) by (eexists; reflexivity).
  destruct Hbody as [rest Hbody]. rewrite Hbody in *.
  destruct neg.
  - change ("-" +:+ String d rest) with (String "-" (String d rest)).
    rewrite strip_plain by (apply plain_cons; split; [split; reflexivity | exact Hpl]).
    rewrite drop_underscores_plain; [|exact I|apply plain_cons; split; [split; reflexivity | exact Hpl]].
    cbn [split_sign].
    rewrite !Hword by (cbn; tauto). cbn [orb]. now rewrite Hdec.
  - change ("" +:+ String d rest) with (String d rest).
    rewrite strip_plain, drop_underscores_plain by (exact Hpl || exact I).
    rewrite Hsign. rewrite !Hword by (cbn; tauto). cbn [orb]. now rewrite Hdec.
Qed.

End LiteralFacts.

(** ** Timestamps and the archive permalink (foc-md-formatter.py) *)
Module PermalinkFacts.
Import Py Run Spec Datetime StringFacts RunFacts FloatFacts LiteralFacts.

Lemma format_permalink_result (headers body : gmap string string) (verbose : bool)
    (dt : datetime) :
  FocMdFormatter.ts_to_datetime (get_default headers "message_ts" "") = inr dt ->
  result (FocMdFormatter.format_permalink headers body verbose)
  = inr {| label := FocMdFormatter.CONVERSATION_LABEL;
           url := permalink_url dt (FocMdFormatter.get_iso_week dt)
                    (get_default headers "channel_name" "general")
                    (millis_field (get_default headers "message_ts" "")) |}.
Proof.
  intros Hdt. unfold FocMdFormatter.format_permalink. rewrite Hdt, result_bind_lift.
  unfold millis_field, permalink_url, WEEKLY_URL.
  set (ts := get_default headers "message_ts" "") in *.
  destruct (str_in "." ts) eqn:Hdot.
  - apply str_in_char in Hdot. destruct (split_second "." ts Hdot) as (a & b & rest & ->).
    rewrite result_bind_ret. apply result_bind_when.
    intros w r E. cbn in E. now inversion E.
  - rewrite result_bind_ret. apply result_bind_when.
    intros w r E. cbn in E. now inversion E.
Qed.

(** Every signed decimal numeral within the range of [datetime] parses:
    without a sign from the epoch on, with a "-" at or before the epoch. *)
Lemma ts_to_datetime_decimal (neg : bool) (ip : string) (frac : option string) :
  all_digits ip -> ip <> "" ->
  match frac with Some fp => all_digits fp | None => True end ->
  digits_value 0 ip <= (if neg then 62135596799 else 253402300798) ->
  exists dt,
    FocMdFormatter.ts_to_datetime ((if neg then "-" else "") +:+ decimal ip frac) = inr dt
    /\ 1 <= year dt <= 9999
    /\ (neg = false -> 1970 <= year dt)
    /\ (neg = true -> year dt <= 1970)
    /\ (neg = true -> 1 <= digits_value 0 ip -> year dt <= 1969).
Proof.
  intros Hip Hne Hfrac Hb. unfold FocMdFormatter.ts_to_datetime.
  rewrite (float_of_decimal neg ip frac Hip Hne Hfrac).
  set (fp := match frac with Some fp => fp | None => "" end).
  assert (Hfp : all_digits fp) by (subst fp; destruct frac; [assumption | constructor]).
  destruct (decimal_value_bounds ip fp Hip Hfp) as [Hlo Hhi].
  destruct (digits_value_acc 0 ip Hip) as [_ [Hn0 _]].
  set (n := digits_value 0 ip) in *.
  set (q := (inject_Z (digits_value 0 (ip +:+ fp))
             * pow10 (0 - Z.of_nat (String.length fp)))%Q) in *.
  clearbody q n.
  assert (H53 : 2 ^ 53 = 9007199254740992) by reflexivity.
  destruct neg.
  - destruct (round64_bounds (- q) (- (n + 1)) (- n)) as (r & -> & Hrl & Hrh);
      rewrite ?inject_Z_opp; [lia | lia | lra | lra |].
    rewrite inject_Z_opp in Hrl, Hrh.
    assert (HnQ : (0 <= inject_Z n)%Q) by (change 0%Q with (inject_Z 0); now rewrite <- Zle_Qle).
    assert (HbQ : (inject_Z (n + 1) <= inject_Z 62135596800)%Q) by (rewrite <- Zle_Qle; lia).
    destruct (fromtimestamp_in_range r) as (dt & -> & Hy & Hpre & _ & Hnp).
    { change (inject_Z (-62135596800)) with (- inject_Z 62135596800)%Q. lra. }
    { assert (inject_Z 0 <= inject_Z 253402300799)%Q by (rewrite <- Zle_Qle; lia).
      change (inject_Z 0) with 0%Q in H. lra. }
    exists dt. repeat split; try lia.
    + intros _. apply Hnp. change (inject_Z 0) with 0%Q. lra.
    + intros _ H1. apply Hpre.
      assert (inject_Z 1 <= inject_Z n)%Q by (now rewrite <- Zle_Qle).
      change (inject_Z (-1)) with (- inject_Z 1)%Q. lra.
  - destruct (round64_bounds q n (n + 1)) as (r & -> & Hrl & Hrh); [lia | lia | lra | lra |].
    assert (HnQ : (0 <= inject_Z n)%Q) by (change 0%Q with (inject_Z 0); now rewrite <- Zle_Qle).
    assert (HbQ : (inject_Z (n + 1) <= inject_Z 253402300799)%Q) by (rewrite <- Zle_Qle; lia).
    destruct (fromtimestamp_in_range r) as (dt & -> & Hy & _ & Hpost & _).
    { assert (inject_Z (-62135596800) <= inject_Z 0)%Q by (rewrite <- Zle_Qle; lia).
      change (inject_Z 0) with 0%Q in H. lra. }
    { lra. }
    exists dt. repeat split; try lia; try discriminate.
    intros _. apply Hpost. change (inject_Z 0) with 0%Q. lra.
Qed.

Lemma digits_no_dot (s : string) : all_digits s -> ~ In "."%char (list_ascii_of_string s).
Proof.
  induction s as [|a s IH]; intros H; [intros []|].
  apply all_digits_cons in H as [Ha Hs].
  destruct (digit_facts a Ha) as (_ & _ & Hdot & _).
  intros [->|Hin]; [discriminate | now apply IH].
Qed.

(** The millisecond field of a text with a single "." is what follows the
    ".", cut after three characters. *)
Lemma millis_field_fraction (pre fp : string) :
  ~ In "."%char (list_ascii_of_string pre) ->
  ~ In "."%char (list_ascii_of_string fp) ->
  millis_field (pre +:+ "." +:+ fp) = slice_to 3 fp.
Proof.
  intros Hpre Hfp. unfold millis_field.
  change ("." +:+ fp) with (String "." fp).
  assert (Hin : str_in "." (pre +:+ String "." fp) = true).
  { apply str_in_char. rewrite list_ascii_append. apply in_or_app. right. now left. }
  rewrite Hin, (split_first "." pre fp Hpre), (split_without "." fp Hfp). reflexivity.
Qed.

Lemma millis_field_decimal (ip : string) (frac : option string) :
  all_digits ip ->
  match frac with Some fp => all_digits fp | None => True end ->
  millis_field (decimal ip frac)
  = match frac with Some fp => slice_to 3 fp | None => "000" end.
Proof.
  intros Hip Hfrac. unfold decimal. destruct frac as [fp|].
  - apply millis_field_fraction; now apply digits_no_dot.
  - rewrite append_empty. unfold millis_field.
    apply digits_no_dot, str_in_char_false in Hip. now rewrite Hip.
Qed.

End PermalinkFacts.

(** ** Attachments (both scripts) *)
Module AttachmentProofs.
Import Py Run Spec StringFacts RunFacts.

Lemma get_or_first_non_empty (d : gmap string string) (k : string)
    (rest : list (option string)) (dflt : string) :
  get_or d k (first_non_empty rest dflt) = first_non_empty (d !! k :: rest) dflt.
Proof.
  unfold get_or. simpl. destruct (d !! k) as [[|a s]|]; reflexivity.
Qed.

(** A chosen value is the default or one of the candidates, as it stands. *)
Lemma first_non_empty_pass_through (candidates : list (option string)) (dflt : string) :
  first_non_empty candidates dflt = dflt \/
  In (Some (first_non_empty candidates dflt)) candidates.
Proof.
  induction candidates as [|[[|a s]|] rest IH]; simpl.
  - now left.
  - destruct IH as [IH|IH]; [now left | right; now right].
  - right. now left.
  - destruct IH as [IH|IH]; [now left | right; now right].
Qed.

Lemma first_non_empty_absent (candidates : list (option string)) (dflt : string) :
  Forall (fun c => c = None) candidates -> first_non_empty candidates dflt = dflt.
Proof.
  induction 1 as [|c rest Hc _ IH]; simpl; [reflexivity|]. now rewrite Hc.
Qed.

Lemma plain_attachment (headers body : gmap string string) (verbose : bool) :
  result (FormatLinks.format_attachment headers body verbose) =
  inr {| label := first_non_empty (label_candidates body) "Untitled";
         url := first_non_empty (url_candidates body) "" |}.
Proof.
  unfold FormatLinks.format_attachment, label_candidates, url_candidates.
  rewrite <- !get_or_first_non_empty. simpl first_non_empty.
  apply result_bind_when. intros w r E. now inversion E.
Qed.

Lemma archive_attachment (headers body : gmap string string) (verbose : bool) :
  result (FocMdFormatter.format_attachment headers body verbose) =
  inr {| label := first_non_empty (label_candidates body) "Untitled";
         url := first_non_empty (url_candidates body) "" |}.
Proof.
  unfold FocMdFormatter.format_attachment, label_candidates, url_candidates.
  rewrite <- !get_or_first_non_empty. simpl first_non_empty.
  apply result_bind_when. intros w r E. now inversion E.
Qed.

(** C6. In both scripts the attachment action never fails; its url is the
    first non-empty of [original_url], [from_url], [title_link], [url],
    else the empty string, and its label the first non-empty of [title],
    [name], [fallback], else "Untitled".  The value chosen is the field's
    value as it stands (or the default), and a body with none of these
    fields yields "Untitled" and the empty url. *)
Theorem attachment_fallback_chains (headers body : gmap string string) (verbose : bool) :
  let label' := first_non_empty (label_candidates body) "Untitled" in
  let url' := first_non_empty (url_candidates body) "" in
  result (FocMdFormatter.format_attachment headers body verbose)
    = inr {| label := label'; url := url' |}
  /\ result (FormatLinks.format_attachment headers body verbose)
    = inr {| label := label'; url := url' |}
  /\ (label' = "Untitled" \/ In (Some label') (label_candidates body))
  /\ (url' = "" \/ In (Some url') (url_candidates body))
  /\ (Forall (fun c => c = None) (label_candidates body ++ url_candidates body) ->
      label' = "Untitled" /\ url' = "").
Proof.
  intros label' url'. repeat split.
  - apply archive_attachment.
  - apply plain_attachment.
  - apply first_non_empty_pass_through.
  - apply first_non_empty_pass_through.
  - apply first_non_empty_absent. apply Forall_app in H. tauto.
  - apply first_non_empty_absent. apply Forall_app in H. tauto.
Qed.

(** C9. The attachment formatters of the two scripts agree on every
    headers, body and verbosity: they print the same lines and return the
    same label and the same url. *)
Theorem attachment_variants_agree (headers body : gmap string string) (verbose : bool) :
  FormatLinks.format_attachment headers body verbose
  = FocMdFormatter.format_attachment headers body verbose
  /\ exists l,
       result (FormatLinks.format_attachment headers body verbose) = inr l
       /\ result (FocMdFormatter.format_attachment headers body verbose) = inr l.
Proof.
  split; [reflexivity|].
  eexists. split; [apply plain_attachment | apply archive_attachment].
Qed.

Lemma attachment_fallback_chains_witness :
  result (FocMdFormatter.format_attachment ∅ ∅ false)
  = inr {| label := "Untitled"; url := "" |}.
Proof.
  destruct (attachment_fallback_chains ∅ ∅ false) as (Hres & _ & _ & _ & Hnone).
  destruct Hnone as [Hl Hu]; [repeat constructor|].
  rewrite Hres, Hl, Hu. reflexivity.
Defined.

End AttachmentProofs.

(** ** The plain permalink (format-links.py) *)
Module PlainPermalinkProofs.
Import Py Run Spec StringFacts RunFacts.

Lemma replace_empty_without (c : ascii) (s : string) :
  replace c "" s = without c s.
Proof.
  induction s as [|a s IH]; simpl; [reflexivity|].
  rewrite IH. now destruct (Ascii.eqb a c).
Qed.

Lemma without_free (c : ascii) (s : string) :
  str_in (String c "") (without c s) = false.
Proof.
  apply str_in_char_false. induction s as [|a s IH]; simpl; [tauto|].
  destruct (Ascii.eqb a c) eqn:E; [exact IH|].
  simpl. intros [->|H]; [|now apply IH].
  now rewrite Ascii.eqb_refl in E.
Qed.

(** C7. The plain permalink action never fails and never inspects the
    timestamp: whatever the strings [channel_id] and [message_ts] are (the
    empty string for one the headers lack), the label is "Conversation
    permalink" and the url is
    https://app.slack.com/archives/{channel_id}/p{digits}, where [digits] is
    [message_ts] without its "." characters (and holds none). *)
Theorem plain_permalink_passes_through
    (headers body : gmap string string) (verbose : bool) :
  let channel_id := get_default headers "channel_id" "" in
  let message_ts := get_default headers "message_ts" "" in
  result (FormatLinks.format_permalink headers body verbose)
  = inr {| label := "Conversation permalink";
           url := "https://app.slack.com/archives/" +:+ channel_id +:+ "/p"
                  +:+ without "." message_ts |}
  /\ str_in "." (without "." message_ts) = false
  /\ (forall cid ts,
        headers !! "channel_id" = Some cid -> headers !! "message_ts" = Some ts ->
        result (FormatLinks.format_permalink headers body verbose)
        = inr {| label := "Conversation permalink";
                 url := "https://app.slack.com/archives/" +:+ cid +:+ "/p"
                        +:+ without "." ts |}).
Proof.
  intros channel_id message_ts.
  assert (H : result (FormatLinks.format_permalink headers body verbose)
              = inr {| label := "Conversation permalink";
                       url := "https://app.slack.com/archives/" +:+ channel_id +:+ "/p"
                              +:+ without "." message_ts |}).
  { unfold FormatLinks.format_permalink. fold channel_id message_ts.
    rewrite replace_empty_without. apply result_bind_when.
    intros w r E. now inversion E. }
  split; [exact H|]. split; [apply without_free|].
  intros cid ts Hc Ht. rewrite H. subst channel_id message_ts.
  unfold get_default. now rewrite Hc, Ht.
Qed.

Lemma plain_permalink_passes_through_witness :
  result (FormatLinks.format_permalink
            {[ "channel_id" := "C123ABC"; "message_ts" := "not.a.timestamp" ]} ∅ false)
  = inr {| label := "Conversation permalink";
           url := "https://app.slack.com/archives/C123ABC/pnotatimestamp" |}.
Proof.
  destruct (plain_permalink_passes_through
              {[ "channel_id" := "C123ABC"; "message_ts" := "not.a.timestamp" ]} ∅ false)
    as (_ & _ & H).
  apply (H "C123ABC" "not.a.timestamp"); reflexivity.
Defined.

End PlainPermalinkProofs.

(** ** Dispatch on the action (both scripts) *)
Module DispatchProofs.
Import Py Run Spec.

Lemma eqb_not_in (a b : string) (l : list string) :
  ~ In a (b :: l) -> String.eqb a b = false /\ ~ In a l.
Proof.
  intros H. split.
  - apply String.eqb_neq. intros ->. apply H. now left.
  - intros Hin. apply H. now right.
Qed.

Lemma archive_dispatch_unknown (action : string) (r : request) (verbose : bool) :
  ~ In action archive_actions -> FocMdFormatter.dispatch action r verbose = None.
Proof.
  unfold archive_actions, FocMdFormatter.dispatch. intros H.
  repeat (apply eqb_not_in in H as [-> H]). reflexivity.
Qed.

Lemma plain_dispatch_unknown (action : string) (r : request) (verbose : bool) :
  ~ In action plain_actions -> FormatLinks.dispatch action r verbose = None.
Proof.
  unfold plain_actions, FormatLinks.dispatch. intros H.
  repeat (apply eqb_not_in in H as [-> H]). reflexivity.
Qed.

Lemma serve_unknown dispatch (verbose : bool) (r : request) :
  dispatch (action_of r) r verbose = None ->
  let o := serve dispatch verbose (Decoded r) in
  let diagnostic := "Error: Unknown action '" +:+ action_of r +:+ "'" in
  status o = 1 /\ stdout o = []
  /\ diagnostic <> ""
  /\ exists trace, stderr o = (trace ++ [Text diagnostic])%list.
Proof.
  intros H. unfold serve. fold (action_of r). rewrite H. cbn.
  repeat split.
  - destruct (action_of r); discriminate.
  - eauto.
Qed.

(** C8. A request whose action tag is not one the script recognizes (five
    values in foc-md-formatter.py, three in format-links.py) ends the run
    with status 1, nothing on stdout, and the diagnostic
    [Error: Unknown action '...'] as the last line of stderr. *)
Theorem unknown_action_is_reported (verbose : bool) (r : request) :
  let diagnostic := "Error: Unknown action '" +:+ action_of r +:+ "'" in
  (~ In (action_of r) archive_actions ->
   let o := FocMdFormatter.main verbose (Decoded r) in
   status o = 1 /\ status o <> 0 /\ stdout o = [] /\ diagnostic <> ""
   /\ exists trace, stderr o = (trace ++ [Text diagnostic])%list)
  /\
  (~ In (action_of r) plain_actions ->
   let o := FormatLinks.main verbose (Decoded r) in
   status o = 1 /\ status o <> 0 /\ stdout o = [] /\ diagnostic <> ""
   /\ exists trace, stderr o = (trace ++ [Text diagnostic])%list).
Proof.
  intros diagnostic. split; intros H o.
  - destruct (serve_unknown FocMdFormatter.dispatch verbose r) as (Hs & Ho & Hd & He).
    { now apply archive_dispatch_unknown. }
    subst o. unfold FocMdFormatter.main. rewrite Hs. repeat split; auto; discriminate.
  - destruct (serve_unknown FormatLinks.dispatch verbose r) as (Hs & Ho & Hd & He).
    { now apply plain_dispatch_unknown. }
    subst o. unfold FormatLinks.main. rewrite Hs. repeat split; auto; discriminate.
Qed.

Lemma unknown_action_is_reported_witness :
  status (FormatLinks.main false
            (Decoded {| headers := {[ "action" := "prefix" ]}; body := ∅; threads := None |})) = 1
  /\ stdout (FormatLinks.main false
               (Decoded {| headers := {[ "action" := "prefix" ]}; body := ∅; threads := None |})) = []
  /\ stderr (FormatLinks.main false
               (Decoded {| headers := {[ "action" := "prefix" ]}; body := ∅; threads := None |}))
     = [Text "Error: Unknown action 'prefix'"].
Proof.
  destruct (unknown_action_is_reported false
              {| headers := {[ "action" := "prefix" ]}; body := ∅; threads := None |})
    as [_ H].
  destruct H as (Hs & _ & Ho & _ & _).
  { vm_compute. intros [H|[H|[H|[]]]]; discriminate. }
  split; [exact Hs|]. split; [exact Ho | reflexivity].
Defined.

End DispatchProofs.

(** ** File urls (foc-md-formatter.py) *)
Module FileProofs.
Import Py Run Spec StringFacts RunFacts.

(** [rfind] finds the last occurrence, when there is one. *)
Lemma rfind_from_spec (c : ascii) (s : string) (i last : Z) :
  (~ In c (list_ascii_of_string s) /\ rfind_from c s i last = last)
  \/ (exists stem tail,
        s = stem +:+ String c tail /\ ~ In c (list_ascii_of_string tail)
        /\ rfind_from c s i last = i + Z.of_nat (String.length stem)).
Proof.
  revert i last. induction s as [|a s IH]; intros i last.
  - left. split; [intros [] | reflexivity].
  - cbn [rfind_from].
    destruct (IH (i + 1) (if Ascii.eqb a c then i else last))
      as [[Hno Hr]|(stem & tail & -> & Hno & Hr)].
    + destruct (Ascii.eqb a c) eqn:E.
      * apply Ascii.eqb_eq in E as ->. right. exists "", s.
        repeat split; [exact Hno | rewrite Hr; simpl; lia].
      * left. split; [|exact Hr]. simpl. intros [->|H]; [|contradiction].
        now rewrite Ascii.eqb_refl in E.
    + right. exists (String a stem), tail.
      repeat split; [exact Hno | rewrite Hr; simpl String.length; lia].
Qed.

Lemma slice_from_rfind (c : ascii) (s : string) :
  In c (list_ascii_of_string s) ->
  exists stem tail,
    s = stem +:+ String c tail /\ ~ In c (list_ascii_of_string tail)
    /\ slice_from (rfind c s) s = String c tail.
Proof.
  intros Hin. unfold rfind.
  destruct (rfind_from_spec c s 0 (-1)) as [[Hno _]|(stem & tail & -> & Hno & Hr)];
    [contradiction|].
  exists stem, tail. repeat split; [exact Hno|].
  rewrite Hr. unfold slice_from.
  replace (0 + Z.of_nat (String.length stem) <? 0) with false by (symmetry; apply Z.ltb_ge; lia).
  rewrite Z.add_0_l, Nat2Z.id. apply drop_append.
Qed.

Lemma ext_map_table (mimetype : string) :
  get_default FocMdFormatter.ext_map mimetype "" = mimetype_extension mimetype.
Proof.
  unfold get_default, FocMdFormatter.ext_map, mimetype_extension. cbn [list_to_map foldr uncurry fst snd].
  repeat (rewrite lookup_insert;
          destruct (decide _) as [<-|E];
          [reflexivity
          | apply not_eq_sym, String.eqb_neq in E; rewrite E; clear E]).
  now rewrite lookup_empty.
Qed.

(** The extension [format_file_url] computes. *)
Lemma format_file_url_spec (file_id filename mimetype : string) :
  exists ext,
    FocMdFormatter.format_file_url file_id filename mimetype
    = FILES_URL +:+ slice_to 3 file_id +:+ "/" +:+ file_id +:+ ext
    /\ (str_in "." filename = true -> last_dot_suffix filename ext)
    /\ (str_in "." filename = false -> ext = mimetype_extension mimetype).
Proof.
  unfold FocMdFormatter.format_file_url.
  assert (Hshard : (if truthy file_id then slice_to 3 file_id else "") = slice_to 3 file_id).
  { destruct (truthy file_id) eqn:E; [reflexivity|].
    apply truthy_false in E as ->. reflexivity. }
  rewrite Hshard. clear Hshard.
  destruct (str_in "." filename) eqn:Hdot.
  - assert (Ht : truthy filename = true) by (destruct filename; [discriminate | reflexivity]).
    rewrite Ht. cbn [andb]. eexists. split; [reflexivity|]. split; [intros _ | discriminate].
    apply str_in_char in Hdot.
    destruct (slice_from_rfind "." filename Hdot) as (stem & tail & Hs & Hno & Hr).
    exists stem, tail. repeat split; [exact Hs | | exact Hr].
    now apply str_in_char_false.
  - rewrite andb_false_r. eexists. split; [reflexivity|]. split; [discriminate | intros _].
    destruct (truthy mimetype) eqn:E; [apply ext_map_table|].
    apply truthy_false in E as ->. reflexivity.
Qed.

(** C1, as the code has it.  The file action never fails and returns the
    url https://history.futureofcoding.org/history/msg_files/{shard}/{id}{ext}:
    [shard] is the first 3 characters of [id] (empty when [id] is absent or
    empty), and [ext] is resolved from the file name, which is [name] when
    it is not empty and [title] otherwise: the part of the file name from
    its last "." when it holds one, else the mimetype-table entry, else the
    empty string.  With a non-empty [name] this is the extension and the
    url the specification describes. *)
Theorem file_url_from_name_or_title (headers body : gmap string string) (verbose : bool) :
  let id := get_or body "id" "" in
  let filename := first_non_empty [body !! "name"; body !! "title"] "" in
  let mimetype := get_default body "mimetype" "" in
  exists ext,
    result (FocMdFormatter.format_file headers body verbose)
    = inr {| label := first_non_empty [body !! "title"; body !! "name"] "Untitled";
             url := FILES_URL +:+ slice_to 3 id +:+ "/" +:+ id +:+ ext |}
    /\ (str_in "." filename = true -> last_dot_suffix filename ext)
    /\ (str_in "." filename = false -> ext = mimetype_extension mimetype)
    /\ (get_or body "name" "" <> "" -> ext = name_extension body).
Proof.
  intros id filename mimetype.
  assert (Hfn : get_or body "name" (get_or body "title" "") = filename).
  { subst filename. now rewrite <- !AttachmentProofs.get_or_first_non_empty. }
  assert (Hlb : get_or body "title" (get_or body "name" "Untitled")
                = first_non_empty [body !! "title"; body !! "name"] "Untitled").
  { now rewrite <- !AttachmentProofs.get_or_first_non_empty. }
  destruct (format_file_url_spec id filename mimetype) as (ext & Hurl & Hdot & Hmime).
  exists ext. split; [|split; [exact Hdot|split; [exact Hmime|]]].
  - unfold FocMdFormatter.format_file.
    rewrite Hfn, Hlb. fold id mimetype. rewrite Hurl.
    apply result_bind_when.
    intros w r E. now inversion E.
  - intros Hname. unfold name_extension. subst filename.
    assert (Hsame : first_non_empty [body !! "name"; body !! "title"] ""
                    = get_default body "name" "").
    { unfold get_or, get_default in *. cbn [first_non_empty].
      destruct (body !! "name") as [[|a n]|]; [contradiction | reflexivity | contradiction]. }
    rewrite Hsame in *.
    destruct (str_in "." (get_default body "name" "")) eqn:Hd; [|now apply Hmime].
    destruct (Hdot eq_refl) as (stem & tail & Hs & Hno & ->).
    apply str_in_char in Hd.
    destruct (slice_from_rfind "." _ Hd) as (stem' & tail' & Hs' & Hno' & ->).
    rewrite Hs in Hs'. clear - Hs' Hno Hno'.
    apply str_in_char_false in Hno.
    revert stem' Hs'. induction stem as [|a stem IH]; intros [|b stem'] Hs'.
    + exact Hs'.
    + exfalso. injection Hs' as _ Ht. apply Hno. change ("" +:+ tail) with tail in Ht.
      rewrite Ht, list_ascii_append. apply in_or_app. right. now left.
    + exfalso. injection Hs' as _ Ht. apply Hno'.
      rewrite <- Ht, list_ascii_append. apply in_or_app. right. now left.
    + injection Hs' as _ Ht. exact (IH _ Ht).
Qed.

Lemma file_url_from_name_or_title_witness :
  result (FocMdFormatter.format_file ∅
            {[ "id" := "F0AASCM79SN"; "name" := "x.png"; "mimetype" := "image/png" ]} false)
  = inr {| label := "x.png";
           url := "https://history.futureofcoding.org/history/msg_files/F0A/F0AASCM79SN.png" |}.
Proof.
  destruct (file_url_from_name_or_title ∅
              {[ "id" := "F0AASCM79SN"; "name" := "x.png"; "mimetype" := "image/png" ]} false)
    as (ext & Hres & _ & _ & Hname).
  rewrite Hres, Hname; [reflexivity | discriminate].
Defined.

(** C1 as the specification words it, with the extension taken from [name]
    alone, fails on a descriptor without a [name] whose [title] holds a ".":
    the code takes the extension ".2" from the title "Report v1.2", where the
    specification's resolution gives ".pdf" from the mimetype table. *)
Lemma file_extension_from_title_counterexample :
  result (FocMdFormatter.format_file ∅
            {[ "id" := "F1"; "title" := "Report v1.2"; "mimetype" := "application/pdf" ]} false)
  = inr {| label := "Report v1.2";
           url := "https://history.futureofcoding.org/history/msg_files/F1/F1.2" |}
  /\ name_file_url {[ "id" := "F1"; "title" := "Report v1.2"; "mimetype" := "application/pdf" ]}
     = "https://history.futureofcoding.org/history/msg_files/F1/F1.pdf"
  /\ ~ (forall (headers body : gmap string string) (verbose : bool),
          exists l, result (FocMdFormatter.format_file headers body verbose) = inr l
                    /\ url l = name_file_url body).
Proof.
  split; [reflexivity|]. split; [reflexivity|].
  intros H.
  destruct (H ∅ {[ "id" := "F1"; "title" := "Report v1.2"; "mimetype" := "application/pdf" ]} false)
    as (l & Hl & Hu).
  vm_compute in Hl. injection Hl as <-. vm_compute in Hu. discriminate.
Qed.

End FileProofs.

(** ** Parsing a timestamp (foc-md-formatter.py) *)
Module TimestampProofs.
Import Py Run Spec Datetime StringFacts RunFacts FloatFacts LiteralFacts PermalinkFacts.

Lemma ts_to_datetime_not_float (s : string) :
  float_of_str s = None -> FocMdFormatter.ts_to_datetime s = inl ValueError.
Proof. unfold FocMdFormatter.ts_to_datetime. now intros ->. Qed.

Lemma fromtimestamp_inr (x : float) (dt : datetime) :
  fromtimestamp x = inr dt -> exists q, x = Finite q /\ 1 <= year dt <= 9999.
Proof.
  destruct x as [q|b|]; try discriminate. intros H. exists q. split; [reflexivity|].
  unfold fromtimestamp in H. destruct (split_timestamp q) as [sec us].
  destruct (_ || _) in H; [discriminate|].
  destruct (ord2ymd _) as [[y m] d].
  destruct (_ || _) in H; [discriminate|].
  destruct ((y <? 1) || (9999 <? y)) eqn:E in H; [discriminate|].
  apply orb_false_iff in E as [E1 E2]. apply Z.ltb_ge in E1, E2.
  injection H as <-. cbn [year]. lia.
Qed.

Lemma ts_to_datetime_inr (s : string) (dt : datetime) :
  FocMdFormatter.ts_to_datetime s = inr dt ->
  exists q, float_of_str s = Some (Finite q) /\ 1 <= year dt <= 9999.
Proof.
  unfold FocMdFormatter.ts_to_datetime. destruct (float_of_str s) as [x|]; [|discriminate].
  intros H. destruct (fromtimestamp_inr x dt H) as (q & -> & Hy). eauto.
Qed.



End TimestampProofs.

(** ** The archive permalink (foc-md-formatter.py) *)
Module ArchivePermalinkProofs.
Import Py Run Spec Datetime StringFacts RunFacts FloatFacts LiteralFacts PermalinkFacts.

Lemma get_default_Some (d : gmap string string) (k v dflt : string) :
  d !! k = Some v -> get_default d k dflt = v.
Proof. unfold get_default. now intros ->. Qed.

(** C4. With channel_name "share-your-work" and message_ts
    "1736762741.815000" the archive permalink action returns the label
    U+1F9F5 followed by "conversation" and the url of week 3 of January 2025
    with the anchor 2025-01-13T10:05:41.815Z. *)
Theorem archive_permalink_example
    (headers body : gmap string string) (verbose : bool) :
  headers !! "channel_name" = Some "share-your-work" ->
  headers !! "message_ts" = Some "1736762741.815000" ->
  result (FocMdFormatter.format_permalink headers body verbose)
  = inr {| label := unichr 0x1f9f5 +:+ "conversation";
           url := "https://history.futureofcoding.org/history/weekly/2025/01/W3/share-your-work.html#2025-01-13T10:05:41.815Z" |}.
Proof.
  intros Hch Hts.
  apply (get_default_Some _ _ _ "general") in Hch.
  apply (get_default_Some _ _ _ "") in Hts.
  rewrite (format_permalink_result headers body verbose
             {| year := 2025; month := 1; day := 13;
                hour := 10; minute := 5; second := 41; microsecond := 815000 |})
    by (rewrite Hts; vm_compute; reflexivity).
  rewrite Hch, Hts. vm_compute. reflexivity.
Qed.

Lemma archive_permalink_example_witness :
  result (FocMdFormatter.format_permalink
            {[ "action" := "format-permalink"; "channel_id" := "C123ABC";
               "channel_name" := "share-your-work";
               "message_ts" := "1736762741.815000" ]} ∅ false)
  = inr {| label := unichr 0x1f9f5 +:+ "conversation";
           url := "https://history.futureofcoding.org/history/weekly/2025/01/W3/share-your-work.html#2025-01-13T10:05:41.815Z" |}.
Proof.
  apply archive_permalink_example; vm_compute; reflexivity.
Defined.

Lemma week_of_date (dt : datetime) (y m d : Z) :
  year dt = y -> month dt = m -> day dt = d ->
  isocalendar dt = isocalendar {| year := y; month := m; day := d;
                                  hour := 0; minute := 0; second := 0; microsecond := 0 |}.
Proof. destruct dt. cbn. now intros -> -> ->. Qed.

Lemma get_iso_week_isocalendar (dt : datetime) (y w d : Z) :
  isocalendar dt = (y, w, d) -> FocMdFormatter.get_iso_week dt = w.
Proof. unfold FocMdFormatter.get_iso_week. now intros ->. Qed.

(** C3. The url path of the archive permalink is built from the calendar
    year and the zero-padded calendar month of the input date and from its
    ISO-8601 week number, whose ISO year is not used: every datetime on
    2021-01-01 has week 53 (of ISO year 2020), on 2023-01-01 week 52 (of ISO
    year 2022), on 2024-01-01 week 1; so timestamp 1609459200.000000 is
    filed under /2021/01/W53/, and timestamp 1704067200.000000, with any
    channel, yields a url that contains /W1/ and /2024/01/. *)
Theorem permalink_path_year_month_week :
  (forall (headers body : gmap string string) (verbose : bool) (dt : datetime),
     FocMdFormatter.ts_to_datetime (get_default headers "message_ts" "") = inr dt ->
     exists millis,
       result (FocMdFormatter.format_permalink headers body verbose)
       = inr {| label := FocMdFormatter.CONVERSATION_LABEL;
                url := WEEKLY_URL +:+ str_of_int (year dt) +:+ "/" +:+ zero_pad 2 (month dt)
                       +:+ "/W" +:+ str_of_int (FocMdFormatter.get_iso_week dt) +:+ "/"
                       +:+ get_default headers "channel_name" "general"
                       +:+ ".html#" +:+ strftime_iso dt +:+ "." +:+ millis +:+ "Z" |})
  /\ (forall dt, year dt = 2021 -> month dt = 1 -> day dt = 1 ->
        FocMdFormatter.get_iso_week dt = 53 /\ isocalendar dt = (2020, 53, 5))
  /\ (forall dt, year dt = 2023 -> month dt = 1 -> day dt = 1 ->
        FocMdFormatter.get_iso_week dt = 52 /\ isocalendar dt = (2022, 52, 7))
  /\ (forall dt, year dt = 2024 -> month dt = 1 -> day dt = 1 ->
        FocMdFormatter.get_iso_week dt = 1 /\ isocalendar dt = (2024, 1, 1))
  /\ (forall (headers body : gmap string string) (verbose : bool),
        headers !! "message_ts" = Some "1609459200.000000" ->
        result (FocMdFormatter.format_permalink headers body verbose)
        = inr {| label := FocMdFormatter.CONVERSATION_LABEL;
                 url := WEEKLY_URL +:+ "2021/01/W53/"
                        +:+ get_default headers "channel_name" "general"
                        +:+ ".html#2021-01-01T00:00:00.000Z" |})
  /\ (forall (headers body : gmap string string) (verbose : bool),
        headers !! "message_ts" = Some "1704067200.000000" ->
        exists l,
          result (FocMdFormatter.format_permalink headers body verbose) = inr l
          /\ str_in "/W1/" (url l) = true /\ str_in "/2024/01/" (url l) = true).
Proof.
  split.
  { intros headers body verbose dt Hdt. eexists.
    rewrite (format_permalink_result headers body verbose dt Hdt). reflexivity. }
  assert (Hweek : forall y m d iy w wd,
            isocalendar {| year := y; month := m; day := d;
                           hour := 0; minute := 0; second := 0; microsecond := 0 |}
            = (iy, w, wd) ->
            forall dt, year dt = y -> month dt = m -> day dt = d ->
            FocMdFormatter.get_iso_week dt = w /\ isocalendar dt = (iy, w, wd)).
  { intros y m d iy w wd H dt Hy Hm Hd.
    rewrite <- H, <- (week_of_date dt y m d Hy Hm Hd).
    split; [|reflexivity].
    apply (get_iso_week_isocalendar dt iy w wd).
    now rewrite (week_of_date dt y m d Hy Hm Hd). }
  split; [apply (Hweek 2021 1 1); reflexivity|].
  split; [apply (Hweek 2023 1 1); reflexivity|].
  split; [apply (Hweek 2024 1 1); reflexivity|].
  split.
  - intros headers body verbose Hts.
    apply (get_default_Some _ _ _ "") in Hts.
    rewrite (format_permalink_result headers body verbose
               {| year := 2021; month := 1; day := 1;
                  hour := 0; minute := 0; second := 0; microsecond := 0 |})
      by (rewrite Hts; vm_compute; reflexivity).
    rewrite Hts. reflexivity.
  - intros headers body verbose Hts.
    apply (get_default_Some _ _ _ "") in Hts.
    eexists. split.
    + rewrite (format_permalink_result headers body verbose
                 {| year := 2024; month := 1; day := 1;
                    hour := 0; minute := 0; second := 0; microsecond := 0 |})
        by (rewrite Hts; vm_compute; reflexivity).
      reflexivity.
    + cbn [url]. rewrite Hts. split.
      * exact (str_in_middle "/W1/"
                 "https://history.futureofcoding.org/history/weekly/2024/01"
                 (get_default headers "channel_name" "general"
                  +:+ ".html#2024-01-01T00:00:00.000Z")).
      * exact (str_in_middle "/2024/01/"
                 "https://history.futureofcoding.org/history/weekly"
                 ("W1/" +:+ get_default headers "channel_name" "general"
                  +:+ ".html#2024-01-01T00:00:00.000Z")).
Qed.

Lemma permalink_path_year_month_week_witness :
  result (FocMdFormatter.format_permalink
            {[ "channel_name" := "general"; "message_ts" := "1609459200.000000" ]} ∅ false)
  = inr {| label := FocMdFormatter.CONVERSATION_LABEL;
           url := "https://history.futureofcoding.org/history/weekly/2021/01/W53/general.html#2021-01-01T00:00:00.000Z" |}.
Proof.
  destruct permalink_path_year_month_week as (_ & _ & _ & _ & H & _).
  rewrite (H {[ "channel_name" := "general"; "message_ts" := "1609459200.000000" ]} ∅ false)
    by (vm_compute; reflexivity).
  vm_compute. reflexivity.
Defined.

(** C5. For a timestamp that is a decimal numeral of seconds within the
    range of [datetime] (digits, optionally "." and digits), parsing succeeds
    with one result, and the millisecond field of the anchor is the
    fraction of the input text cut after three characters: its first three
    digits as they stand when it has three or more, and "000" when the text
    has no decimal point.  The field is read from the text, not from the
    parsed value. *)
Theorem anchor_millis_from_input
    (headers body : gmap string string) (verbose : bool)
    (ip : string) (frac : option string) :
  headers !! "message_ts" = Some (decimal ip frac) ->
  all_digits ip -> ip <> "" ->
  match frac with Some fp => all_digits fp | None => True end ->
  digits_value 0 ip <= 253402300798 ->
  let millis := match frac with Some fp => slice_to 3 fp | None => "000" end in
  exists dt,
    FocMdFormatter.ts_to_datetime (decimal ip frac) = inr dt
    /\ (forall r, FocMdFormatter.ts_to_datetime (decimal ip frac) = r -> r = inr dt)
    /\ result (FocMdFormatter.format_permalink headers body verbose)
       = inr {| label := FocMdFormatter.CONVERSATION_LABEL;
                url := WEEKLY_URL +:+ str_of_int (year dt) +:+ "/" +:+ zero_pad 2 (month dt)
                       +:+ "/W" +:+ str_of_int (FocMdFormatter.get_iso_week dt) +:+ "/"
                       +:+ get_default headers "channel_name" "general"
                       +:+ ".html#" +:+ strftime_iso dt +:+ "." +:+ millis +:+ "Z" |}
    /\ (forall a b c rest,
          frac = Some (String a (String b (String c rest))) ->
          millis = String a (String b (String c ""))).
Proof.
  intros Hts Hip Hne Hfrac Hb millis.
  destruct (ts_to_datetime_decimal false ip frac Hip Hne Hfrac Hb) as (dt & Hdt & _).
  change ("" +:+ decimal ip frac) with (decimal ip frac) in Hdt.
  exists dt. split; [exact Hdt|]. split; [intros r <-; exact Hdt|]. split.
  - apply (get_default_Some _ _ _ "") in Hts.
    rewrite (format_permalink_result headers body verbose dt) by (now rewrite Hts).
    rewrite Hts, (millis_field_decimal ip frac Hip Hfrac). reflexivity.
  - intros a b c rest ->. subst millis. now destruct rest.
Qed.

Lemma anchor_millis_from_input_witness :
  exists dt,
    FocMdFormatter.ts_to_datetime "1640000000.123456" = inr dt
    /\ result (FocMdFormatter.format_permalink
                 {[ "channel_name" := "thinking-together";
                    "message_ts" := "1640000000.123456" ]} ∅ false)
       = inr {| label := FocMdFormatter.CONVERSATION_LABEL;
                url := WEEKLY_URL +:+ str_of_int (year dt) +:+ "/" +:+ zero_pad 2 (month dt)
                       +:+ "/W" +:+ str_of_int (FocMdFormatter.get_iso_week dt)
                       +:+ "/thinking-together.html#" +:+ strftime_iso dt +:+ ".123Z" |}.
Proof.
  destruct (anchor_millis_from_input
              {[ "channel_name" := "thinking-together"; "message_ts" := "1640000000.123456" ]}
              ∅ false "1640000000" (Some "123456"))
    as (dt & Hdt & _ & Hres & _).
  - reflexivity.
  - repeat constructor.
  - discriminate.
  - repeat constructor.
  - vm_compute. discriminate.
  - exists dt. split; [exact Hdt | exact Hres].
Defined.

(** C10. When what follows the "." of message_ts is fewer than three
    digits, the millisecond field of the anchor is those digits and nothing
    more: no zero is added, so the url ends with "." then the digits then
    "Z", and with ".Z" when the "." is the last character.  Such a timestamp
    does parse when the "." follows a numeral of seconds within the range of
    [datetime]. *)
Theorem short_fraction_is_not_padded :
  (forall (headers body : gmap string string) (verbose : bool)
          (pre fp : string) (dt : datetime),
     headers !! "message_ts" = Some (pre +:+ "." +:+ fp) ->
     str_in "." pre = false ->
     all_digits fp -> (String.length fp < 3)%nat ->
     FocMdFormatter.ts_to_datetime (pre +:+ "." +:+ fp) = inr dt ->
     exists l,
       result (FocMdFormatter.format_permalink headers body verbose) = inr l
       /\ url l = permalink_url dt (FocMdFormatter.get_iso_week dt)
                    (get_default headers "channel_name" "general") fp
       /\ ends_with (strftime_iso dt +:+ "." +:+ fp +:+ "Z") (url l)
       /\ (fp = "" -> ends_with ".Z" (url l)))
  /\ (forall (neg : bool) (ip fp : string),
        all_digits ip -> ip <> "" -> all_digits fp ->
        digits_value 0 ip <= (if neg then 62135596799 else 253402300798) ->
        str_in "." ((if neg then "-" else "") +:+ ip) = false
        /\ exists dt,
             FocMdFormatter.ts_to_datetime
               (((if neg then "-" else "") +:+ ip) +:+ "." +:+ fp) = inr dt).
Proof.
  split.
  - intros headers body verbose pre fp dt Hts Hpre Hfp Hlen Hdt.
    apply (get_default_Some _ _ _ "") in Hts.
    eexists. split.
    { rewrite (format_permalink_result headers body verbose dt) by (now rewrite Hts).
      reflexivity. }
    cbn [url]. rewrite Hts.
    rewrite millis_field_fraction
      by (first [now apply str_in_char_false | now apply digits_no_dot]).
    rewrite slice_to_short by lia.
    split; [reflexivity|]. split.
    + unfold permalink_url.
      exists (WEEKLY_URL +:+ str_of_int (year dt) +:+ "/" +:+ zero_pad 2 (month dt)
              +:+ "/W" +:+ str_of_int (FocMdFormatter.get_iso_week dt) +:+ "/"
              +:+ get_default headers "channel_name" "general" +:+ ".html#").
      now rewrite !append_assoc.
    + intros ->. unfold permalink_url.
      exists (WEEKLY_URL +:+ str_of_int (year dt) +:+ "/" +:+ zero_pad 2 (month dt)
              +:+ "/W" +:+ str_of_int (FocMdFormatter.get_iso_week dt) +:+ "/"
              +:+ get_default headers "channel_name" "general" +:+ ".html#"
              +:+ strftime_iso dt).
      now rewrite !append_assoc.
  - intros neg ip fp Hip Hne Hfp Hb. split.
    + apply str_in_char_false. pose proof (digits_no_dot ip Hip) as Hno.
      destruct neg; [|exact Hno].
      change ("-" +:+ ip) with (String "-" ip). cbn [list_ascii_of_string].
      intros [H|H]; [discriminate | contradiction].
    + destruct (ts_to_datetime_decimal neg ip (Some fp) Hip Hne Hfp Hb) as (dt & Hdt & _).
      exists dt. unfold decimal in Hdt. now rewrite append_assoc.
Qed.

Lemma short_fraction_is_not_padded_witness :
  result (FocMdFormatter.format_permalink {[ "message_ts" := "1736762741.8" ]} ∅ false)
  = inr {| label := FocMdFormatter.CONVERSATION_LABEL;
           url := "https://history.futureofcoding.org/history/weekly/2025/01/W3/general.html#2025-01-13T10:05:41.8Z" |}
  /\ result (FocMdFormatter.format_permalink {[ "message_ts" := "1736762741." ]} ∅ false)
  = inr {| label := FocMdFormatter.CONVERSATION_LABEL;
           url := "https://history.futureofcoding.org/history/weekly/2025/01/W3/general.html#2025-01-13T10:05:41.Z" |}.
Proof.
  destruct short_fraction_is_not_padded as [Hshort _].
  split.
  - destruct (Hshort {[ "message_ts" := "1736762741.8" ]} ∅ false
                "1736762741" "8"
                {| year := 2025; month := 1; day := 13;
                   hour := 10; minute := 5; second := 41; microsecond := 800000 |})
      as (l & Hres & _).
    + reflexivity.
    + reflexivity.
    + repeat constructor.
    + simpl. lia.
    + vm_compute. reflexivity.
    + rewrite Hres. vm_compute in Hres. injection Hres as <-. vm_compute. reflexivity.
  - destruct (Hshort {[ "message_ts" := "1736762741." ]} ∅ false
                "1736762741" ""
                {| year := 2025; month := 1; day := 13;
                   hour := 10; minute := 5; second := 41; microsecond := 0 |})
      as (l & Hres & _).
    + reflexivity.
    + reflexivity.
    + constructor.
    + simpl. lia.
    + vm_compute. reflexivity.
    + rewrite Hres. vm_compute in Hres. injection Hres as <-. vm_compute. reflexivity.
Defined.

End ArchivePermalinkProofs.

(** ** The calendar of the [datetime] module *)
Module CalendarFacts.
Import Py Run Spec Datetime FloatFacts.

Lemma is_leap_digits (a b c d : Z) :
  0 <= d <= 3 -> 0 <= c <= 24 -> 0 <= b <= 3 ->
  is_leap (400 * a + 100 * b + 4 * c + d + 1)
  = (d =? 3) && (negb (c =? 24) || (b =? 3)).
Proof.
  intros Hd Hc Hb. unfold is_leap.
  repeat match goal with
         | |- context [?x =? ?y] => destruct (Z.eqb_spec x y)
         end; cbn; try reflexivity; exfalso;
    Z.to_euclidean_division_equations; lia.
Qed.

Lemma days_before_year_digits (a b c d : Z) :
  0 <= d <= 3 -> 0 <= c <= 24 -> 0 <= b <= 3 ->
  days_before_year (400 * a + 100 * b + 4 * c + d + 1)
  = 146097 * a + 36524 * b + 1461 * c + 365 * d.
Proof.
  intros Hd Hc Hb. unfold days_before_year.
  Z.to_euclidean_division_equations. lia.
Qed.

(** [ord2ymd] inverts [ymd2ord], and its date is one of the calendar. *)
Lemma ord2ymd_ymd2ord (n : Z) :
  let '(y, m, d) := ord2ymd n in
  ymd2ord y m d = n /\ 1 <= m <= 12 /\ 1 <= d <= days_in_month y m.
Proof.
  unfold ord2ymd, DI400Y, DI100Y, DI4Y.
  set (n0 := n - 1).
  set (n400 := n0 / 146097). set (r400 := n0 mod 146097).
  set (n100 := r400 / 36524). set (r100 := r400 mod 36524).
  set (n4 := r100 / 1461). set (r4 := r100 mod 1461).
  set (n1 := r4 / 365). set (r1 := r4 mod 365).
  assert (H400 : n0 = 146097 * n400 + r400 /\ 0 <= r400 < 146097)
    by (subst n400 r400; split; [apply Z.div_mod; lia | apply Z.mod_pos_bound; lia]).
  assert (H100 : r400 = 36524 * n100 + r100 /\ 0 <= r100 < 36524)
    by (subst n100 r100; split; [apply Z.div_mod; lia | apply Z.mod_pos_bound; lia]).
  assert (H4 : r100 = 1461 * n4 + r4 /\ 0 <= r4 < 1461)
    by (subst n4 r4; split; [apply Z.div_mod; lia | apply Z.mod_pos_bound; lia]).
  assert (H1 : r4 = 365 * n1 + r1 /\ 0 <= r1 < 365)
    by (subst n1 r1; split; [apply Z.div_mod; lia | apply Z.mod_pos_bound; lia]).
  clearbody n400 r400 n100 r100 n4 r4 n1 r1.
  assert (Hn : n = n0 + 1) by (subst n0; lia). clearbody n0.
  destruct ((n1 =? 4) || (n100 =? 4)) eqn:E.
  - apply orb_true_iff in E. rewrite !Z.eqb_eq in E.
    unfold ymd2ord, days_before_month, days_in_month.
    cbn [days_before_month_table days_in_month_table].
    assert (Hy : exists c b, 0 <= c <= 24 /\ 0 <= b <= 3
                /\ n400 * 400 + 1 + n100 * 100 + n4 * 4 + n1 - 1
                   = 400 * n400 + 100 * b + 4 * c + 3 + 1
                /\ n = 146097 * n400 + 36524 * b + 1461 * c + 365 * 3 + 366
                /\ (c = 24 -> b = 3)).
    { destruct (Z.eq_dec n100 4) as [E100|E100].
      - exists 24, 3. lia.
      - exists n4, n100. lia. }
    destruct Hy as (c & b & Hc & Hb & -> & -> & Hcb).
    rewrite is_leap_digits, days_before_year_digits by lia.
    replace (3 =? 3) with true by reflexivity.
    replace (negb (c =? 24) || (b =? 3)) with true.
    2:{ symmetry. destruct (Z.eqb_spec c 24) as [Ec|Ec]; [|reflexivity].
        rewrite (Hcb Ec). reflexivity. }
    cbn. lia.
  - apply orb_false_iff in E. rewrite !Z.eqb_neq in E.
    assert (Hn1 : 0 <= n1 <= 3) by lia. assert (Hn100 : 0 <= n100 <= 3) by lia.
    assert (Hn4 : 0 <= n4 <= 24) by lia.
    replace (n400 * 400 + 1 + n100 * 100 + n4 * 4 + n1)
      with (400 * n400 + 100 * n100 + 4 * n4 + n1 + 1) by lia.
    set (y := 400 * n400 + 100 * n100 + 4 * n4 + n1 + 1).
    pose proof (is_leap_digits n400 n100 n4 n1 Hn1 Hn4 Hn100) as Hleap. fold y in Hleap.
    pose proof (days_before_year_digits n400 n100 n4 n1 Hn1 Hn4 Hn100) as Hdby. fold y in Hdby.
    rewrite <- Hleap. clear Hleap.
    rewrite Z.shiftr_div_pow2 by lia. change (2 ^ 5) with 32.
    assert (Hn' : n = days_before_year y + r1 + 1) by lia.
    assert (Hr1 : 0 <= r1 <= 364) by lia.
    set (m0 := (r1 + 50) / 32).
    assert (Hm0 : 32 * m0 <= r1 + 50 < 32 * m0 + 32).
    { subst m0. pose proof (Z.div_mod (r1 + 50) 32 ltac:(lia)).
      pose proof (Z.mod_pos_bound (r1 + 50) 32 ltac:(lia)). lia. }
    clearbody m0.
    assert (Hcases : In m0 [1; 2; 3; 4; 5; 6; 7; 8; 9; 10; 11; 12]) by (cbn; lia).
    set (leap := is_leap y) in *. set (dby := days_before_year y) in *.
    clear - Hn' Hr1 Hm0 Hcases.
    match goal with
    | |- context [if ?c then (_, _, _) else _] =>
        destruct c eqn:Ec; [apply Z.ltb_lt in Ec | apply Z.ltb_ge in Ec]
    end;
      cbv beta iota zeta; unfold ymd2ord, days_before_month, days_in_month;
      fold leap dby; clearbody leap dby y;
      destruct leap;
      repeat (destruct Hcases as [H|Hcases]; [subst m0; simpl in *; lia|]);
      destruct Hcases.
Qed.

Lemma days_in_year (y : Z) :
  days_before_year (y + 1) = days_before_year y + (if is_leap y then 366 else 365).
Proof.
  unfold days_before_year, is_leap.
  repeat match goal with
         | |- context [?x =? ?y] => destruct (Z.eqb_spec x y)
         end; cbn [andb orb negb];
    Z.to_euclidean_division_equations; lia.
Qed.

(** A date of the calendar lies within its year. *)
Lemma ymd2ord_in_year (y m d : Z) :
  1 <= m <= 12 -> 1 <= d <= days_in_month y m ->
  days_before_year y < ymd2ord y m d <= days_before_year (y + 1).
Proof.
  intros Hm Hd. rewrite days_in_year. unfold ymd2ord, days_before_month, days_in_month in *.
  assert (Hcases : In m [1; 2; 3; 4; 5; 6; 7; 8; 9; 10; 11; 12]) by (cbn; lia).
  destruct (is_leap y);
    repeat (destruct Hcases as [H|Hcases]; [subst m; simpl in *; lia|]);
    destruct Hcases.
Qed.

(** The Monday of ISO week 1 is within three days of January 1st. *)
Lemma isoweek1monday_spec (y : Z) :
  let w := isoweek1monday y in
  days_before_year y - 2 <= w <= days_before_year y + 4 /\ w mod 7 = 1.
Proof.
  cbv zeta. unfold isoweek1monday.
  set (f := ymd2ord y 1 1).
  assert (Hf : f = days_before_year y + 1).
  { subst f. unfold ymd2ord, days_before_month. cbn [days_before_month_table].
    replace ((2 <? 1) && is_leap y) with false by reflexivity. lia. }
  clearbody f.
  destruct (3 <? (f + 6) mod 7) eqn:E;
    [apply Z.ltb_lt in E | apply Z.ltb_ge in E];
    Z.to_euclidean_division_equations; lia.
Qed.

(** The ISO week of a date of the calendar is between 1 and 53, and its
    weekday between 1 and 7. *)
Lemma isocalendar_range (dt : datetime) :
  1 <= month dt <= 12 -> 1 <= day dt <= days_in_month (year dt) (month dt) ->
  let '(iy, w, wd) := isocalendar dt in
  1 <= w <= 53 /\ 1 <= wd <= 7 /\ year dt - 1 <= iy <= year dt + 1.
Proof.
  intros Hm Hd. unfold isocalendar.
  pose proof (ymd2ord_in_year _ _ _ Hm Hd) as Hn.
  set (n := ymd2ord (year dt) (month dt) (day dt)) in *. clearbody n.
  set (y := year dt) in *. clearbody y.
  pose proof (isoweek1monday_spec y) as H0.
  pose proof (isoweek1monday_spec (y - 1)) as Hp.
  pose proof (isoweek1monday_spec (y + 1)) as Hs.
  pose proof (days_in_year y) as Hy. pose proof (days_in_year (y - 1)) as Hy'.
  replace (y - 1 + 1) with y in Hy' by lia.
  cbv zeta in H0, Hp, Hs.
  set (w0 := isoweek1monday y) in *. set (wp := isoweek1monday (y - 1)) in *.
  set (ws := isoweek1monday (y + 1)) in *.
  set (d0 := days_before_year y) in *. set (dp := days_before_year (y - 1)) in *.
  set (ds := days_before_year (y + 1)) in *.
  clearbody w0 wp ws d0 dp ds.
  assert (Hl : 365 <= d0 - dp <= 366) by (destruct (is_leap (y - 1)); lia).
  assert (Hl' : 365 <= ds - d0 <= 366) by (destruct (is_leap y); lia).
  clear Hy Hy'.
  destruct ((n - w0) / 7 <? 0) eqn:E1; [apply Z.ltb_lt in E1 | apply Z.ltb_ge in E1].
  - Z.to_euclidean_division_equations; lia.
  - destruct ((52 <=? (n - w0) / 7) && (ws <=? n)) eqn:E2.
    + apply andb_true_iff in E2 as [E2 E3]. apply Z.leb_le in E2, E3.
      Z.to_euclidean_division_equations; lia.
    + apply andb_false_iff in E2.
      destruct E2 as [E2|E2]; [apply Z.leb_gt in E2 | apply Z.leb_gt in E2];
        Z.to_euclidean_division_equations; lia.
Qed.

(** The ISO week counts Thursdays: the Thursday of the date's Monday-first
    week lies in the ISO year, and the ISO week is its rank among the
    Thursdays of that year. *)
Lemma isocalendar_thursday (dt : datetime) :
  1 <= month dt <= 12 -> 1 <= day dt <= days_in_month (year dt) (month dt) ->
  let n := ymd2ord (year dt) (month dt) (day dt) in
  let thursday := n - (n + 6) mod 7 + 3 in
  let '(iy, w, wd) := isocalendar dt in
  wd = (n + 6) mod 7 + 1
  /\ days_before_year iy < thursday <= days_before_year (iy + 1)
  /\ w = (thursday - days_before_year iy - 1) / 7 + 1.
Proof.
  intros Hm Hd. cbv zeta. unfold isocalendar.
  pose proof (ymd2ord_in_year _ _ _ Hm Hd) as Hn.
  set (n := ymd2ord (year dt) (month dt) (day dt)) in *. clearbody n.
  set (y := year dt) in *. clearbody y.
  pose proof (days_in_year y) as Hy. pose proof (days_in_year (y - 1)) as Hy'.
  pose proof (days_in_year (y + 1)) as Hy''.
  replace (y - 1 + 1) with y in Hy' by lia.
  assert (Hl : 365 <= days_before_year y - days_before_year (y - 1) <= 366)
    by (destruct (is_leap (y - 1)); lia).
  assert (Hl' : 365 <= days_before_year (y + 1) - days_before_year y <= 366)
    by (destruct (is_leap y); lia).
  assert (Hl'' : 365 <= days_before_year (y + 1 + 1) - days_before_year (y + 1) <= 366)
    by (destruct (is_leap (y + 1)); lia).
  clear Hy Hy' Hy''.
  assert (Hw : forall z, isoweek1monday z
                 = days_before_year z + 1 - (days_before_year z + 7) mod 7
                   + (if 3 <? (days_before_year z + 7) mod 7 then 7 else 0)).
  { intros z. unfold isoweek1monday, ymd2ord, days_before_month.
    cbn [days_before_month_table]. replace ((2 <? 1) && is_leap z) with false by reflexivity.
    replace (days_before_year z + (0 + 0) + 1 + 6) with (days_before_year z + 7) by lia.
    destruct (3 <? (days_before_year z + 7) mod 7); lia. }
  destruct (_ <? 0) eqn:E1; [|destruct (_ && _) eqn:E2]; cbv beta iota zeta;
    rewrite ?Hw in *; clear Hw;
    replace (y - 1 + 1) with y in * by lia;
    set (d0 := days_before_year y) in *; set (dp := days_before_year (y - 1)) in *;
    set (ds := days_before_year (y + 1)) in *;
    set (dss := days_before_year (y + 1 + 1)) in *;
    clearbody d0 dp ds dss;
    try (apply Z.ltb_lt in E1); try (apply Z.ltb_ge in E1);
    try (apply andb_true_iff in E2 as [E2 E3]; apply Z.leb_le in E2, E3);
    try (apply andb_false_iff in E2; destruct E2 as [E2|E2]; apply Z.leb_gt in E2);
    repeat match goal with
           | H : context [if _ then _ else _] |- _ => revert H
           end;
    repeat match goal with
           | |- context [if 3 <? ?x then _ else _] =>
               let F := fresh "F" in
               destruct (3 <? x) eqn:F; [apply Z.ltb_lt in F | apply Z.ltb_ge in F]
           end;
    intros;
    Z.to_euclidean_division_equations; lia.
Qed.

Lemma truncate_fraction (d : Q) :
  (- (1) < d - inject_Z (truncate d))%Q /\ (d - inject_Z (truncate d) < 1)%Q.
Proof.
  unfold truncate.
  pose proof (Qfloor_le d). pose proof (Qlt_floor d).
  pose proof (Qle_ceiling d). pose proof (Qceiling_lt d).
  rewrite inject_Z_plus in H0. unfold Z.sub in H2. rewrite inject_Z_plus, inject_Z_opp in H2.
  change (inject_Z 1) with 1%Q in *.
  destruct (Qle_bool 0 d); split; lra.
Qed.

Lemma split_timestamp_microsecond (d : Q) :
  0 <= snd (split_timestamp d) <= 999999.
Proof.
  unfold split_timestamp.
  destruct (truncate_fraction d) as [Hlo Hhi].
  set (floatpart := (d - inject_Z (truncate d))%Q) in *. clearbody floatpart.
  destruct (round64_bounds (floatpart * inject_Z 1000000) (-1000000) 1000000)
    as (r & -> & Hrl & Hrh).
  - reflexivity.
  - reflexivity.
  - change (inject_Z (-1000000)) with (- (1) * inject_Z 1000000)%Q.
    apply Qmult_le_compat_r; [lra | discriminate].
  - rewrite <- (Qmult_1_l (inject_Z 1000000)) at 2.
    apply Qmult_le_compat_r; [lra | discriminate].
  - apply round_half_even_ge in Hrl. apply round_half_even_le in Hrh.
    destruct (1000000 <=? round_half_even r) eqn:E1; cbn [snd].
    + apply Z.leb_le in E1. lia.
    + apply Z.leb_gt in E1.
      destruct (round_half_even r <? 0) eqn:E2; cbn [snd];
        [apply Z.ltb_lt in E2 | apply Z.ltb_ge in E2]; lia.
Qed.

(** What [fromtimestamp] returns is a date and time of the calendar, and
    it denotes the second and the microsecond the timestamp was split in. *)
Lemma fromtimestamp_well_formed (x : float) (dt : datetime) :
  fromtimestamp x = inr dt ->
  exists d, x = Finite d /\ well_formed dt
            /\ seconds_of dt = fst (split_timestamp d)
            /\ microsecond dt = snd (split_timestamp d).
Proof.
  destruct x as [d|b|]; try discriminate. intros H. exists d. split; [reflexivity|].
  unfold fromtimestamp in H.
  pose proof (split_timestamp_microsecond d) as Hus.
  destruct (split_timestamp d) as [sec us]. cbn [fst snd] in *.
  destruct (_ || _) in H; [discriminate|].
  pose proof (ord2ymd_ymd2ord (sec / 86400 + EPOCH_ORD)) as Hord.
  destruct (ord2ymd _) as [[y m] dd].
  destruct (_ || _) in H; [discriminate|].
  destruct ((y <? 1) || (9999 <? y)) eqn:E in H; [discriminate|].
  apply orb_false_iff in E as [E1 E2]. apply Z.ltb_ge in E1, E2.
  injection H as <-. unfold well_formed, seconds_of. cbn [year month day hour minute second microsecond].
  destruct Hord as (Hn & Hm & Hd). rewrite Hn.
  pose proof (Z.div_mod sec 86400 ltac:(lia)).
  pose proof (Z.mod_pos_bound sec 86400 ltac:(lia)).
  set (rem := sec mod 86400) in *. set (days := sec / 86400) in *. clearbody rem days.
  repeat split; try lia; Z.to_euclidean_division_equations; lia.
Qed.

End CalendarFacts.

(** ** Rounding to binary64, near the timestamps of this century *)
Module RoundingFacts.
Import Py Run Spec Datetime FloatFacts.

Lemma floor_log2_upper (q : Q) (k : Z) :
  0 <= k -> (0 < q)%Q -> (q < inject_Z (2 ^ k))%Q -> floor_log2 q <= k - 1.
Proof.
  intros Hk Hq HR. unfold floor_log2.
  destruct q as [n d]. cbn [Qnum Qden].
  assert (Hn : 0 < n) by (unfold Qlt in Hq; simpl in Hq; lia).
  assert (Hlt : n < 2 ^ k * Zpos d) by (unfold Qlt in HR; simpl in HR; lia).
  assert (Hd : Zpos d < 2 ^ (Z.log2 (Zpos d) + 1)).
  { pose proof (Z.log2_spec (Zpos d) ltac:(lia)).
    replace (Z.log2 (Z.pos d) + 1) with (Z.succ (Z.log2 (Z.pos d))) by lia. lia. }
  pose proof (Z.log2_nonneg (Zpos d)) as Hb.
  assert (Hlog : Z.log2 n < k + (Z.log2 (Zpos d) + 1)).
  { apply Z.log2_lt_pow2; [lia|]. rewrite Z.pow_add_r by lia.
    assert (0 < 2 ^ k) by (apply Z.pow_pos_nonneg; lia). nia. }
  destruct (Qle_bool (pow2 (Z.log2 n - Z.log2 (Z.pos d))) (n # d)) eqn:E; [|lia].
  destruct (Z.eq_dec (Z.log2 n - Z.log2 (Z.pos d)) k) as [Ek|]; [|lia].
  exfalso. rewrite Ek in E. apply Qle_bool_iff in E.
  unfold pow2 in E. replace (0 <=? k) with true in E by (symmetry; apply Z.leb_le; lia).
  lra.
Qed.

Lemma round_half_even_near (x : Q) :
  (inject_Z (round_half_even x) - x <= 1 # 2)%Q
  /\ (x - inject_Z (round_half_even x) <= 1 # 2)%Q.
Proof.
  unfold round_half_even.
  pose proof (Qfloor_le x). pose proof (Qlt_floor x).
  rewrite inject_Z_plus in H0. change (inject_Z 1) with 1%Q in H0.
  destruct (Qcompare (x - inject_Z (Qfloor x)) (1 # 2)) eqn:E.
  - apply Qeq_alt in E. destruct (Z.even (Qfloor x));
      rewrite ?inject_Z_plus; change (inject_Z 1) with 1%Q; split; lra.
  - apply Qlt_alt in E. split; lra.
  - apply Qgt_alt in E. rewrite inject_Z_plus. change (inject_Z 1) with 1%Q. split; lra.
Qed.

Lemma round_half_even_unique (x : Q) (n : Z) :
  (inject_Z n - (1 # 2) < x)%Q -> (x < inject_Z n + (1 # 2))%Q ->
  round_half_even x = n.
Proof.
  intros Hlo Hhi. destruct (round_half_even_near x) as [H1 H2].
  assert (Ha : (inject_Z (round_half_even x) < inject_Z (n + 1))%Q)
    by (rewrite inject_Z_plus; change (inject_Z 1) with 1%Q; lra).
  assert (Hb : (inject_Z (n - 1) < inject_Z (round_half_even x))%Q).
  { unfold Z.sub. rewrite inject_Z_plus, inject_Z_opp. change (inject_Z 1) with 1%Q. lra. }
  rewrite <- Zlt_Qlt in Ha, Hb. lia.
Qed.

(** Rounding a positive number below 2^k to binary64 moves it by at most
    2^(k-54). *)
Lemma round64_error (q : Q) (k : Z) :
  0 <= k <= 52 -> (0 <= q)%Q -> (q < inject_Z (2 ^ k))%Q ->
  exists r, round64 q = Finite r
            /\ ((r - q) * inject_Z (2 ^ (54 - k)) <= 1)%Q
            /\ ((q - r) * inject_Z (2 ^ (54 - k)) <= 1)%Q.
Proof.
  intros Hk Hq0 Hqk. unfold round64.
  destruct (Qcompare q 0) eqn:E.
  - apply Qeq_alt in E. exists 0%Q. split; [reflexivity|].
    assert (0 < inject_Z (2 ^ (54 - k)))%Q
      by (change 0%Q with (inject_Z 0); rewrite <- Zlt_Qlt; apply Z.pow_pos_nonneg; lia).
    split; nra.
  - apply Qlt_alt in E. lra.
  - apply Qgt_alt in E.
    assert (H2k : 2 ^ k < 2 ^ 53) by (apply Z.pow_lt_mono_r; lia).
    destruct (round64_pos_le q 0 (2 ^ k)) as (r & Hr & _);
      [lra | change (inject_Z 0) with 0%Q; lra | lra | lia |].
    rewrite Hr. exists r. split; [reflexivity|].
    unfold round64_pos in Hr.
    pose proof (floor_log2_upper q k ltac:(lia) E Hqk) as He.
    set (p := Z.max (floor_log2 q - 52) (-1074)) in *.
    assert (Hp : p <= k - 53) by lia. clearbody p.
    destruct (Qle_bool _ _) in Hr; [discriminate|]. injection Hr as <-.
    rewrite Qred_correct.
    pose proof (pow2_pos p) as Hpp. pose proof (pow2_nonpos p ltac:(lia)) as Hinv.
    assert (HK : 2 ^ (53 - k) <= 2 ^ (- p)) by (apply Z.pow_le_mono_r; lia).
    assert (H54 : 2 ^ (54 - k) = 2 * 2 ^ (53 - k)).
    { replace (54 - k) with (Z.succ (53 - k)) by lia. rewrite Z.pow_succ_r by lia. lia. }
    assert (Hpos : 0 < 2 ^ (53 - k)) by (apply Z.pow_pos_nonneg; lia).
    rewrite H54, inject_Z_mult.
    set (K := 2 ^ (- p)) in *. set (J := 2 ^ (53 - k)) in *. clearbody K J.
    assert (HJ : (0 < inject_Z J)%Q) by (change 0%Q with (inject_Z 0); now rewrite <- Zlt_Qlt).
    assert (HJK : (inject_Z J <= inject_Z K)%Q) by (now rewrite <- Zle_Qle).
    assert (Hx : (q / pow2 p == q * inject_Z K)%Q).
    { apply (Qmult_inj_r _ _ (pow2 p)); [lra|].
      rewrite <- (Qmult_assoc q), (Qmult_comm (inject_Z K)), Hinv. field. lra. }
    destruct (round_half_even_near (q / pow2 p)) as [H1 H2].
    set (m := inject_Z (round_half_even (q / pow2 p))) in *. clearbody m.
    rewrite Hx in H1, H2. set (P := pow2 p) in *. clearbody P.
    set (KQ := inject_Z K) in *. set (JQ := inject_Z J) in *. clearbody KQ JQ.
    change (inject_Z 2) with 2%Q.
    assert (Hm : (m * P - q == (m - q * KQ) * P)%Q).
    { transitivity (m * P - q * (P * KQ))%Q; [rewrite Hinv; ring | ring]. }
    assert (HPJ : (0 <= P * JQ)%Q /\ (P * JQ <= 1)%Q).
    { split; [apply Qmult_le_0_compat; lra|].
      rewrite <- Hinv. apply Qmult_le_l; lra. }
    destruct HPJ as [Hu0 Hu1]. set (u := (P * JQ)%Q) in *.
    split.
    + assert (G : ((m * P - q) * (2 * JQ) == 2 * (m - q * KQ) * u)%Q)
        by (rewrite Hm; unfold u; ring).
      rewrite G. clearbody u.
      destruct (Qlt_le_dec (m - q * KQ) 0); nra.
    + assert (G : ((q - m * P) * (2 * JQ) == 2 * (q * KQ - m) * u)%Q).
      { transitivity (- (m * P - q) * (2 * JQ))%Q; [ring|]. rewrite Hm. unfold u. ring. }
      rewrite G. clearbody u.
      destruct (Qlt_le_dec (q * KQ - m) 0); nra.
Qed.

Lemma Qfloor_unique (x : Q) (n : Z) :
  (inject_Z n <= x)%Q -> (x < inject_Z (n + 1))%Q -> Qfloor x = n.
Proof.
  intros Hlo Hhi. pose proof (Qfloor_le x) as H1. pose proof (Qlt_floor x) as H2.
  assert (Ha : (inject_Z n < inject_Z (Qfloor x + 1))%Q) by lra.
  assert (Hb : (inject_Z (Qfloor x) < inject_Z (n + 1))%Q) by lra.
  rewrite <- Zlt_Qlt in Ha, Hb. lia.
Qed.

(** A binary64 number within 2^-21 of [n + f/10^6] seconds is split into
    exactly [n] seconds and [f] microseconds. *)
Lemma split_timestamp_exact (n f : Z) (r : Q) :
  0 <= n -> 0 <= f < 1000000 ->
  (inject_Z n <= r)%Q ->
  ((r - (inject_Z n + inject_Z f / 1000000)) * 2097152 <= 1)%Q ->
  (((inject_Z n + inject_Z f / 1000000) - r) * 2097152 <= 1)%Q ->
  split_timestamp r = (n, f).
Proof.
  intros Hn Hf Hlo Hup Hdown. unfold split_timestamp.
  assert (Hf0 : (0 <= inject_Z f)%Q) by (change 0%Q with (inject_Z 0); rewrite <- Zle_Qle; lia).
  assert (Hf1 : (inject_Z f <= 999999)%Q) by (change 999999%Q with (inject_Z 999999); rewrite <- Zle_Qle; lia).
  assert (Hn0 : (0 <= inject_Z n)%Q) by (change 0%Q with (inject_Z 0); rewrite <- Zle_Qle; lia).
  set (nq := inject_Z n) in *. set (fq := inject_Z f) in *.
  assert (Hdiv : (fq / 1000000 == fq * (1 # 1000000))%Q) by (field).
  rewrite Hdiv in Hup, Hdown.
  assert (Htr : truncate r = n).
  { unfold truncate. replace (Qle_bool 0 r) with true
      by (symmetry; apply Qle_bool_iff; lra).
    apply Qfloor_unique; [exact Hlo|]. rewrite inject_Z_plus. fold nq.
    change (inject_Z 1) with 1%Q. lra. }
  rewrite Htr. fold nq.
  set (y := ((r - nq) * inject_Z 1000000)%Q).
  assert (Hy : (y == (r - nq) * 1000000)%Q) by reflexivity.
  assert (Hy0 : (0 <= y)%Q) by (rewrite Hy; lra).
  assert (Hy1 : (y - fq <= 48 # 100)%Q) by (rewrite Hy; lra).
  assert (Hy2 : (fq - y <= 48 # 100)%Q) by (rewrite Hy; lra).
  clearbody y.
  destruct (round64_error y 20) as (s & -> & Hs1 & Hs2); [lia | exact Hy0 | |].
  { change (inject_Z (2 ^ 20)) with 1048576%Q. lra. }
  change (inject_Z (2 ^ (54 - 20))) with 17179869184%Q in Hs1, Hs2.
  assert (Hr : round_half_even s = f).
  { apply round_half_even_unique; fold fq; lra. }
  rewrite Hr.
  replace (1000000 <=? f) with false by (symmetry; apply Z.leb_gt; lia).
  replace (f <? 0) with false by (symmetry; apply Z.ltb_ge; lia).
  reflexivity.
Qed.

End RoundingFacts.

(** ** [ts_to_datetime] and [get_iso_week] *)
Module DatetimeProofs.
Import Py Run Spec Datetime StringFacts RunFacts FloatFacts LiteralFacts PermalinkFacts.
Import CalendarFacts RoundingFacts.

Lemma ts_to_datetime_well_formed (s : string) (dt : datetime) :
  FocMdFormatter.ts_to_datetime s = inr dt ->
  well_formed dt /\ 1 <= FocMdFormatter.get_iso_week dt <= 53.
Proof.
  unfold FocMdFormatter.ts_to_datetime. destruct (float_of_str s) as [x|]; [|discriminate].
  intros H. destruct (fromtimestamp_well_formed x dt H) as (d & _ & Hwf & _).
  split; [exact Hwf|].
  destruct Hwf as (_ & Hm & Hd & _).
  pose proof (isocalendar_range dt Hm Hd) as Hiso.
  unfold FocMdFormatter.get_iso_week. destruct (isocalendar dt) as [[iy w] wd]. tauto.
Qed.

(** X1. Whenever [ts_to_datetime] returns, the datetime is a date and time
    of the calendar: a year in 1..9999, a month in 1..12, a day of that
    month, an hour in 0..23, minutes and seconds in 0..59 and microseconds
    in 0..999999; and [get_iso_week] of it is between 1 and 53. *)
Theorem parsed_datetime_is_of_the_calendar (ts : string) (dt : datetime) :
  FocMdFormatter.ts_to_datetime ts = inr dt ->
  well_formed dt /\ 1 <= FocMdFormatter.get_iso_week dt <= 53.
Proof. apply ts_to_datetime_well_formed. Qed.

Lemma parsed_datetime_is_of_the_calendar_witness :
  well_formed {| year := 2024; month := 2; day := 1;
                 hour := 12; minute := 3; second := 32; microsecond := 123456 |}
  /\ 1 <= FocMdFormatter.get_iso_week
            {| year := 2024; month := 2; day := 1;
               hour := 12; minute := 3; second := 32; microsecond := 123456 |} <= 53.
Proof.
  apply (parsed_datetime_is_of_the_calendar "1706789012.123456").
  vm_compute. reflexivity.
Defined.

(** X2. [get_iso_week] is the ISO-8601 week: for a date of the calendar,
    take the Thursday of its Monday-to-Sunday week; that Thursday lies in a
    calendar year within one of the date's, the ISO year, and the week
    number is the rank of that Thursday among the Thursdays of the ISO
    year.  Days are counted as ordinals, day 1 being Monday 0001-01-01. *)
Theorem iso_week_of_thursday (dt : datetime) :
  well_formed dt ->
  let n := ymd2ord (year dt) (month dt) (day dt) in
  let thursday := n - (n + 6) mod 7 + 3 in
  exists iso_year,
    year dt - 1 <= iso_year <= year dt + 1
    /\ days_before_year iso_year < thursday <= days_before_year (iso_year + 1)
    /\ FocMdFormatter.get_iso_week dt = (thursday - days_before_year iso_year - 1) / 7 + 1.
Proof.
  intros (_ & Hm & Hd & _). cbv zeta.
  pose proof (isocalendar_range dt Hm Hd) as Hr.
  pose proof (isocalendar_thursday dt Hm Hd) as Ht. cbv zeta in Ht.
  unfold FocMdFormatter.get_iso_week.
  destruct (isocalendar dt) as [[iy w] wd]. exists iy. tauto.
Qed.

Lemma iso_week_of_thursday_witness :
  exists iso_year,
    2020 <= iso_year <= 2022
    /\ days_before_year iso_year < 737790 <= days_before_year (iso_year + 1)
    /\ FocMdFormatter.get_iso_week
         {| year := 2021; month := 1; day := 1;
            hour := 0; minute := 0; second := 0; microsecond := 0 |}
       = (737790 - days_before_year iso_year - 1) / 7 + 1.
Proof.
  apply (iso_week_of_thursday
           {| year := 2021; month := 1; day := 1;
              hour := 0; minute := 0; second := 0; microsecond := 0 |}).
  unfold well_formed. vm_compute. intuition discriminate.
Defined.

(** X3. A timestamp of whole seconds with at most six decimals, the form
    Slack gives, is converted without drift up to 8589934590 seconds (the
    year 2242): [ts_to_datetime] succeeds, its datetime is of the calendar,
    it names the second that is the integral part of the text, and its
    microsecond is the fraction of the text read as millionths.  The
    passage through a binary64 float loses nothing there. *)
Lemma ts_to_datetime_exact (ip : string) (frac : option string) :
  all_digits ip -> ip <> "" ->
  match frac with Some fp => all_digits fp /\ (String.length fp <= 6)%nat | None => True end ->
  digits_value 0 ip <= 8589934590 ->
  let fp := match frac with Some fp => fp | None => "" end in
  exists dt,
    FocMdFormatter.ts_to_datetime (decimal ip frac) = inr dt
    /\ well_formed dt
    /\ seconds_of dt = digits_value 0 ip
    /\ microsecond dt = digits_value 0 fp * 10 ^ (6 - Z.of_nat (String.length fp)).
Proof.
  intros Hip Hne Hfrac Hb fp.
  assert (Hfp : all_digits fp /\ (String.length fp <= 6)%nat).
  { subst fp. destruct frac; [assumption | split; [constructor | simpl; lia]]. }
  destruct Hfp as [Hfp Hlen].
  assert (Hfrac' : match frac with Some fp => all_digits fp | None => True end)
    by (destruct frac; tauto).
  unfold FocMdFormatter.ts_to_datetime.
  pose proof (float_of_decimal false ip frac Hip Hne Hfrac') as Hfloat.
  cbv beta iota zeta in Hfloat.
  change ("" +:+ decimal ip frac) with (decimal ip frac) in Hfloat.
  fold fp in Hfloat. rewrite Hfloat. clear Hfloat.
  destruct (decimal_value_bounds ip fp Hip Hfp) as [Hlo Hhi].
  destruct (digits_value_acc 0 ip Hip) as [_ [Hn0 _]].
  pose proof (digits_value_app 0 ip fp) as Happ.
  destruct (digits_value_acc (digits_value 0 ip) fp Hfp) as [Hacc [HF0 HF1]].
  rewrite Hacc in Happ. clear Hacc.
  set (k := Z.of_nat (String.length fp)) in *.
  assert (Hk : 0 <= k <= 6) by lia. clearbody k.
  set (n := digits_value 0 ip) in *. set (F := digits_value 0 fp) in *.
  set (q := (inject_Z (digits_value 0 (ip +:+ fp)) * pow10 (0 - k))%Q) in *.
  assert (Hq : (q == inject_Z n + inject_Z (F * 10 ^ (6 - k)) / 1000000)%Q).
  { subst q. rewrite Happ.
    pose proof (pow10_nonpos (0 - k) ltac:(lia)) as Hinv.
    replace (- (0 - k)) with k in Hinv by lia.
    assert (H6 : 10 ^ k * 10 ^ (6 - k) = 1000000).
    { rewrite <- Z.pow_add_r by lia. replace (k + (6 - k)) with 6 by lia. reflexivity. }
    assert (Hpa : 0 < 10 ^ k) by (apply Z.pow_pos_nonneg; lia).
    assert (Hpb : 0 < 10 ^ (6 - k)) by (apply Z.pow_pos_nonneg; lia).
    rewrite !inject_Z_plus, !inject_Z_mult.
    assert (HAB : (inject_Z (10 ^ k) * inject_Z (10 ^ (6 - k)) == 1000000)%Q).
    { rewrite <- inject_Z_mult, H6. reflexivity. }
    assert (HA : (0 < inject_Z (10 ^ k))%Q) by (change 0%Q with (inject_Z 0); now rewrite <- Zlt_Qlt).
    assert (HB : (0 < inject_Z (10 ^ (6 - k)))%Q) by (change 0%Q with (inject_Z 0); now rewrite <- Zlt_Qlt).
    set (A := inject_Z (10 ^ k)) in *. set (B := inject_Z (10 ^ (6 - k))) in *.
    set (P := pow10 (0 - k)) in *. clearbody A B P.
    apply (Qmult_inj_r _ _ A); [lra|].
    transitivity ((inject_Z n * A + inject_Z F) * (P * A))%Q; [ring|].
    rewrite Hinv, <- HAB. field. lra. }
  clearbody q. clear Happ.
  assert (H53 : 2 ^ 53 = 9007199254740992) by reflexivity.
  destruct (round64_bounds q n (n + 1)) as (r & Hr & Hrl & Hrh); [lia | lia | lra | lra |].
  destruct (round64_error q 33) as (r' & Hr' & He1 & He2); [lia | | |].
  { assert (0 <= inject_Z n)%Q by (change 0%Q with (inject_Z 0); now rewrite <- Zle_Qle). lra. }
  { assert (inject_Z (n + 1) < inject_Z (2 ^ 33))%Q by (rewrite <- Zlt_Qlt; change (2 ^ 33) with 8589934592; lia).
    lra. }
  rewrite Hr in Hr'. injection Hr' as <-. rewrite Hr.
  change (inject_Z (2 ^ (54 - 33))) with 2097152%Q in He1, He2.
  rewrite Hq in He1, He2.
  assert (Hf : 0 <= F * 10 ^ (6 - k) < 1000000).
  { assert (H6 : 10 ^ k * 10 ^ (6 - k) = 1000000).
    { rewrite <- Z.pow_add_r by lia. replace (k + (6 - k)) with 6 by lia. reflexivity. }
    assert (0 < 10 ^ (6 - k)) by (apply Z.pow_pos_nonneg; lia). nia. }
  pose proof (split_timestamp_exact n _ r Hn0 Hf Hrl He1 He2) as Hsplit.
  destruct (fromtimestamp_in_range r) as (dt & Hdt & _).
  { assert (inject_Z (-62135596800) <= inject_Z n)%Q by (rewrite <- Zle_Qle; lia). lra. }
  { assert (inject_Z (n + 1) <= inject_Z 253402300799)%Q by (rewrite <- Zle_Qle; lia). lra. }
  exists dt. split; [exact Hdt|].
  destruct (fromtimestamp_well_formed _ _ Hdt) as (d & Hd & Hwf & Hsec & Hus).
  injection Hd as <-. rewrite Hsplit in Hsec, Hus. auto.
Qed.

Lemma ts_to_datetime_exact_witness :
  exists dt,
    FocMdFormatter.ts_to_datetime "1706789012.123456" = inr dt
    /\ well_formed dt
    /\ seconds_of dt = 1706789012
    /\ microsecond dt = 123456.
Proof.
  destruct (ts_to_datetime_exact "1706789012" (Some "123456")) as (dt & Hdt & Hwf & Hs & Hus).
  - repeat constructor.
  - discriminate.
  - split; [repeat constructor | vm_compute; lia].
  - vm_compute. discriminate.
  - exists dt. split; [exact Hdt|]. split; [exact Hwf|]. split; [exact Hs | exact Hus].
Defined.

End DatetimeProofs.

(** ** The archive permalink: its shape and its failures *)
Module PermalinkShapeProofs.
Import Py Run Spec Datetime StringFacts RunFacts FloatFacts LiteralFacts PermalinkFacts.
Import CalendarFacts DatetimeProofs.

Lemma zero_pad_month (m : Z) :
  1 <= m <= 12 ->
  In (zero_pad 2 m) ["01"; "02"; "03"; "04"; "05"; "06"; "07"; "08"; "09"; "10"; "11"; "12"].
Proof.
  intros H.
  assert (Hcases : In m [1; 2; 3; 4; 5; 6; 7; 8; 9; 10; 11; 12]) by (cbn; lia).
  repeat (destruct Hcases as [<-|Hcases]; [vm_compute; tauto|]). destruct Hcases.
Qed.

Lemma strip_blank (s : string) : blank s -> strip s = "".
Proof.
  unfold strip. intros H.
  assert (Hl : lstrip s = "").
  { induction s as [|a s IH]; [reflexivity|].
    apply Forall_cons_iff in H as [Ha Hs]. cbn [lstrip]. rewrite Ha. now apply IH. }
  now rewrite Hl.
Qed.

Lemma float_of_blank (s : string) : blank s -> float_of_str s = None.
Proof. intros H. unfold float_of_str. now rewrite (strip_blank s H). Qed.

(** A permalink request whose timestamp does not parse raises what the
    parse raised, having printed nothing, verbose or not; a timestamp that
    is absent, empty or blank does not parse. *)
Lemma archive_permalink_failure (headers body : gmap string string) (verbose : bool) :
  (forall e,
     FocMdFormatter.ts_to_datetime (get_default headers "message_ts" "") = inl e ->
     FocMdFormatter.format_permalink headers body verbose = ([], inl e))
  /\ (match headers !! "message_ts" with Some ts => blank ts | None => True end ->
      FocMdFormatter.format_permalink headers body verbose = ([], inl ValueError)).
Proof.
  assert (H : forall e,
            FocMdFormatter.ts_to_datetime (get_default headers "message_ts" "") = inl e ->
            FocMdFormatter.format_permalink headers body verbose = ([], inl e)).
  { intros e He. unfold FocMdFormatter.format_permalink. now rewrite He. }
  split; [exact H|]. intros Hts. apply H.
  apply TimestampProofs.ts_to_datetime_not_float, float_of_blank.
  unfold get_default. destruct (headers !! "message_ts"); [exact Hts | constructor].
Qed.

Lemma ts_to_datetime_errors (s : string) (e : exn) :
  FocMdFormatter.ts_to_datetime s = inl e -> e <> IndexError.
Proof.
  unfold FocMdFormatter.ts_to_datetime, fromtimestamp.
  destruct (float_of_str s) as [[d|b|]|]; try (intros [= <-]; discriminate).
  destruct (split_timestamp d) as [sec us].
  destruct (_ || _); [intros [= <-]; discriminate|].
  destruct (ord2ymd _) as [[y m] dd].
  destruct (_ || _); [intros [= <-]; discriminate|].
  destruct (_ || _); [intros [= <-]; discriminate | discriminate].
Qed.

(** X4. Every archive permalink that [format_permalink] returns has the
    fixed label and the url of the weekly page of the parsed datetime: the
    year is in 1..9999, the month segment is one of "01" to "12", the week
    segment is "W" and a number in 1..53, and the channel is
    [channel_name], "general" when the header is absent. *)
Lemma archive_permalink_shape (headers body : gmap string string) (verbose : bool) (l : link) :
  result (FocMdFormatter.format_permalink headers body verbose) = inr l ->
  exists dt millis,
    FocMdFormatter.ts_to_datetime (get_default headers "message_ts" "") = inr dt
    /\ label l = FocMdFormatter.CONVERSATION_LABEL
    /\ url l = permalink_url dt (FocMdFormatter.get_iso_week dt)
                 (get_default headers "channel_name" "general") millis
    /\ 1 <= year dt <= 9999
    /\ In (zero_pad 2 (month dt))
         ["01"; "02"; "03"; "04"; "05"; "06"; "07"; "08"; "09"; "10"; "11"; "12"]
    /\ 1 <= FocMdFormatter.get_iso_week dt <= 53.
Proof.
  intros H.
  destruct (FocMdFormatter.ts_to_datetime (get_default headers "message_ts" "")) as [e|dt] eqn:E.
  - destruct (archive_permalink_failure headers body verbose) as [Hf _].
    rewrite (Hf e E) in H. discriminate.
  - rewrite (format_permalink_result headers body verbose dt E) in H. injection H as <-.
    destruct (ts_to_datetime_well_formed _ dt E) as [(Hy & Hm & _) Hw].
    exists dt, (millis_field (get_default headers "message_ts" "")).
    repeat split; try tauto; try lia. now apply zero_pad_month.
Qed.

Lemma archive_permalink_shape_witness :
  exists dt millis,
    FocMdFormatter.ts_to_datetime "1706789012.123456" = inr dt
    /\ url {| label := FocMdFormatter.CONVERSATION_LABEL;
              url := "https://history.futureofcoding.org/history/weekly/2024/02/W5/general.html#2024-02-01T12:03:32.123Z" |}
       = permalink_url dt (FocMdFormatter.get_iso_week dt) "general" millis
    /\ 1 <= year dt <= 9999
    /\ In (zero_pad 2 (month dt))
         ["01"; "02"; "03"; "04"; "05"; "06"; "07"; "08"; "09"; "10"; "11"; "12"]
    /\ 1 <= FocMdFormatter.get_iso_week dt <= 53.
Proof.
  destruct (archive_permalink_shape {[ "message_ts" := "1706789012.123456" ]} ∅ true
              {| label := FocMdFormatter.CONVERSATION_LABEL;
                 url := "https://history.futureofcoding.org/history/weekly/2024/02/W5/general.html#2024-02-01T12:03:32.123Z" |})
    as (dt & millis & Hdt & _ & Hurl & Hy & Hm & Hw).
  - vm_compute. reflexivity.
  - exists dt, millis. split; [exact Hdt|]. split; [exact Hurl|]. split; [exact Hy|].
    split; [exact Hm | exact Hw].
Defined.

(** X5. The millisecond field of the anchor is copied from the text of the
    timestamp, not computed from the parsed time: when the timestamp is
    [pre.post] with one "." and it parses, the field is the first three
    characters of [post] as they stand, digits or not, and fewer when
    [post] is shorter.  The timestamp "1.5e3" parses to 00:25:00 and gives
    the anchor "1970-01-01T00:25:00.5e3Z". *)
Lemma archive_permalink_copies_fraction
    (headers body : gmap string string) (verbose : bool) (pre post : string) (dt : datetime) :
  headers !! "message_ts" = Some (pre +:+ "." +:+ post) ->
  str_in "." pre = false -> str_in "." post = false ->
  FocMdFormatter.ts_to_datetime (pre +:+ "." +:+ post) = inr dt ->
  result (FocMdFormatter.format_permalink headers body verbose)
  = inr {| label := FocMdFormatter.CONVERSATION_LABEL;
           url := permalink_url dt (FocMdFormatter.get_iso_week dt)
                    (get_default headers "channel_name" "general") (slice_to 3 post) |}.
Proof.
  intros Hts Hpre Hpost Hdt.
  apply (ArchivePermalinkProofs.get_default_Some _ _ _ "") in Hts.
  rewrite (format_permalink_result headers body verbose dt) by (now rewrite Hts).
  rewrite Hts, millis_field_fraction by (now apply str_in_char_false). reflexivity.
Qed.

Lemma archive_permalink_copies_fraction_witness :
  result (FocMdFormatter.format_permalink {[ "message_ts" := "1.5e3" ]} ∅ true)
  = inr {| label := FocMdFormatter.CONVERSATION_LABEL;
           url := "https://history.futureofcoding.org/history/weekly/1970/01/W1/general.html#1970-01-01T00:25:00.5e3Z" |}.
Proof.
  rewrite (archive_permalink_copies_fraction {[ "message_ts" := "1.5e3" ]} ∅ true "1" "5e3"
             {| year := 1970; month := 1; day := 1;
                hour := 0; minute := 25; second := 0; microsecond := 0 |});
    vm_compute; reflexivity.
Defined.

(** X6. For headers whose members are strings and whose [message_ts] is
    absent or of ASCII characters: when [format_permalink] of the archive
    script fails, the failure is that of parsing the timestamp.  The
    exception is the one [ts_to_datetime] raised on [message_ts], a
    ValueError, an OverflowError or an OSError, never the IndexError of a
    missing fraction; and nothing was printed to stderr before it, verbose
    or not. *)
Theorem archive_permalink_failure_origin
    (headers body : gmap string string) (verbose : bool) (e : exn) :
  ascii_text (get_default headers "message_ts" "") ->
  result (FocMdFormatter.format_permalink headers body verbose) = inl e ->
  FocMdFormatter.ts_to_datetime (get_default headers "message_ts" "") = inl e
  /\ In e [ValueError; OverflowError; OSError]
  /\ log (FocMdFormatter.format_permalink headers body verbose) = [].
Proof.
  intros _ H.
  destruct (FocMdFormatter.ts_to_datetime (get_default headers "message_ts" "")) as [e'|dt] eqn:E.
  - destruct (archive_permalink_failure headers body verbose) as [Hf _].
    rewrite (Hf e' E) in H |- *. injection H as <-. split; [reflexivity|]. split; [|reflexivity].
    pose proof (ts_to_datetime_errors _ _ E). destruct e'; cbn; tauto.
  - rewrite (format_permalink_result headers body verbose dt E) in H. discriminate.
Qed.

Lemma archive_permalink_failure_origin_witness :
  FocMdFormatter.ts_to_datetime (get_default {[ "message_ts" := "inf" ]} "message_ts" "")
  = inl OverflowError
  /\ In OverflowError [ValueError; OverflowError; OSError]
  /\ log (FocMdFormatter.format_permalink {[ "message_ts" := "inf" ]} ∅ true) = [].
Proof.
  apply (archive_permalink_failure_origin {[ "message_ts" := "inf" ]} ∅ true OverflowError).
  - reflexivity.
  - vm_compute. reflexivity.
Defined.

End PermalinkShapeProofs.

(** ** [ts_to_datetime]: the texts it takes and the instants it gives *)
Module SignedTimestampProofs.
Import Py Run Spec Datetime StringFacts RunFacts FloatFacts LiteralFacts PermalinkFacts.
Import CalendarFacts RoundingFacts DatetimeProofs PermalinkShapeProofs.




















End SignedTimestampProofs.

(** ** Files: the archive url and the labels of the two scripts *)
Module FileLinkProofs.
Import Py Run Spec StringFacts RunFacts.

Lemma slice_to_prefix (n : nat) (s : string) :
  exists rest, s = slice_to n s +:+ rest
               /\ String.length (slice_to n s) = Nat.min n (String.length s).
Proof.
  unfold slice_to. revert n. induction s as [|a s IH]; intros n.
  - exists "". destruct n; split; reflexivity.
  - destruct n as [|n].
    + exists (String a s). split; reflexivity.
    + destruct (IH n) as (rest & Hs & Hl). exists rest. cbn [substring].
      split; [rewrite append_String; now rewrite <- Hs | cbn; now rewrite Hl].
Qed.

Lemma mimetype_extension_tail (mimetype : string) :
  mimetype_extension mimetype = ""
  \/ exists tail, mimetype_extension mimetype = "." +:+ tail /\ str_in "." tail = false.
Proof.
  unfold mimetype_extension.
  repeat match goal with
         | |- context [String.eqb ?a ?b] =>
             destruct (String.eqb a b); [right; eexists; split; reflexivity|]
         end.
  now left.
Qed.

Lemma archive_format_file_result (headers body : gmap string string) (verbose : bool) :
  result (FocMdFormatter.format_file headers body verbose)
  = inr {| label := get_or body "title" (get_or body "name" "Untitled");
           url := FocMdFormatter.format_file_url (get_or body "id" "")
                    (get_or body "name" (get_or body "title" ""))
                    (get_default body "mimetype" "") |}.
Proof. unfold FocMdFormatter.format_file. now destruct verbose. Qed.

Lemma first_non_empty_default (candidates : list (option string)) (dflt : string) :
  (first_non_empty candidates "" <> "" ->
   first_non_empty candidates dflt = first_non_empty candidates "")
  /\ (first_non_empty candidates "" = "" -> first_non_empty candidates dflt = dflt).
Proof.
  induction candidates as [|[[|a s]|] rest IH]; cbn [first_non_empty]; try exact IH.
  - split; [congruence | reflexivity].
  - split; [reflexivity | discriminate].
Qed.

(** X7. For a file descriptor whose members are strings and whose [id] is
    absent or of ASCII characters, the url of the archive [format_file] is
    the files base, a shard, "/", the id and an extension, where the shard
    is the start of the id, three characters long or the whole id when that
    is shorter, and the extension is either empty or a "." followed by a
    text without a ".". *)
Theorem archive_file_url_parts (headers body : gmap string string) (verbose : bool) :
  let id := get_or body "id" "" in
  ascii_text id ->
  exists l shard rest ext,
    result (FocMdFormatter.format_file headers body verbose) = inr l
    /\ url l = FILES_URL +:+ shard +:+ "/" +:+ id +:+ ext
    /\ id = shard +:+ rest
    /\ String.length shard = Nat.min 3 (String.length id)
    /\ (ext = "" \/ exists tail, ext = "." +:+ tail /\ str_in "." tail = false).
Proof.
  intros id _. rewrite archive_format_file_result. fold id.
  destruct (FileProofs.format_file_url_spec id (get_or body "name" (get_or body "title" ""))
              (get_default body "mimetype" "")) as (ext & Hurl & Hdot & Hmime).
  destruct (slice_to_prefix 3 id) as (rest & Hid & Hlen).
  eexists _, (slice_to 3 id), rest, ext. split; [reflexivity|]. cbn [url].
  split; [exact Hurl|]. split; [exact Hid|]. split; [exact Hlen|].
  destruct (str_in "." (get_or body "name" (get_or body "title" ""))) eqn:E.
  - destruct (Hdot eq_refl) as (stem & tail & _ & Hno & ->). right. eauto.
  - rewrite (Hmime eq_refl). apply mimetype_extension_tail.
Qed.

Lemma archive_file_url_parts_witness :
  exists l shard rest ext,
    result (FocMdFormatter.format_file ∅
              {[ "id" := "F0AASCM79SN"; "name" := "backup.tar.gz" ]} false) = inr l
    /\ url l = FILES_URL +:+ shard +:+ "/" +:+ "F0AASCM79SN" +:+ ext
    /\ "F0AASCM79SN" = shard +:+ rest
    /\ String.length shard = 3%nat
    /\ (ext = "" \/ exists tail, ext = "." +:+ tail /\ str_in "." tail = false).
Proof.
  pose proof (archive_file_url_parts ∅
                {[ "id" := "F0AASCM79SN"; "name" := "backup.tar.gz" ]} false) as H.
  cbv zeta in H.
  replace (get_or {[ "id" := "F0AASCM79SN"; "name" := "backup.tar.gz" ]} "id" "")
    with "F0AASCM79SN" in H by (vm_compute; reflexivity).
  exact (H eq_refl).
Defined.

(** X8. For a file descriptor whose members are strings, the plain
    [format_file] returns as url the first non-empty of [url_private],
    [permalink] and [url], else the empty text, and as label the first
    non-empty of [title] and [name], else "Untitled file"; the label is
    never empty.  The archive script gives the same label when [title] or
    [name] is not empty, and "Untitled" against "Untitled file"
    otherwise. *)
Theorem file_fallback_chains (headers body : gmap string string) (verbose : bool) :
  exists plain_link archive_link,
    result (FormatLinks.format_file headers body verbose) = inr plain_link
    /\ result (FocMdFormatter.format_file headers body verbose) = inr archive_link
    /\ url plain_link
       = first_non_empty [body !! "url_private"; body !! "permalink"; body !! "url"] ""
    /\ label plain_link = first_non_empty [body !! "title"; body !! "name"] "Untitled file"
    /\ label plain_link <> ""
    /\ (first_non_empty [body !! "title"; body !! "name"] "" <> "" ->
        label plain_link = label archive_link)
    /\ (first_non_empty [body !! "title"; body !! "name"] "" = "" ->
        label plain_link = "Untitled file" /\ label archive_link = "Untitled").
Proof.
  rewrite archive_format_file_result.
  assert (Hp : result (FormatLinks.format_file headers body verbose)
               = inr {| label := get_or body "title" (get_or body "name" "Untitled file");
                        url := get_or body "url_private"
                                 (get_or body "permalink" (get_or body "url" "")) |})
    by (unfold FormatLinks.format_file; now destruct verbose).
  rewrite Hp. eexists _, _. split; [reflexivity|]. split; [reflexivity|]. cbn [label url].
  assert (Hl : forall d, get_or body "title" (get_or body "name" d)
                         = first_non_empty [body !! "title"; body !! "name"] d)
    by (intros d; now rewrite <- !AttachmentProofs.get_or_first_non_empty).
  assert (Hu : get_or body "url_private" (get_or body "permalink" (get_or body "url" ""))
               = first_non_empty [body !! "url_private"; body !! "permalink"; body !! "url"] "")
    by (now rewrite <- !AttachmentProofs.get_or_first_non_empty).
  rewrite !Hl, Hu. clear Hl Hu.
  destruct (first_non_empty_default [body !! "title"; body !! "name"] "Untitled file")
    as [Hf1 Hf2].
  destruct (first_non_empty_default [body !! "title"; body !! "name"] "Untitled")
    as [Hu1 Hu2].
  split; [reflexivity|]. split; [reflexivity|]. split; [|split].
  - destruct (string_dec (first_non_empty [body !! "title"; body !! "name"] "") "") as [E|E].
    + rewrite (Hf2 E). discriminate.
    + now rewrite (Hf1 E).
  - intros E. now rewrite (Hf1 E), (Hu1 E).
  - intros E. now rewrite (Hf2 E), (Hu2 E).
Qed.

End FileLinkProofs.

(** ** [main]: exit status, stdout and stderr *)
Module MainProofs.
Import Py Run Spec Datetime StringFacts RunFacts PermalinkFacts.
Import PermalinkShapeProofs.

Lemma log_fmap {A B : Type} (f : A -> B) (m : M A) : log (fmap f m) = log m.
Proof. destruct m as [w [e|a]]; [reflexivity|]. cbn. apply app_nil_r. Qed.

Lemma result_fmap {A B : Type} (f : A -> B) (m : M A) :
  result (fmap f m) = match result m with inl e => inl e | inr a => inr (f a) end.
Proof. now destruct m as [w [e|a]]. Qed.

Lemma serve_outcome dispatch (verbose : bool) (input : stdin) :
  let o := serve dispatch verbose input in
  (status o = 0 /\ exists response, stdout o = [response])
  \/ (status o = 1 /\ stdout o = []
      /\ exists front l, stderr o = (front ++ [l])%list /\ is_error_line l = true).
Proof.
  unfold serve. destruct input as [| |r].
  - right. cbn. repeat split. now exists [], (Text "Error: Empty input").
  - right. cbn. repeat split. now exists [], InvalidJsonLine.
  - destruct (dispatch _ r verbose) as [[w [e|response]]|] eqn:E.
    + right. cbn. repeat split. eexists _, (ErrorLine e). split; [|reflexivity].
      now rewrite app_assoc.
    + left. cbn. eauto.
    + right. cbn. repeat split. eexists _, (Text _). split; reflexivity.
Qed.

Lemma serve_status dispatch (verbose : bool) (r : request) :
  status (serve dispatch verbose (Decoded r)) = 0
  <-> exists m response,
        dispatch (action_of r) r verbose = Some m /\ result m = inr response.
Proof.
  unfold serve. fold (action_of r).
  destruct (dispatch (action_of r) r verbose) as [[w [e|response]]|]; cbn; split.
  - discriminate.
  - intros (m & resp & Hm & Hres). injection Hm as <-. discriminate.
  - intros _. eauto.
  - reflexivity.
  - discriminate.
  - intros (m & resp & Hm & _). discriminate.
Qed.

Lemma serve_verbosity dispatch (verbose : bool) (input : stdin) :
  (forall action r,
     option_map result (dispatch action r verbose)
     = option_map result (dispatch action r false)) ->
  stdout (serve dispatch verbose input) = stdout (serve dispatch false input)
  /\ status (serve dispatch verbose input) = status (serve dispatch false input).
Proof.
  intros H. destruct input as [| |r]; [now split | now split |].
  unfold serve. specialize (H (get_default (headers r) "action" "") r).
  destruct (dispatch _ r verbose) as [[w [e|a]]|], (dispatch _ r false) as [[w' [e'|a']]|];
    cbn in H; try discriminate; try (now split).
  injection H as <-. now split.
Qed.

Lemma serve_quiet_stderr dispatch (input : stdin) :
  (forall action r m, dispatch action r false = Some m -> log m = []) ->
  let o := serve dispatch false input in
  (status o = 0 /\ stderr o = [])
  \/ (status o = 1 /\ exists l, stderr o = [l] /\ is_error_line l = true).
Proof.
  intros Hq. destruct input as [| |r]; cbn.
  - right. split; [reflexivity|]. now eexists.
  - right. split; [reflexivity|]. now eexists.
  - pose proof (Hq (get_default (headers r) "action" "") r) as Hm.
    destruct (dispatch _ r false) as [[w [e|a]]|]; cbn.
    + right. split; [reflexivity|]. rewrite (Hm _ eq_refl : w = []). now eexists.
    + left. split; [reflexivity|]. now rewrite (Hm _ eq_refl : w = []).
    + right. split; [reflexivity|]. now eexists.
Qed.

Lemma serve_verbose_stderr dispatch (verbose : bool) (input : stdin) :
  (forall action r,
     option_map result (dispatch action r verbose)
     = option_map result (dispatch action r false)) ->
  (forall action r m, dispatch action r false = Some m -> log m = []) ->
  exists added,
    stderr (serve dispatch verbose input) = (added ++ stderr (serve dispatch false input))%list.
Proof.
  intros H Hq. destruct input as [| |r]; [now exists [] | now exists [] |].
  unfold serve. specialize (H (get_default (headers r) "action" "") r).
  pose proof (Hq (get_default (headers r) "action" "") r) as Hm.
  destruct (dispatch _ r verbose) as [[w [e|a]]|], (dispatch _ r false) as [[w' [e'|a']]|];
    cbn in H; try discriminate; cbn [stderr].
  - injection H as <-. rewrite (Hm _ eq_refl : w' = []). cbn [map app].
    eexists. now rewrite app_assoc.
  - rewrite (Hm _ eq_refl : w' = []). cbn [map app]. eexists. now rewrite app_nil_r.
  - eexists. reflexivity.
Qed.

Lemma archive_permalink_verbosity (headers body : gmap string string) (verbose : bool) :
  result (FocMdFormatter.format_permalink headers body verbose)
  = result (FocMdFormatter.format_permalink headers body false)
  /\ log (FocMdFormatter.format_permalink headers body false) = [].
Proof.
  unfold FocMdFormatter.format_permalink.
  destruct (FocMdFormatter.ts_to_datetime _) as [e|dt]; [split; reflexivity|].
  destruct (str_in "." _); [destruct (split "." _) as [|a [|b rest]]|];
    destruct verbose; split; reflexivity.
Qed.

Lemma plain_formatters_verbosity (headers body : gmap string string) (verbose : bool) :
  (result (FormatLinks.format_permalink headers body verbose)
   = result (FormatLinks.format_permalink headers body false)
   /\ log (FormatLinks.format_permalink headers body false) = [])
  /\ (result (FormatLinks.format_attachment headers body verbose)
      = result (FormatLinks.format_attachment headers body false)
      /\ log (FormatLinks.format_attachment headers body false) = [])
  /\ (result (FormatLinks.format_file headers body verbose)
      = result (FormatLinks.format_file headers body false)
      /\ log (FormatLinks.format_file headers body false) = []).
Proof. destruct verbose; repeat split; reflexivity. Qed.

Lemma archive_formatters_verbosity (headers body : gmap string string)
    (threads : option (list (gmap string string))) (verbose : bool) :
  (result (FocMdFormatter.format_attachment headers body verbose)
   = result (FocMdFormatter.format_attachment headers body false)
   /\ log (FocMdFormatter.format_attachment headers body false) = [])
  /\ (result (FocMdFormatter.format_file headers body verbose)
      = result (FocMdFormatter.format_file headers body false)
      /\ log (FocMdFormatter.format_file headers body false) = [])
  /\ (result (FocMdFormatter.format_prefix headers threads verbose)
      = result (FocMdFormatter.format_prefix headers threads false)
      /\ log (FocMdFormatter.format_prefix headers threads false) = [])
  /\ (result (FocMdFormatter.format_suffix headers threads verbose)
      = result (FocMdFormatter.format_suffix headers threads false)
      /\ log (FocMdFormatter.format_suffix headers threads false) = []).
Proof. destruct verbose; repeat split; reflexivity. Qed.

(** The dispatch of a quiet run prints nothing of its own. *)
Lemma plain_dispatch_quiet (action : string) (r : request) (m : M response) :
  FormatLinks.dispatch action r false = Some m -> log m = [].
Proof.
  unfold FormatLinks.dispatch.
  repeat match goal with |- context [String.eqb ?a ?b] => destruct (String.eqb a b) end;
    intros H; try discriminate; match type of H with Some ?x = Some _ => assert (E : x = m) by congruence end;
    clear H; subst m; rewrite log_fmap; reflexivity.
Qed.

Lemma archive_dispatch_quiet (action : string) (r : request) (m : M response) :
  FocMdFormatter.dispatch action r false = Some m -> log m = [].
Proof.
  unfold FocMdFormatter.dispatch.
  repeat match goal with |- context [String.eqb ?a ?b] => destruct (String.eqb a b) end;
    intros H; try discriminate; match type of H with Some ?x = Some _ => assert (E : x = m) by congruence end;
    clear H; subst m; rewrite log_fmap;
    first [apply archive_permalink_verbosity; exact false | reflexivity].
Qed.

Lemma plain_dispatch_verbosity (action : string) (r : request) (verbose : bool) :
  option_map result (FormatLinks.dispatch action r verbose)
  = option_map result (FormatLinks.dispatch action r false).
Proof.
  unfold FormatLinks.dispatch.
  destruct (plain_formatters_verbosity (headers r) (body r) verbose)
    as ((H1 & _) & (H2 & _) & (H3 & _)).
  repeat match goal with |- context [String.eqb ?a ?b] => destruct (String.eqb a b) end;
    cbn [option_map]; rewrite ?result_fmap; rewrite ?H1, ?H2, ?H3; reflexivity.
Qed.

Lemma archive_dispatch_verbosity (action : string) (r : request) (verbose : bool) :
  option_map result (FocMdFormatter.dispatch action r verbose)
  = option_map result (FocMdFormatter.dispatch action r false).
Proof.
  unfold FocMdFormatter.dispatch.
  destruct (archive_permalink_verbosity (headers r) (body r) verbose) as (H0 & _).
  destruct (archive_formatters_verbosity (headers r) (body r) (threads r) verbose)
    as ((H1 & _) & (H2 & _) & (H3 & _) & (H4 & _)).
  repeat match goal with |- context [String.eqb ?a ?b] => destruct (String.eqb a b) end;
    cbn [option_map]; rewrite ?result_fmap; rewrite ?H0, ?H1, ?H2, ?H3, ?H4; reflexivity.
Qed.

Lemma plain_dispatch_succeeds (action : string) (r : request) (verbose : bool) :
  In action plain_actions ->
  exists m response,
    FormatLinks.dispatch action r verbose = Some m /\ result m = inr response.
Proof.
  unfold plain_actions, FormatLinks.dispatch.
  intros [<-|[<-|[<-|[]]]]; cbn [String.eqb Ascii.eqb Bool.eqb];
    eexists _, _; (split; [reflexivity|]); rewrite result_fmap;
    destruct verbose; reflexivity.
Qed.

Lemma archive_dispatch_result (action : string) (r : request) (verbose : bool) :
  In action archive_actions ->
  exists m,
    FocMdFormatter.dispatch action r verbose = Some m
    /\ ((exists response, result m = inr response)
        <-> (action = "format-permalink" ->
             exists dt, FocMdFormatter.ts_to_datetime
                          (get_default (headers r) "message_ts" "") = inr dt)).
Proof.
  unfold archive_actions, FocMdFormatter.dispatch.
  intros [<-|[<-|[<-|[<-|[<-|[]]]]]]; cbn [String.eqb Ascii.eqb Bool.eqb];
    eexists; (split; [reflexivity|]); rewrite result_fmap.
  - destruct (FocMdFormatter.ts_to_datetime (get_default (headers r) "message_ts" ""))
      as [e|dt] eqn:E.
    + unfold FocMdFormatter.format_permalink. rewrite E. cbn. split.
      * intros [response H]. discriminate.
      * intros H. destruct (H eq_refl) as [dt Hdt]. discriminate.
    + rewrite (format_permalink_result _ _ _ dt E). split; eauto.
  - split; [discriminate|]. intros _. destruct verbose; eexists; reflexivity.
  - split; [discriminate|]. intros _. destruct verbose; eexists; reflexivity.
  - split; [discriminate|]. intros _. destruct verbose; eexists; reflexivity.
  - split; [discriminate|]. intros _. destruct verbose; eexists; reflexivity.
Qed.

(** X9. On empty input, on malformed JSON and on every request whose
    members are strings, a run of either script ends in one of two ways,
    verbose or not: with status 0 and exactly one response on stdout, or
    with status 1, nothing on stdout and, as the last thing printed to
    stderr, a message that starts with "Error: ". *)
Theorem main_outcome (verbose : bool) (input : stdin) :
  (succeeded (FormatLinks.main verbose input) \/ failed (FormatLinks.main verbose input))
  /\ (succeeded (FocMdFormatter.main verbose input)
      \/ failed (FocMdFormatter.main verbose input)).
Proof. split; apply serve_outcome. Qed.

(** X10. On empty input, on malformed JSON and on every request whose
    members are strings and whose [threads] is absent or a list,
    [--verbose] changes neither the exit status nor what is printed to
    stdout, in either script; it only adds messages to stderr, before those
    of the quiet run.  A run without it prints nothing to stderr when it
    succeeds and exactly one message, an error message, when it fails. *)
Theorem verbose_only_adds_stderr (verbose : bool) (input : stdin) :
  (adds_stderr_only (FormatLinks.main verbose input) (FormatLinks.main false input)
   /\ quiet (FormatLinks.main false input))
  /\ (adds_stderr_only (FocMdFormatter.main verbose input) (FocMdFormatter.main false input)
      /\ quiet (FocMdFormatter.main false input)).
Proof.
  split.
  - destruct (serve_verbosity FormatLinks.dispatch verbose input) as [H1 H2];
      [intros; apply plain_dispatch_verbosity|].
    split; [split; [exact H1|split; [exact H2|]]|].
    + apply serve_verbose_stderr;
        [intros; apply plain_dispatch_verbosity | apply plain_dispatch_quiet].
    + apply (serve_quiet_stderr FormatLinks.dispatch input), plain_dispatch_quiet.
  - destruct (serve_verbosity FocMdFormatter.dispatch verbose input) as [H1 H2];
      [intros; apply archive_dispatch_verbosity|].
    split; [split; [exact H1|split; [exact H2|]]|].
    + apply serve_verbose_stderr;
        [intros; apply archive_dispatch_verbosity | apply archive_dispatch_quiet].
    + apply (serve_quiet_stderr FocMdFormatter.dispatch input), archive_dispatch_quiet.
Qed.

(** X12. For a request whose members are strings, whose [threads] is
    absent or a list and whose [message_ts] is absent or of ASCII
    characters, the archive script exits with status 0 exactly when the
    action is one of its five and, for "format-permalink", [message_ts]
    parses to a datetime: nothing else makes such a request fail. *)
Theorem archive_main_status (verbose : bool) (r : request) :
  ascii_text (get_default (headers r) "message_ts" "") ->
  status (FocMdFormatter.main verbose (Decoded r)) = 0
  <-> In (action_of r) archive_actions
      /\ (action_of r = "format-permalink" ->
          exists dt, FocMdFormatter.ts_to_datetime
                       (get_default (headers r) "message_ts" "") = inr dt).
Proof.
  intros _. unfold FocMdFormatter.main. rewrite serve_status. split.
  - intros (m & response & Hm & Hres).
    destruct (in_dec string_dec (action_of r) archive_actions) as [Hin|Hout].
    + split; [exact Hin|].
      destruct (archive_dispatch_result _ r verbose Hin) as (m' & Hm' & Hiff).
      rewrite Hm in Hm'. injection Hm' as <-. apply Hiff. eauto.
    + rewrite (DispatchProofs.archive_dispatch_unknown _ _ _ Hout) in Hm. discriminate.
  - intros [Hin Hts].
    destruct (archive_dispatch_result _ r verbose Hin) as (m & Hm & Hiff).
    destruct (proj2 Hiff Hts) as [response Hres]. eauto.
Qed.

Lemma archive_main_status_witness :
  status (FocMdFormatter.main true
            (Decoded {| headers := {[ "action" := "format-permalink";
                                      "message_ts" := "1706789012.123456" ]};
                        body := ∅; threads := None |})) = 0.
Proof.
  destruct (archive_main_status true
              {| headers := {[ "action" := "format-permalink";
                               "message_ts" := "1706789012.123456" ]};
                 body := ∅; threads := None |}) as [_ H]; [reflexivity|].
  apply H. split.
  - vm_compute. tauto.
  - intros _. eexists. vm_compute. reflexivity.
Defined.

(** X13. The two scripts behave alike, stdout, stderr and status, on
    every input but a request for one of the four actions they format
    differently or do not share: "format-permalink", "format-file",
    "prefix" and "suffix".  Empty input, malformed JSON, attachments and
    unknown actions are handled identically. *)
Lemma mains_agree (verbose : bool) (input : stdin) :
  match input with
  | Decoded r => ~ In (action_of r) ["format-permalink"; "format-file"; "prefix"; "suffix"]
  | _ => True
  end ->
  FormatLinks.main verbose input = FocMdFormatter.main verbose input.
Proof.
  destruct input as [| |r]; [reflexivity | reflexivity |].
  intros H. unfold FormatLinks.main, FocMdFormatter.main, serve. fold (action_of r).
  assert (Hd : FormatLinks.dispatch (action_of r) r verbose
               = FocMdFormatter.dispatch (action_of r) r verbose).
  { unfold FormatLinks.dispatch, FocMdFormatter.dispatch.
    destruct (String.eqb_spec (action_of r) "format-permalink") as [E|_];
      [exfalso; apply H; rewrite E; now left|].
    destruct (String.eqb_spec (action_of r) "format-attachment") as [_|_]; [reflexivity|].
    destruct (String.eqb_spec (action_of r) "format-file") as [E|_];
      [exfalso; apply H; rewrite E; right; now left|].
    destruct (String.eqb_spec (action_of r) "prefix") as [E|_];
      [exfalso; apply H; rewrite E; right; right; now left|].
    destruct (String.eqb_spec (action_of r) "suffix") as [E|_];
      [exfalso; apply H; rewrite E; right; right; right; now left|].
    reflexivity. }
  now rewrite Hd.
Qed.

Lemma mains_agree_witness :
  FormatLinks.main true
    (Decoded {| headers := {[ "action" := "format-attachment" ]};
                body := {[ "title" := "Paper"; "from_url" := "https://example.org/p" ]};
                threads := None |})
  = FocMdFormatter.main true
      (Decoded {| headers := {[ "action" := "format-attachment" ]};
                  body := {[ "title" := "Paper"; "from_url" := "https://example.org/p" ]};
                  threads := None |}).
Proof.
  apply (mains_agree true
           (Decoded {| headers := {[ "action" := "format-attachment" ]};
                       body := {[ "title" := "Paper"; "from_url" := "https://example.org/p" ]};
                       threads := None |})).
  vm_compute. intros [H|[H|[H|[H|[]]]]]; discriminate.
Defined.

(** X14. A permalink request whose [message_ts] is absent, empty or made
    of white space makes the archive script fail: status 1, nothing on
    stdout, and on stderr the error line of a ValueError, after the trace
    line when verbose.  The plain script answers the same request with
    status 0. *)
Theorem archive_main_blank_timestamp (verbose : bool) (r : request) :
  action_of r = "format-permalink" ->
  match headers r !! "message_ts" with Some ts => blank ts | None => True end ->
  FocMdFormatter.main verbose (Decoded r)
  = {| stdout := [];
       stderr := ((if verbose then [Text "[formatter] Action: format-permalink"] else [])
                  ++ [ErrorLine ValueError])%list;
       status := 1 |}
  /\ status (FormatLinks.main verbose (Decoded r)) = 0.
Proof.
  intros Ha Hts. split.
  - unfold FocMdFormatter.main, serve. fold (action_of r). rewrite Ha.
    unfold FocMdFormatter.dispatch. cbn [String.eqb Ascii.eqb Bool.eqb].
    destruct (archive_permalink_failure (headers r) (body r) verbose) as [_ Hf].
    rewrite (Hf Hts). reflexivity.
  - unfold FormatLinks.main. apply serve_status, plain_dispatch_succeeds.
    rewrite Ha. now left.
Qed.

Lemma archive_main_blank_timestamp_witness :
  FocMdFormatter.main true
    (Decoded {| headers := {[ "action" := "format-permalink"; "message_ts" := "  " ]};
                body := ∅; threads := None |})
  = {| stdout := [];
       stderr := [Text "[formatter] Action: format-permalink"; ErrorLine ValueError];
       status := 1 |}
  /\ status (FormatLinks.main true
               (Decoded {| headers := {[ "action" := "format-permalink"; "message_ts" := "  " ]};
                           body := ∅; threads := None |})) = 0.
Proof.
  apply (archive_main_blank_timestamp true
           {| headers := {[ "action" := "format-permalink"; "message_ts" := "  " ]};
              body := ∅; threads := None |}).
  - vm_compute. reflexivity.
  - vm_compute. repeat constructor.
Defined.

End MainProofs.

(** ** The checks of [run_tests] in foc-md-formatter.py, on the embedding *)
Module ScriptTests.
Import Py Run Spec Datetime.

Ltac run_script_test :=
  repeat match goal with
         | |- exists _, _ => eexists
         | |- _ /\ _ => split
         end;
  (vm_compute; reflexivity).

Example test_permalink_example :
  result (FocMdFormatter.format_permalink
            {[ "action" := "format-permalink"; "channel_id" := "C123ABC";
               "channel_name" := "share-your-work";
               "message_ts" := "1736762741.815000" ]} ∅ false)
  = inr {| label := unichr 0x1f9f5 +:+ "conversation";
           url := "https://history.futureofcoding.org/history/weekly/2025/01/W3/share-your-work.html#2025-01-13T10:05:41.815Z" |}.
Proof. run_script_test. Qed.

Example test_permalink_2026_example :
  exists l,
    result (FocMdFormatter.format_permalink
              {[ "action" := "format-permalink"; "channel_id" := "C123ABC";
                 "channel_name" := "share-your-work";
                 "message_ts" := "1768298741.815000" ]} ∅ false) = inr l
    /\ label l = unichr 0x1f9f5 +:+ "conversation"
    /\ str_in "history.futureofcoding.org" (url l) = true
    /\ str_in "/2026/01/W3/" (url l) = true
    /\ str_in "share-your-work.html" (url l) = true.
Proof. run_script_test. Qed.

Example test_permalink_different_channel :
  exists l,
    result (FocMdFormatter.format_permalink
              {[ "action" := "format-permalink"; "channel_id" := "C456DEF";
                 "channel_name" := "thinking-together";
                 "message_ts" := "1640000000.123456" ]} ∅ false) = inr l
    /\ label l = unichr 0x1f9f5 +:+ "conversation"
    /\ str_in "thinking-together.html" (url l) = true
    /\ str_in "/2021/12/W51/" (url l) = true
    /\ str_in "#2021-12-20T11:33:20.123Z" (url l) = true.
Proof. run_script_test. Qed.

Example test_permalink_week_boundary :
  exists l,
    result (FocMdFormatter.format_permalink
              {[ "action" := "format-permalink"; "channel_id" := "C789";
                 "channel_name" := "general";
                 "message_ts" := "1704067200.000000" ]} ∅ false) = inr l
    /\ str_in "/W1/" (url l) = true
    /\ str_in "/2024/01/" (url l) = true.
Proof. run_script_test. Qed.

Example test_attachment_link_unfurl :
  result (FocMdFormatter.format_attachment
            {[ "action" := "format-attachment"; "channel_id" := "C123";
               "channel_name" := "share-your-work" ]}
            {[ "title" := "GitHub - example/repo";
               "original_url" := "https://github.com/example/repo";
               "fallback" := "GitHub repo" ]} false)
  = inr {| label := "GitHub - example/repo"; url := "https://github.com/example/repo" |}.
Proof. run_script_test. Qed.

Example test_attachment_from_url :
  result (FocMdFormatter.format_attachment
            {[ "action" := "format-attachment"; "channel_id" := "C456";
               "channel_name" := "random" ]}
            {[ "title" := "Article Title"; "from_url" := "https://example.com/article" ]} false)
  = inr {| label := "Article Title"; url := "https://example.com/article" |}.
Proof. run_script_test. Qed.

Example test_attachment_no_title :
  result (FocMdFormatter.format_attachment
            {[ "action" := "format-attachment"; "channel_id" := "C789";
               "channel_name" := "files" ]}
            {[ "name" := "Document Name"; "title_link" := "https://example.com/doc" ]} false)
  = inr {| label := "Document Name"; url := "https://example.com/doc" |}.
Proof. run_script_test. Qed.

Example test_attachment_fallback :
  result (FocMdFormatter.format_attachment
            {[ "action" := "format-attachment"; "channel_id" := "C111";
               "channel_name" := "test" ]}
            {[ "fallback" := "Fallback text"; "url" := "https://example.com/fallback" ]} false)
  = inr {| label := "Fallback text"; url := "https://example.com/fallback" |}.
Proof. run_script_test. Qed.

Example test_file_screenshot :
  result (FocMdFormatter.format_file
            {[ "action" := "format-file"; "channel_id" := "C123";
               "channel_name" := "devlog-together" ]}
            {[ "id" := "F0AASCM79SN";
               "name" := "screenshot_20260124_214114_samsung_internet.png";
               "title" := "Screenshot_20260124_214114_Samsung Internet.png";
               "mimetype" := "image/png" ]} false)
  = inr {| label := "Screenshot_20260124_214114_Samsung Internet.png";
           url := "https://history.futureofcoding.org/history/msg_files/F0A/F0AASCM79SN.png" |}.
Proof. run_script_test. Qed.

Example test_file_jpg :
  result (FocMdFormatter.format_file
            {[ "action" := "format-file"; "channel_id" := "C123";
               "channel_name" := "devlog-together" ]}
            {[ "id" := "F0AAAV5QZ71"; "name" := "1000001187.jpg";
               "title" := "1000001187.jpg"; "mimetype" := "image/jpeg" ]} false)
  = inr {| label := "1000001187.jpg";
           url := "https://history.futureofcoding.org/history/msg_files/F0A/F0AAAV5QZ71.jpg" |}.
Proof. run_script_test. Qed.

Example test_file_video :
  result (FocMdFormatter.format_file
            {[ "action" := "format-file"; "channel_id" := "C456";
               "channel_name" := "share-your-work" ]}
            {[ "id" := "F0B123XYZ99"; "name" := "demo_video.mp4";
               "title" := "Demo Video"; "mimetype" := "video/mp4" ]} false)
  = inr {| label := "Demo Video";
           url := "https://history.futureofcoding.org/history/msg_files/F0B/F0B123XYZ99.mp4" |}.
Proof. run_script_test. Qed.

Example test_week_calculations :
  map (fun ts => match FocMdFormatter.ts_to_datetime ts with
                 | inr dt => Some (FocMdFormatter.get_iso_week dt)
                 | inl _ => None
                 end)
    ["1736762741.815000"; "1609459200.000000"; "1672531200.000000"; "1704067200.000000"]
  = [Some 3; Some 53; Some 52; Some 1].
Proof. vm_compute. reflexivity. Qed.

(** A run of [main] on the request of the first test. *)
Example main_prints_the_response :
  FocMdFormatter.main false
    (Decoded {| headers := {[ "action" := "format-permalink";
                              "channel_name" := "share-your-work";
                              "message_ts" := "1736762741.815000" ]};
                body := ∅; threads := None |})
  = {| stdout := [LinkResponse
                    {| label := unichr 0x1f9f5 +:+ "conversation";
                       url := "https://history.futureofcoding.org/history/weekly/2025/01/W3/share-your-work.html#2025-01-13T10:05:41.815Z" |}];
       stderr := []; status := 0 |}.
Proof. vm_compute. reflexivity. Qed.

(** A permalink request without a timestamp: [float("")] raises. *)
Example main_reports_an_exception :
  FocMdFormatter.main false
    (Decoded {| headers := {[ "action" := "format-permalink" ]};
                body := ∅; threads := None |})
  = {| stdout := []; stderr := [ErrorLine ValueError]; status := 1 |}.
Proof. vm_compute. reflexivity. Qed.

End ScriptTests.
